(** * MediFinder ingestor: parser, store and ETL orchestrator

    A shallow embedding of [services/parser.py], [models/database.py],
    [services/etl.py] and [medifinder-ingestor.py], with the properties the
    specification states about them.

    Conventions.
    - A Python [str] is a [string]; a character is a code point below 256.
    - A [date] is the proleptic Gregorian ordinal of a [datetime.date]
      ([date.toordinal()]); the order of dates is the order of ordinals.
    - Numbers read by [float(...)] and stored in numeric columns are kept
      abstract (class [Platform]): the code only tests them against zero.
    - Functions of the Python library and of PostgreSQL that the code calls
      ([float], [strptime], [csv.reader], the connection pool) are fields of
      [Platform] and [env]; everything else is translated from the source.
    - Whether the statements or the commit fail on a connection is a field
      of [env] as well; a transaction that fails is rolled back, so it
      leaves the tables as it found them. *)

From Stdlib Require Import ZArith List String Ascii Bool Lia PeanoNat QArith.
Import ListNotations.
Local Open Scope string_scope.
Local Open Scope nat_scope.

(** ** Python string methods *)

Module PyStr.

(** [str.isspace] on a single character, code points below 256. *)
Definition is_space (c : ascii) : bool :=
  let n := nat_of_ascii c in
  ((9 <=? n) && (n <=? 13)) || ((28 <=? n) && (n <=? 32))
  || (n =? 133) || (n =? 160).

Fixpoint lstrip (s : string) : string :=
  match s with
  | EmptyString => EmptyString
  | String c s' => if is_space c then lstrip s' else s
  end.

Fixpoint rstrip (s : string) : string :=
  match s with
  | EmptyString => EmptyString
  | String c s' =>
      match rstrip s' with
      | EmptyString => if is_space c then EmptyString else String c EmptyString
      | r => String c r
      end
  end.

(** [s.strip()] *)
Definition strip (s : string) : string := rstrip (lstrip s).

(** Truth value of a [str]: [not s] is [is_empty s]. *)
Definition is_empty (s : string) : bool :=
  match s with EmptyString => true | _ => false end.


Fixpoint map_chars (f : ascii -> ascii) (s : string) : string :=
  match s with
  | EmptyString => EmptyString
  | String c s' => String (f c) (map_chars f s')
  end.

Definition lower_char (c : ascii) : ascii :=
  let n := nat_of_ascii c in
  if ((65 <=? n) && (n <=? 90))
     || ((192 <=? n) && (n <=? 222) && negb (n =? 215))
  then ascii_of_nat (n + 32) else c.

(** [str.upper] per character.  The three characters below 256 whose
    upper case is not a single character below 256 (181, 223, 255) are
    left as they are; neither they nor their upper case occur in the
    tokens the code compares against. *)
Definition upper_char (c : ascii) : ascii :=
  let n := nat_of_ascii c in
  if ((97 <=? n) && (n <=? 122))
     || ((224 <=? n) && (n <=? 254) && negb (n =? 247))
  then ascii_of_nat (n - 32) else c.

Definition lower : string -> string := map_chars lower_char.
Definition upper : string -> string := map_chars upper_char.

(** [s.replace(a, b)] for single characters [a] and [b]. *)
Definition replace (a b : ascii) : string -> string :=
  map_chars (fun c => if Ascii.eqb c a then b else c).

(** [s.startswith(p)] *)
Definition startswith (s p : string) : bool := String.prefix p s.

(** [x in xs] for strings. *)
Definition mem (x : string) (xs : list string) : bool :=
  existsb (String.eqb x) xs.

(** The character map of [s.replace(',', '.')]. *)
Definition comma_to_period (c : ascii) : ascii :=
  if Ascii.eqb c "," then "."%char else c.

(** A string without comma and period. *)
Fixpoint no_separator (t : string) : Prop :=
  match t with
  | EmptyString => True
  | String c t' => c <> ","%char /\ c <> "."%char /\ no_separator t'
  end.

End PyStr.

Import PyStr.

(** ** Dates, numbers and the library functions the code calls *)

Definition date := Z.
Definition timestamp := Z.
Bind Scope Z_scope with date timestamp.

Class Platform : Type := {
  (** a Python [float] / a value of a numeric column *)
  num : Type;
  (** the literal [0] *)
  num_zero : num;
  (** [bool(x)] for a number *)
  num_truthy : num -> bool;
  (** SQL [x > 0] *)
  num_pos : num -> bool;
  (** [float(s)]; [None] when it raises [ValueError] *)
  py_float : string -> option num;
  (** [datetime.strptime(s, '%Y-%m-%d').date()]; [None] on [ValueError] *)
  strptime_ymd : string -> option date;
  (** [next(csv.reader(io.StringIO(line), delimiter='|'))]; [None] when
      the reader raises *)
  csv_row : string -> option (list string);
  (** the value an [INSERT] that does not name [updated_at] leaves in that
      column, given the transaction's timestamp (the table definitions are
      not part of the sources) *)
  updated_at_default : timestamp -> option timestamp
}.

(** ** services/parser.py *)

Module Parser.

(** [config.settings.COLUMNS] *)
Definition COLUMNS : list string :=
  [ "nombre_ejecutora"; "diresa"; "categoria"; "codpre"; "reportante";
    "tipsum"; "codmed"; "nombre_prod"; "tipo_prod"; "stk";
    "cpma"; "consumo_acum_4m"; "med"; "fechareporte"; "estado";
    "institucion"; "tipo_reportante"; "consumo_ult_mes"; "stk_ult_mes";
    "indicador"; "cpma_hace_12_meses_a"; "cpma_hace_24_meses_a";
    "cpma_hace_36_meses_a"; "consumo_acum_12m"; "fin" ].

Definition required_indices : list nat := [0; 1; 2; 3; 6; 7; 8].

(** The marker tested by [line.startswith(...)] in [parse]: the two
    characters with code points 255 and 254. *)
Definition bom_marker : string :=
  String (ascii_of_nat 255) (String (ascii_of_nat 254) EmptyString).

Section WithPlatform.
Context {P : Platform}.

(** The dictionary [_create_record] returns, one field per column. *)
Record record : Type := {
  nombre_ejecutora : string;
  diresa : string;
  categoria : string;
  codpre : string;
  reportante : string;
  tipsum : string;
  codmed : string;
  nombre_prod : string;
  tipo_prod : string;
  stk : option num;
  cpma : option num;
  consumo_acum_4m : option num;
  med : option num;
  fechareporte : option date;
  estado : string;
  institucion : string;
  tipo_reportante : string;
  consumo_ult_mes : option num;
  stk_ult_mes : option num;
  indicador : string;
  cpma_hace_12_meses_a : option num;
  cpma_hace_24_meses_a : option num;
  cpma_hace_36_meses_a : option num;
  consumo_acum_12m : option num;
  fin : string
}.

(** [FileParser._validate_record] *)
Definition _validate_record (values : list string) : bool :=
  if List.length values <? List.length COLUMNS then false
  else
    forallb
      (fun idx =>
         negb ((List.length values <=? idx)
               || is_empty (strip (nth idx values ""))))
      required_indices.

(** The body of the numeric loop of [_create_record] for one field. *)
Definition to_number (s : string) : option num :=
  if negb (is_empty s) && negb (String.eqb (lower s) "null")
  then py_float (replace "," "." s)
  else None.

(** The date conversion of [_create_record]. *)
Definition to_date (s : string) : option date :=
  if negb (is_empty s) then strptime_ymd s else None.

Definition pad (values : list string) : list string :=
  firstn (List.length COLUMNS)
         (values ++ repeat "" (List.length COLUMNS - List.length values))%list.

(** [FileParser._create_record] *)
Definition _create_record (values : list string) : record :=
  let field i := strip (nth i (pad values) "") in
  {| nombre_ejecutora := field 0;
     diresa := field 1;
     categoria := field 2;
     codpre := field 3;
     reportante := field 4;
     tipsum := field 5;
     codmed := field 6;
     nombre_prod := field 7;
     tipo_prod := field 8;
     stk := to_number (field 9);
     cpma := to_number (field 10);
     consumo_acum_4m := to_number (field 11);
     med := to_number (field 12);
     fechareporte := to_date (field 13);
     estado := field 14;
     institucion := field 15;
     tipo_reportante := field 16;
     consumo_ult_mes := to_number (field 17);
     stk_ult_mes := to_number (field 18);
     indicador := field 19;
     cpma_hace_12_meses_a := to_number (field 20);
     cpma_hace_24_meses_a := to_number (field 21);
     cpma_hace_36_meses_a := to_number (field 22);
     consumo_acum_12m := to_number (field 23);
     fin := field 24 |}.

(** The numeric columns, each with its position in [COLUMNS]:
    [numeric_fields] of [_create_record]. *)
Definition numeric_fields : list (nat * (record -> option num)) :=
  [ (9, stk); (10, cpma); (11, consumo_acum_4m); (12, med);
    (17, consumo_ult_mes); (18, stk_ult_mes);
    (20, cpma_hace_12_meses_a); (21, cpma_hace_24_meses_a);
    (22, cpma_hace_36_meses_a); (23, consumo_acum_12m) ].

(** The local variables of [parse]. *)
Record parse_state : Type := {
  records : list record;
  line_count : nat;
  error_count : nat
}.

Definition parse_init : parse_state :=
  {| records := []; line_count := 0; error_count := 0 |}.

Definition count_error (st : parse_state) : parse_state :=
  {| records := records st;
     line_count := line_count st;
     error_count := S (error_count st) |}.

Definition add_record (st : parse_state) (r : record) : parse_state :=
  {| records := (records st ++ [r])%list;
     line_count := S (line_count st);
     error_count := error_count st |}.

(** A line is handed to the splitter unless it is blank or starts with
    the marker. *)
Definition skipped_line (line : string) : bool :=
  is_empty (strip line) || startswith (strip line) bom_marker.

(** One iteration of the [for line_num, line in enumerate(file, 1)]
    loop of [parse]. *)
Definition parse_line (st : parse_state) (line : string) : parse_state :=
  let line := strip line in
  if is_empty line || startswith line bom_marker then st
  else
    match csv_row line with
    | None => count_error st
    | Some values =>
        if negb (_validate_record values) then count_error st
        else add_record st (_create_record values)
    end.

Definition parse_lines (st : parse_state) (lines : list string)
  : parse_state :=
  fold_left parse_line lines st.

(** The lines the loop sees: all of them, or all but a header. *)
Definition after_header (lines : list string) : list string :=
  match lines with
  | [] => []
  | first_line :: rest =>
      if startswith (strip first_line) "nombre_ejecutora" then rest
      else lines
  end.

(** [FileParser.parse] on the decoded lines of the file. *)
Definition parse (lines : list string) : parse_state :=
  parse_lines parse_init (after_header lines).

End WithPlatform.

End Parser.

(** ** models/database.py: the tables and the SQL statements *)

Definition ident := Z.
Bind Scope Z_scope with ident.

Section Tables.
Context {P : Platform}.

(** [regions(region_id, name)] *)
Record region_row : Type := {
  rg_region_id : ident;
  rg_name : string
}.

(** [medical_centers(center_id, code, name, region_id, category,
    reporter_name, institution_type, reporter_type, updated_at)] *)
Record center_row : Type := {
  mc_center_id : ident;
  mc_code : string;
  mc_name : string;
  mc_region_id : ident;
  mc_category : string;
  mc_reporter_name : string;
  mc_institution_type : string;
  mc_reporter_type : string;
  mc_updated_at : option timestamp
}.

(** [product_types(type_id, code, name)] *)
Record product_type_row : Type := {
  pt_type_id : ident;
  pt_code : string;
  pt_name : string
}.

(** [products(product_id, code, name, type_id, updated_at)] *)
Record product_row : Type := {
  pr_product_id : ident;
  pr_code : string;
  pr_name : string;
  pr_type_id : ident;
  pr_updated_at : option timestamp
}.

(** [inventory(...)], unique on [(center_id, product_id, report_date)].
    A numeric column holds [None] for SQL [NULL]. *)
Record inventory_row : Type := {
  inv_inventory_id : ident;
  inv_center_id : ident;
  inv_product_id : ident;
  inv_report_date : date;
  inv_current_stock : option num;
  inv_avg_monthly_consumption : option num;
  inv_accumulated_consumption_4m : option num;
  inv_measurement : option num;
  inv_last_month_consumption : option num;
  inv_last_month_stock : option num;
  inv_status_indicator : string;
  inv_cpma_12_months_ago : option num;
  inv_cpma_24_months_ago : option num;
  inv_cpma_36_months_ago : option num;
  inv_accumulated_consumption_12m : option num;
  inv_status : string;
  inv_updated_at : option timestamp
}.

(** The five tables, each with the next value of its serial key. *)
Record database : Type := {
  regions : list region_row;
  regions_seq : ident;
  medical_centers : list center_row;
  medical_centers_seq : ident;
  product_types : list product_type_row;
  product_types_seq : ident;
  products : list product_row;
  products_seq : ident;
  inventory : list inventory_row;
  inventory_seq : ident
}.

(** The dictionaries the ETL passes to the store. *)
Record center_data : Type := {
  cd_code : string;
  cd_name : string;
  cd_region_id : ident;
  cd_category : string;
  cd_reporter_name : string;
  cd_institution_type : string;
  cd_reporter_type : string
}.

Record product_data : Type := {
  pd_code : string;
  pd_name : string;
  pd_type_id : ident
}.

Record inventory_data : Type := {
  id_center_id : ident;
  id_product_id : ident;
  id_current_stock : option num;
  id_avg_monthly_consumption : option num;
  id_accumulated_consumption_4m : option num;
  id_measurement : option num;
  id_last_month_consumption : option num;
  id_last_month_stock : option num;
  id_status_indicator : string;
  id_cpma_12_months_ago : option num;
  id_cpma_24_months_ago : option num;
  id_cpma_36_months_ago : option num;
  id_accumulated_consumption_12m : option num;
  id_report_date : date;
  id_status : string
}.

End Tables.

(** The statements each method of [DatabaseManager] executes inside its
    cursor, as functions of the transaction's [CURRENT_TIMESTAMP] and of the
    tables. *)
Module Sql.
Section WithPlatform.
Context {P : Platform}.

Definition set_regions (db : database) (t : list region_row) (s : ident)
  : database :=
  {| regions := t; regions_seq := s;
     medical_centers := medical_centers db;
     medical_centers_seq := medical_centers_seq db;
     product_types := product_types db;
     product_types_seq := product_types_seq db;
     products := products db; products_seq := products_seq db;
     inventory := inventory db; inventory_seq := inventory_seq db |}.

Definition set_medical_centers (db : database) (t : list center_row)
           (s : ident) : database :=
  {| regions := regions db; regions_seq := regions_seq db;
     medical_centers := t; medical_centers_seq := s;
     product_types := product_types db;
     product_types_seq := product_types_seq db;
     products := products db; products_seq := products_seq db;
     inventory := inventory db; inventory_seq := inventory_seq db |}.

Definition set_product_types (db : database) (t : list product_type_row)
           (s : ident) : database :=
  {| regions := regions db; regions_seq := regions_seq db;
     medical_centers := medical_centers db;
     medical_centers_seq := medical_centers_seq db;
     product_types := t; product_types_seq := s;
     products := products db; products_seq := products_seq db;
     inventory := inventory db; inventory_seq := inventory_seq db |}.

Definition set_products (db : database) (t : list product_row)
           (s : ident) : database :=
  {| regions := regions db; regions_seq := regions_seq db;
     medical_centers := medical_centers db;
     medical_centers_seq := medical_centers_seq db;
     product_types := product_types db;
     product_types_seq := product_types_seq db;
     products := t; products_seq := s;
     inventory := inventory db; inventory_seq := inventory_seq db |}.

Definition set_inventory (db : database) (t : list inventory_row)
           (s : ident) : database :=
  {| regions := regions db; regions_seq := regions_seq db;
     medical_centers := medical_centers db;
     medical_centers_seq := medical_centers_seq db;
     product_types := product_types db;
     product_types_seq := product_types_seq db;
     products := products db; products_seq := products_seq db;
     inventory := t; inventory_seq := s |}.

(** [get_or_create_region] *)
Definition get_or_create_region (region_name : string)
           (now : timestamp) (db : database) : ident * database :=
  match find (fun r => String.eqb (rg_name r) region_name) (regions db) with
  | Some result => (rg_region_id result, db)
  | None =>
      let new_id := regions_seq db in
      (new_id,
       set_regions db
         (regions db ++ [{| rg_region_id := new_id;
                            rg_name := region_name |}])%list
         (new_id + 1)%Z)
  end.

(** [UPDATE medical_centers SET ... WHERE code = %(code)s] on one row *)
Definition update_center (d : center_data) (now : timestamp)
           (r : center_row) : center_row :=
  if String.eqb (mc_code r) (cd_code d) then
    {| mc_center_id := mc_center_id r;
       mc_code := mc_code r;
       mc_name := cd_name d;
       mc_region_id := cd_region_id d;
       mc_category := cd_category d;
       mc_reporter_name := cd_reporter_name d;
       mc_institution_type := cd_institution_type d;
       mc_reporter_type := cd_reporter_type d;
       mc_updated_at := Some now |}
  else r.

(** [get_or_create_medical_center] *)
Definition get_or_create_medical_center (d : center_data)
           (now : timestamp) (db : database) : ident * database :=
  match find (fun r => String.eqb (mc_code r) (cd_code d))
             (medical_centers db) with
  | Some result =>
      (mc_center_id result,
       set_medical_centers db
         (map (update_center d now) (medical_centers db))
         (medical_centers_seq db))
  | None =>
      let new_id := medical_centers_seq db in
      (new_id,
       set_medical_centers db
         (medical_centers db ++
          [{| mc_center_id := new_id;
              mc_code := cd_code d;
              mc_name := cd_name d;
              mc_region_id := cd_region_id d;
              mc_category := cd_category d;
              mc_reporter_name := cd_reporter_name d;
              mc_institution_type := cd_institution_type d;
              mc_reporter_type := cd_reporter_type d;
              mc_updated_at := updated_at_default now |}])%list
         (new_id + 1)%Z)
  end.

(** [UPDATE products SET ... WHERE code = %(code)s] on one row *)
Definition update_product (d : product_data) (now : timestamp)
           (r : product_row) : product_row :=
  if String.eqb (pr_code r) (pd_code d) then
    {| pr_product_id := pr_product_id r;
       pr_code := pr_code r;
       pr_name := pd_name d;
       pr_type_id := pd_type_id d;
       pr_updated_at := Some now |}
  else r.

(** [get_or_create_product] *)
Definition get_or_create_product (d : product_data)
           (now : timestamp) (db : database) : ident * database :=
  match find (fun r => String.eqb (pr_code r) (pd_code d)) (products db) with
  | Some result =>
      (pr_product_id result,
       set_products db (map (update_product d now) (products db))
                    (products_seq db))
  | None =>
      let new_id := products_seq db in
      (new_id,
       set_products db
         (products db ++
          [{| pr_product_id := new_id;
              pr_code := pd_code d;
              pr_name := pd_name d;
              pr_type_id := pd_type_id d;
              pr_updated_at := updated_at_default now |}])%list
         (new_id + 1)%Z)
  end.

(** One row of [INSERT INTO product_types ... ON CONFLICT (code) DO
    NOTHING]: the key is drawn from the sequence before the conflict is
    seen. *)
Definition insert_type_if_absent (code name : string) (db : database)
  : database :=
  let new_id := product_types_seq db in
  if existsb (fun r => String.eqb (pt_code r) code) (product_types db)
  then set_product_types db (product_types db) (new_id + 1)%Z
  else
    set_product_types db
      (product_types db ++
       [{| pt_type_id := new_id; pt_code := code; pt_name := name |}])%list
      (new_id + 1)%Z.

Definition select_type_id (type_code : string) (db : database)
  : option ident :=
  option_map pt_type_id
    (find (fun r => String.eqb (pt_code r) type_code) (product_types db)).

(** [get_product_type_id] *)
Definition get_product_type_id (type_code : string)
           (now : timestamp) (db : database) : option ident * database :=
  match select_type_id type_code db with
  | Some result => (Some result, db)
  | None =>
      let db' :=
        insert_type_if_absent "I" "Instrument/Supply"
          (insert_type_if_absent "M" "Medicine" db) in
      (select_type_id type_code db', db')
  end.

(** The arbiter of [ON CONFLICT (center_id, product_id, report_date)] *)
Definition same_key (d : inventory_data) (r : inventory_row) : bool :=
  (inv_center_id r =? id_center_id d)%Z
  && (inv_product_id r =? id_product_id d)%Z
  && (inv_report_date r =? id_report_date d)%Z.

(** The natural key of a row and of an incoming fact, and the
    uniqueness constraint that [ON CONFLICT] names. *)
Definition row_key (r : inventory_row) : ident * ident * date :=
  (inv_center_id r, inv_product_id r, inv_report_date r).

Definition data_key (d : inventory_data) : ident * ident * date :=
  (id_center_id d, id_product_id d, id_report_date d).


(** The row [INSERT INTO inventory (...) VALUES (...)] proposes. *)
Definition proposed_row (new_id : ident) (d : inventory_data)
           (now : timestamp) : inventory_row :=
  {| inv_inventory_id := new_id;
     inv_center_id := id_center_id d;
     inv_product_id := id_product_id d;
     inv_report_date := id_report_date d;
     inv_current_stock := id_current_stock d;
     inv_avg_monthly_consumption := id_avg_monthly_consumption d;
     inv_accumulated_consumption_4m := id_accumulated_consumption_4m d;
     inv_measurement := id_measurement d;
     inv_last_month_consumption := id_last_month_consumption d;
     inv_last_month_stock := id_last_month_stock d;
     inv_status_indicator := id_status_indicator d;
     inv_cpma_12_months_ago := id_cpma_12_months_ago d;
     inv_cpma_24_months_ago := id_cpma_24_months_ago d;
     inv_cpma_36_months_ago := id_cpma_36_months_ago d;
     inv_accumulated_consumption_12m := id_accumulated_consumption_12m d;
     inv_status := id_status d;
     inv_updated_at := updated_at_default now |}.

(** [DO UPDATE SET col = EXCLUDED.col, ..., updated_at =
    CURRENT_TIMESTAMP] on one row *)
Definition do_update (d : inventory_data) (now : timestamp)
           (r : inventory_row) : inventory_row :=
  if same_key d r then
    {| inv_inventory_id := inv_inventory_id r;
       inv_center_id := inv_center_id r;
       inv_product_id := inv_product_id r;
       inv_report_date := inv_report_date r;
       inv_current_stock := id_current_stock d;
       inv_avg_monthly_consumption := id_avg_monthly_consumption d;
       inv_accumulated_consumption_4m := id_accumulated_consumption_4m d;
       inv_measurement := id_measurement d;
       inv_last_month_consumption := id_last_month_consumption d;
       inv_last_month_stock := id_last_month_stock d;
       inv_status_indicator := id_status_indicator d;
       inv_cpma_12_months_ago := id_cpma_12_months_ago d;
       inv_cpma_24_months_ago := id_cpma_24_months_ago d;
       inv_cpma_36_months_ago := id_cpma_36_months_ago d;
       inv_accumulated_consumption_12m := id_accumulated_consumption_12m d;
       inv_status := id_status d;
       inv_updated_at := Some now |}
  else r.

(** [update_inventory] *)
Definition update_inventory (d : inventory_data)
           (now : timestamp) (db : database) : unit * database :=
  let new_id := inventory_seq db in
  if existsb (same_key d) (inventory db) then
    (tt, set_inventory db (map (do_update d now) (inventory db))
                       (new_id + 1)%Z)
  else
    (tt, set_inventory db (inventory db ++ [proposed_row new_id d now])%list
                       (new_id + 1)%Z).

(** [WHERE report_date < %s AND current_stock > 0] *)
Definition stale (report_date : date) (r : inventory_row) : bool :=
  (inv_report_date r <? report_date)%Z
  && match inv_current_stock r with
     | Some x => num_pos x
     | None => false
     end.

(** [SET current_stock = 0, updated_at = CURRENT_TIMESTAMP,
    status_indicator = 'Desabastecido'] on one row *)
Definition zero_stock (report_date : date) (now : timestamp)
           (r : inventory_row) : inventory_row :=
  if stale report_date r then
    {| inv_inventory_id := inv_inventory_id r;
       inv_center_id := inv_center_id r;
       inv_product_id := inv_product_id r;
       inv_report_date := inv_report_date r;
       inv_current_stock := Some num_zero;
       inv_avg_monthly_consumption := inv_avg_monthly_consumption r;
       inv_accumulated_consumption_4m := inv_accumulated_consumption_4m r;
       inv_measurement := inv_measurement r;
       inv_last_month_consumption := inv_last_month_consumption r;
       inv_last_month_stock := inv_last_month_stock r;
       inv_status_indicator := "Desabastecido";
       inv_cpma_12_months_ago := inv_cpma_12_months_ago r;
       inv_cpma_24_months_ago := inv_cpma_24_months_ago r;
       inv_cpma_36_months_ago := inv_cpma_36_months_ago r;
       inv_accumulated_consumption_12m := inv_accumulated_consumption_12m r;
       inv_status := inv_status r;
       inv_updated_at := Some now |}
  else r.

(** [mark_missing_inventory_as_zero]: the result is [cursor.rowcount]. *)
Definition mark_missing_inventory_as_zero (report_date : date)
           (now : timestamp) (db : database) : nat * database :=
  (List.length (filter (stale report_date) (inventory db)),
   set_inventory db (map (zero_stock report_date now) (inventory db))
                 (inventory_seq db)).

End WithPlatform.
End Sql.

(** ** models/database.py: connections and the methods of DatabaseManager *)

(** The exceptions the model distinguishes: [ValueError] is raised by the
    ETL itself; [OperationalError] stands for the two classes
    [get_connection] catches, [psycopg2.OperationalError] and
    [psycopg2.InterfaceError], raised by the pool or by a statement on a
    lost connection; [DatabaseError] for any other exception a statement
    or the commit raises; [RuntimeError] is raised by [contextlib] for a
    generator that does not yield, or that yields again after an
    exception was thrown into it. *)
Inductive exn : Type :=
| ValueError (msg : string)
| OperationalError
| DatabaseError
| RuntimeError.

(** How the statements run on a connection can fail: with one of the
    classes [get_connection] catches, or with any other exception. *)
Inductive fault : Type :=
| ConnectionLost
| StatementError.

(** What a run meets outside the program: whether the [n]-th call of
    [pool.getconn()] hands out a connection or raises [OperationalError],
    whether the statements run on that connection, up to and including
    [conn.commit()], raise, the [CURRENT_TIMESTAMP] of the transaction
    opened on it, and [datetime.now().date()]. *)
Record env : Type := {
  getconn_ok : nat -> bool;
  stmt_fault : nat -> option fault;
  txn_time : nat -> timestamp;
  today : date
}.

Module Store.
Section WithPlatform.
Context {P : Platform} (E : env).

(** A [DatabaseManager]: the tables behind it and the number of
    [pool.getconn()] calls made so far. *)
Record world : Type := {
  db : database;
  attempts : nat
}.

(** [get_connection]: the loop [for attempt in range(retries)] with
    [left] iterations to go, up to the [yield].  The result is the
    number of the call that got the connection. *)
Fixpoint get_connection_loop (left : nat) (n : nat) : nat * (exn + nat) :=
  match left with
  | 0 => (n, inl RuntimeError)
  | S left' =>
      if getconn_ok E n then (S n, inr n)
      else
        match left' with
        | 0 => (S n, inl OperationalError)
        | S _ => get_connection_loop left' (S n)
        end
  end.

Definition get_connection (retries : nat) (n : nat) : nat * (exn + nat) :=
  get_connection_loop retries n.

(** [get_connection] from the [except] clause on: an [OperationalError]
    or [InterfaceError] was thrown in at the [yield] of iteration
    [attempt], after [n] pool calls.  On the last iteration it is raised
    again; otherwise the loop goes on, and a connection it gets is
    yielded a second time, which [contextlib] answers with
    [RuntimeError]. *)
Definition get_connection_throw (retries : nat) (attempt : nat) (n : nat)
  : nat * exn :=
  if Nat.eqb attempt (retries - 1) then (n, OperationalError)
  else
    match get_connection_loop (retries - (attempt + 1)) n with
    | (n', inr _) => (n', RuntimeError)
    | (n', inl e) => (n', e)
    end.

(** [get_cursor] around the statements of one method: [retries=3].  The
    statements of the [with] body either all run and are committed, or
    one of them (or the commit) raises: then [conn.rollback()] leaves
    the tables as they were and the exception goes through
    [get_connection], which lets every class but the two it catches
    pass. *)
Definition get_cursor {A : Type}
           (body : timestamp -> database -> A * database)
           (w : world) : world * (exn + A) :=
  match get_connection 3 (attempts w) with
  | (n, inl e) => ({| db := db w; attempts := n |}, inl e)
  | (n, inr k) =>
      match stmt_fault E k with
      | None =>
          let (a, db') := body (txn_time E k) (db w) in
          ({| db := db'; attempts := n |}, inr a)
      | Some StatementError =>
          ({| db := db w; attempts := n |}, inl DatabaseError)
      | Some ConnectionLost =>
          let (n', e) := get_connection_throw 3 (k - attempts w) n in
          ({| db := db w; attempts := n' |}, inl e)
      end
  end.

Definition get_or_create_region (region_name : string) :=
  get_cursor (Sql.get_or_create_region region_name).

Definition get_or_create_medical_center (d : center_data) :=
  get_cursor (Sql.get_or_create_medical_center d).

Definition get_or_create_product (d : product_data) :=
  get_cursor (Sql.get_or_create_product d).

Definition get_product_type_id (type_code : string) :=
  get_cursor (Sql.get_product_type_id type_code).

Definition update_inventory (d : inventory_data) :=
  get_cursor (Sql.update_inventory d).

Definition mark_missing_inventory_as_zero (report_date : date) :=
  get_cursor (Sql.mark_missing_inventory_as_zero report_date).

End WithPlatform.
End Store.

(** ** services/etl.py *)

Module ETL.
Import Parser.

(** [config.settings.BATCH_SIZE] *)
Definition BATCH_SIZE : nat := 1000.

(** [self.stats] *)
Record stats : Type := {
  regions_created : nat;
  centers_created : nat;
  centers_updated : nat;
  products_created : nat;
  products_updated : nat;
  inventory_created : nat;
  inventory_updated : nat;
  errors : nat;
  processed : nat;
  skipped : nat
}.

Definition stats_init : stats :=
  {| regions_created := 0; centers_created := 0; centers_updated := 0;
     products_created := 0; products_updated := 0;
     inventory_created := 0; inventory_updated := 0;
     errors := 0; processed := 0; skipped := 0 |}.

Definition incr_regions_created (s : stats) : stats :=
  {| regions_created := regions_created s + 1;
     centers_created := centers_created s;
     centers_updated := centers_updated s;
     products_created := products_created s;
     products_updated := products_updated s;
     inventory_created := inventory_created s;
     inventory_updated := inventory_updated s;
     errors := errors s; processed := processed s; skipped := skipped s |}.

Definition incr_errors (s : stats) : stats :=
  {| regions_created := regions_created s;
     centers_created := centers_created s;
     centers_updated := centers_updated s;
     products_created := products_created s;
     products_updated := products_updated s;
     inventory_created := inventory_created s;
     inventory_updated := inventory_updated s;
     errors := errors s + 1; processed := processed s;
     skipped := skipped s |}.

Definition incr_processed (s : stats) : stats :=
  {| regions_created := regions_created s;
     centers_created := centers_created s;
     centers_updated := centers_updated s;
     products_created := products_created s;
     products_updated := products_updated s;
     inventory_created := inventory_created s;
     inventory_updated := inventory_updated s;
     errors := errors s; processed := processed s + 1;
     skipped := skipped s |}.

Definition incr_skipped (s : stats) : stats :=
  {| regions_created := regions_created s;
     centers_created := centers_created s;
     centers_updated := centers_updated s;
     products_created := products_created s;
     products_updated := products_updated s;
     inventory_created := inventory_created s;
     inventory_updated := inventory_updated s;
     errors := errors s; processed := processed s;
     skipped := skipped s + 1 |}.

Section WithPlatform.
Context {P : Platform} (E : env).

(** An [ETLProcessor]: its attributes, [self.db] being the manager. *)
Record processor : Type := {
  the_stats : stats;
  processed_items : list (ident * ident);
  latest_report_date : option date;
  the_db : Store.world
}.

(** [ETLProcessor.__init__] *)
Definition init (db_manager : Store.world) : processor :=
  {| the_stats := stats_init;
     processed_items := [];
     latest_report_date := None;
     the_db := db_manager |}.

(** Methods run on the processor, mutate it, and return or raise; what
    was mutated before a [raise] stays mutated. *)
Definition M (A : Type) : Type := processor -> processor * (exn + A).

Definition ret {A : Type} (a : A) : M A := fun s => (s, inr a).

Definition bind {A B : Type} (c : M A) (k : A -> M B) : M B :=
  fun s =>
    match c s with
    | (s', inr a) => k a s'
    | (s', inl e) => (s', inl e)
    end.

Definition raise {A : Type} (e : exn) : M A := fun s => (s, inl e).

(** [try: c except Exception as e: h e] *)
Definition try_except {A : Type} (c : M A) (h : exn -> M A) : M A :=
  fun s =>
    match c s with
    | (s', inl e) => h e s'
    | r => r
    end.

Definition modify (f : processor -> processor) : M unit :=
  fun s => (f s, inr tt).

Definition get : M processor := fun s => (s, inr s).

(** A method of [self.db]. *)
Definition call_db {A : Type}
           (f : Store.world -> Store.world * (exn + A)) : M A :=
  fun s =>
    let (w, r) := f (the_db s) in
    ({| the_stats := the_stats s;
        processed_items := processed_items s;
        latest_report_date := latest_report_date s;
        the_db := w |}, r).

Definition update_stats (f : stats -> stats) : M unit :=
  modify (fun s =>
            {| the_stats := f (the_stats s);
               processed_items := processed_items s;
               latest_report_date := latest_report_date s;
               the_db := the_db s |}).


Notation "x <- c ;; k" := (bind c (fun x => k))
  (at level 61, c at next level, right associativity).
Notation "c ;; k" := (bind c (fun _ => k))
  (at level 61, right associativity).

(** [for x in xs: body x] *)
Fixpoint for_each {A : Type} (body : A -> M unit) (xs : list A) : M unit :=
  match xs with
  | [] => ret tt
  | x :: xs' => body x ;; for_each body xs'
  end.

(** Truth value of [record.get('fechareporte')]: a date is true. *)
Definition date_truthy (d : option date) : bool :=
  match d with Some _ => true | None => false end.

(** [ETLProcessor._validate_record] *)
Definition _validate_record (record : record) : bool :=
  let required_fields :=
    [ negb (is_empty (diresa record));
      negb (is_empty (codpre record));
      negb (is_empty (nombre_ejecutora record));
      negb (is_empty (categoria record));
      negb (is_empty (codmed record));
      negb (is_empty (nombre_prod record));
      negb (is_empty (tipo_prod record));
      date_truthy (fechareporte record) ] in
  if negb (forallb (fun present => present) required_fields) then false
  else
    match stk record with
    | None => false
    | Some _ => true
    end.

Definition set_latest_report_date (d : date) (s : processor) : processor :=
  {| the_stats := the_stats s;
     processed_items := processed_items s;
     latest_report_date := Some d;
     the_db := the_db s |}.

(** The first statement of the [try] block of [_process_record]. *)
Definition track_latest_report_date (record : record) : M unit :=
  modify (fun s =>
            match fechareporte record with
            | None => s
            | Some d =>
                match latest_report_date s with
                | None => set_latest_report_date d s
                | Some latest =>
                    if (d >? latest)%Z then set_latest_report_date d s
                    else s
                end
            end).

(** [ETLProcessor._process_region] *)
Definition _process_region (record : record) : M ident :=
  let region_name := diresa record in
  if is_empty region_name
     || mem (upper region_name) ["NULL"; "NONE"; ""]
  then raise (ValueError ("Invalid region name: " ++ region_name))
  else
    try_except
      (region_id <- call_db (Store.get_or_create_region E region_name) ;;
       update_stats incr_regions_created ;;
       ret region_id)
      (fun e => raise e).

(** [ETLProcessor._process_medical_center] *)
Definition _process_medical_center (record : record) (region_id : ident)
  : M ident :=
  let center_data :=
    {| cd_code := codpre record;
       cd_name := nombre_ejecutora record;
       cd_region_id := region_id;
       cd_category := categoria record;
       cd_reporter_name := reportante record;
       cd_institution_type := institucion record;
       cd_reporter_type := tipo_reportante record |} in
  try_except
    (call_db (Store.get_or_create_medical_center E center_data))
    (fun e => raise e).

(** Truth value of the result of [get_product_type_id]. *)
Definition id_truthy (i : option ident) : bool :=
  match i with
  | Some n => negb (n =? 0)%Z
  | None => false
  end.

(** [ETLProcessor._process_product] *)
Definition _process_product (record : record) : M ident :=
  let type_code := tipo_prod record in
  type_id <- call_db (Store.get_product_type_id E type_code) ;;
  match type_id with
  | Some tid =>
      if negb (id_truthy type_id)
      then raise (ValueError ("Invalid product type code: " ++ type_code))
      else
        let product_data :=
          {| pd_code := codmed record;
             pd_name := nombre_prod record;
             pd_type_id := tid |} in
        try_except
          (call_db (Store.get_or_create_product E product_data))
          (fun e => raise e)
  | None => raise (ValueError ("Invalid product type code: " ++ type_code))
  end.

(** [record['stk'] or 0] *)
Definition stk_or_zero (x : option num) : num :=
  match x with
  | Some v => if num_truthy v then v else num_zero
  | None => num_zero
  end.

(** The dictionary [inventory_data] of [_process_inventory]. *)
Definition make_inventory_data (record : record)
           (center_id product_id : ident) : inventory_data :=
  {| id_center_id := center_id;
     id_product_id := product_id;
     id_current_stock := Some (stk_or_zero (stk record));
     id_avg_monthly_consumption := cpma record;
     id_accumulated_consumption_4m := consumo_acum_4m record;
     id_measurement := med record;
     id_last_month_consumption := consumo_ult_mes record;
     id_last_month_stock := stk_ult_mes record;
     id_status_indicator := indicador record;
     id_cpma_12_months_ago := cpma_hace_12_meses_a record;
     id_cpma_24_months_ago := cpma_hace_24_meses_a record;
     id_cpma_36_months_ago := cpma_hace_36_meses_a record;
     id_accumulated_consumption_12m := consumo_acum_12m record;
     id_report_date :=
       match fechareporte record with
       | Some d => d
       | None => today E
       end;
     id_status :=
       if is_empty (estado record) then "ACTIVO" else estado record |}.

(** [ETLProcessor._process_inventory] *)
Definition _process_inventory (record : record)
           (center_id product_id : ident) : M unit :=
  try_except
    (call_db (Store.update_inventory E
                (make_inventory_data record center_id product_id)))
    (fun e => raise e).

(** [self.processed_items.add(item)] *)
Definition add_processed_item (item : ident * ident) : M unit :=
  modify (fun s =>
            {| the_stats := the_stats s;
               processed_items :=
                 if existsb (fun j => (fst j =? fst item)%Z
                                      && (snd j =? snd item)%Z)
                            (processed_items s)
                 then processed_items s
                 else item :: processed_items s;
               latest_report_date := latest_report_date s;
               the_db := the_db s |}).

(** [ETLProcessor._process_record] *)
Definition _process_record (record : record) : M unit :=
  if negb (_validate_record record) then update_stats incr_skipped
  else
    try_except
      (track_latest_report_date record ;;
       region_id <- _process_region record ;;
       center_id <- _process_medical_center record region_id ;;
       product_id <- _process_product record ;;
       _process_inventory record center_id product_id ;;
       add_processed_item (center_id, product_id))
      (fun e => raise e).

(** One iteration of the loop of [_process_batch]. *)
Definition process_one (record : record) : M unit :=
  try_except
    (_process_record record ;; update_stats incr_processed)
    (fun _ => update_stats incr_errors).

(** [ETLProcessor._process_batch] *)
Definition _process_batch (batch : list record) : M unit :=
  for_each process_one batch.

(** [range(0, total, step)] *)
Definition py_range (total step : nat) : list nat :=
  map (fun k => k * step) (seq 0 ((total + step - 1) / step)).

(** [ETLProcessor.process_records] *)
Definition process_records (records : list record) : M stats :=
  let total := List.length records in
  for_each
    (fun i => _process_batch (firstn BATCH_SIZE (skipn i records)))
    (py_range total BATCH_SIZE) ;;
  s <- get ;;
  ret (the_stats s).

(** [ETLProcessor.cleanup_missing_inventory] *)
Definition cleanup_missing_inventory : M nat :=
  s <- get ;;
  match latest_report_date s with
  | None => ret 0
  | Some d =>
      try_except
        (call_db (Store.mark_missing_inventory_as_zero E d))
        (fun _ => ret 0)
  end.

(** Reasoning about methods: [c] leaves the part [f] of the processor
    as it found it, whether it returns or raises. *)
Definition keeps {A B : Type} (f : processor -> B) (c : M A) : Prop :=
  forall s s' r, c s = (s', r) -> f s' = f s.

(** The two counters of [_process_batch]. *)
Definition batch_counters (s : processor) : nat * nat :=
  (processed (the_stats s), errors (the_stats s)).

(** The six counters no method increments. *)
Definition idle_counters (s : processor) : list nat :=
  [ centers_created (the_stats s); centers_updated (the_stats s);
    products_created (the_stats s); products_updated (the_stats s);
    inventory_created (the_stats s); inventory_updated (the_stats s) ].

(** The tables behind a processor. *)
Definition tables (s : processor) : database := Store.db (the_db s).

(** The tables no statement of region and facility resolution names. *)
Definition later_tables (db : database)
  : list product_type_row * list product_row * list inventory_row :=
  (product_types db, products db, inventory db).

(** What the failure of a record must not have touched: the regions
    and facilities other than its own, the products and the
    inventory. *)
Definition bystanders (r : record) (db : database)
  : list region_row * list center_row
    * list product_row * list inventory_row :=
  (filter (fun row => negb (String.eqb (rg_name row) (diresa r)))
          (regions db),
   filter (fun row => negb (String.eqb (mc_code row) (codpre r)))
          (medical_centers db),
   products db,
   inventory db).

(** [self.processed_items.add(item)] as a change of the processor. *)
Definition with_item (item : ident * ident) (s : processor) : processor :=
  fst (add_processed_item item s).

(** The later of the tracked date and the date of a record. *)
Definition later (latest : option date) (d : option date) : option date :=
  match d, latest with
  | Some x, Some l => Some (Z.max l x)
  | Some x, None => Some x
  | None, _ => latest
  end.

(** The report dates of the records that pass [_validate_record]. *)
Definition validated_dates (records : list record) : list date :=
  flat_map
    (fun r =>
       if _validate_record r then
         match fechareporte r with Some d => [d] | None => [] end
       else [])
    records.

End WithPlatform.
End ETL.

(** ** medifinder-ingestor.py *)

Module Ingestor.
Section WithPlatform.
Context {P : Platform} (E : env).

(** What [main] has when it reaches [return 0]. *)
Record outcome : Type := {
  out_stats : ETL.stats;
  out_cleanup_count : nat;
  out_processor : ETL.processor
}.

(** The [try] block of [main].  [connect] is what [DatabaseManager()]
    finds ([inl] when setting up the tunnel or the pool raises),
    [source] the decoded lines of the file ([inl] when opening or
    decoding it raises). *)
Definition run (connect : exn + database) (source : exn + list string)
  : exn + outcome :=
  match connect with
  | inl e => inl e
  | inr tables =>
      let db_manager := {| Store.db := tables; Store.attempts := 0 |} in
      match source with
      | inl e => inl e
      | inr lines =>
          let records := Parser.records (Parser.parse lines) in
          let etl := ETL.init db_manager in
          match ETL.process_records E records etl with
          | (_, inl e) => inl e
          | (etl1, inr stats) =>
              match ETL.cleanup_missing_inventory E etl1 with
              | (_, inl e) => inl e
              | (etl2, inr cleanup_count) =>
                  inr {| out_stats := stats;
                         out_cleanup_count := cleanup_count;
                         out_processor := etl2 |}
              end
          end
      end
  end.

(** [main]: the exit status. *)
Definition main (connect : exn + database) (source : exn + list string)
  : Z :=
  match run connect source with
  | inl _ => 1%Z
  | inr _ => 0%Z
  end.

End WithPlatform.
End Ingestor.

(** ** A concrete platform, for running the model on examples *)

Module Demo.

Definition digit (c : ascii) : option Z :=
  let n := nat_of_ascii c in
  if (48 <=? n) && (n <=? 57) then Some (Z.of_nat (n - 48)) else None.

(** Unsigned decimal digits, most significant first. *)
Fixpoint digits (acc : Z) (s : string) : option Z :=
  match s with
  | EmptyString => Some acc
  | String c s' =>
      match digit c with
      | Some d => digits (10 * acc + d) s'
      | None => None
      end
  end.

Fixpoint split_at (sep : ascii) (s : string) : string * option string :=
  match s with
  | EmptyString => (EmptyString, None)
  | String c s' =>
      if Ascii.eqb c sep then (EmptyString, Some s')
      else let (a, b) := split_at sep s' in (String c a, b)
  end.

(** Decimal numerals [ddd] and [ddd.ddd], as rationals. *)
Definition decimal (s : string) : option Q :=
  match split_at "." s with
  | (EmptyString, _) => None
  | (ip, None) => option_map inject_Z (digits 0 ip)
  | (_, Some EmptyString) => None
  | (ip, Some fp) =>
      match digits 0 ip, digits 0 fp with
      | Some i, Some f =>
          let scale := (10 ^ Z.of_nat (String.length fp))%Z in
          Some (Qmake (i * scale + f) (Z.to_pos scale))
      | _, _ => None
      end
  end.

(** Days before the first of March of year 0, then the ordinal. *)
Definition ordinal (y m d : Z) : Z :=
  let y' := if (m <=? 2)%Z then (y - 1)%Z else y in
  let era := (y' / 400)%Z in
  let yoe := (y' - era * 400)%Z in
  let mp := if (m <=? 2)%Z then (m + 9)%Z else (m - 3)%Z in
  let doy := ((153 * mp + 2) / 5 + d - 1)%Z in
  let doe := (yoe * 365 + yoe / 4 - yoe / 100 + doy)%Z in
  (era * 146097 + doe - 305)%Z.

Definition days_in_month (y m : Z) : Z :=
  if (m =? 2)%Z then
    if ((y mod 4 =? 0) && (negb (y mod 100 =? 0) || (y mod 400 =? 0)))%Z
    then 29%Z else 28%Z
  else if ((m =? 4) || (m =? 6) || (m =? 9) || (m =? 11))%Z then 30%Z
  else 31%Z.

(** Dates written [YYYY-MM-DD]. *)
Definition ymd (s : string) : option date :=
  match split_at "-" s with
  | (ys, Some rest) =>
      match split_at "-" rest with
      | (ms, Some ds) =>
          match digits 0 ys, digits 0 ms, digits 0 ds with
          | Some y, Some m, Some d =>
              if ((String.length ys =? 4) && (String.length ms =? 2)
                  && (String.length ds =? 2))%nat
                 && ((1 <=? y) && (1 <=? m) && (m <=? 12) && (1 <=? d)
                     && (d <=? days_in_month y m))%Z
              then Some (ordinal y m d) else None
          | _, _, _ => None
          end
      | _ => None
      end
  | _ => None
  end.

(** Splitting on the delimiter, for lines without quote characters. *)
Fixpoint split_fields (cur : string) (s : string) : list string :=
  match s with
  | EmptyString => [cur]
  | String c s' =>
      if Ascii.eqb c "|" then cur :: split_fields EmptyString s'
      else split_fields (cur ++ String c EmptyString) s'
  end.

Definition platform : Platform :=
  {| num := Q;
     num_zero := 0%Q;
     num_truthy := fun x => negb (Qnum x =? 0)%Z;
     num_pos := fun x => (0 <? Qnum x)%Z;
     py_float := decimal;
     strptime_ymd := ymd;
     csv_row := fun line => Some (split_fields EmptyString line);
     updated_at_default := fun now => Some now |}.

(** Every connection is handed out; the clock ticks once per call. *)
Definition calm : env :=
  {| getconn_ok := fun _ => true;
     stmt_fault := fun _ => None;
     txn_time := fun n => Z.of_nat n;
     today := 739000%Z |}.

(** No connection is ever handed out. *)
Definition offline : env :=
  {| getconn_ok := fun _ => false;
     stmt_fault := fun _ => None;
     txn_time := fun n => Z.of_nat n;
     today := 739000%Z |}.


Definition empty_db : @database platform :=
  {| regions := []; regions_seq := 1%Z;
     medical_centers := []; medical_centers_seq := 1%Z;
     product_types := []; product_types_seq := 1%Z;
     products := []; products_seq := 1%Z;
     inventory := []; inventory_seq := 1%Z |}.

(** An inventory row and an incoming fact with the given key and stock,
    every other measurement null. *)
Definition row (i c p : ident) (d : date)
           (stock : option (@num platform)) : @inventory_row platform :=
  {| inv_inventory_id := i;
     inv_center_id := c;
     inv_product_id := p;
     inv_report_date := d;
     inv_current_stock := stock;
     inv_avg_monthly_consumption := None;
     inv_accumulated_consumption_4m := None;
     inv_measurement := None;
     inv_last_month_consumption := None;
     inv_last_month_stock := None;
     inv_status_indicator := "Normostock";
     inv_cpma_12_months_ago := None;
     inv_cpma_24_months_ago := None;
     inv_cpma_36_months_ago := None;
     inv_accumulated_consumption_12m := None;
     inv_status := "ACTIVO";
     inv_updated_at := Some 0%Z |}.

Definition fact (c p : ident) (d : date) (stock : @num platform)
           (status : string) : @inventory_data platform :=
  {| id_center_id := c;
     id_product_id := p;
     id_current_stock := Some stock;
     id_avg_monthly_consumption := None;
     id_accumulated_consumption_4m := None;
     id_measurement := Some stock;
     id_last_month_consumption := None;
     id_last_month_stock := None;
     id_status_indicator := "Normostock";
     id_cpma_12_months_ago := None;
     id_cpma_24_months_ago := None;
     id_cpma_36_months_ago := None;
     id_accumulated_consumption_12m := None;
     id_report_date := d;
     id_status := status |}.

Definition with_inventory (rows : list (@inventory_row platform))
  : @database platform :=
  {| regions := []; regions_seq := 1%Z;
     medical_centers := []; medical_centers_seq := 1%Z;
     product_types := []; product_types_seq := 1%Z;
     products := []; products_seq := 1%Z;
     inventory := rows;
     inventory_seq := (Z.of_nat (List.length rows) + 1)%Z |}.

(** Lines of an extract: a well-formed one, one with product type X, one
    without a report date, one without stock, and one for the same
    region as the first. *)
Definition good_line : string :=
  "HOSPITAL A|LIMA|II-1|00001|DIRIS|E|M001|PARACETAMOL|M|10|2,5|10|1|2024-03-01|ACTIVO|MINSA|HOSP|3|12|Normostock|1|2|3|30|x".

Definition bad_type_line : string :=
  "HOSPITAL B|CUSCO|II-1|00002|DIRIS|E|M002|GASA|X|4|2,5|10|1|2024-05-01|ACTIVO|MINSA|HOSP|3|12|Normostock|1|2|3|30|x".

Definition no_date_line : string :=
  "HOSPITAL A|LIMA|II-1|00001|DIRIS|E|M001|PARACETAMOL|M|10|2,5|10|1||ACTIVO|MINSA|HOSP|3|12|Normostock|1|2|3|30|x".

Definition no_stock_line : string :=
  "HOSPITAL A|LIMA|II-1|00001|DIRIS|E|M001|PARACETAMOL|M|null|2,5|10|1|2024-03-01|ACTIVO|MINSA|HOSP|3|12|Normostock|1|2|3|30|x".

Definition same_region_line : string :=
  "HOSPITAL C|LIMA|I-3|00003|DIRIS|E|M003|IBUPROFENO|M|0|2,5|10|1|2024-03-01||MINSA|HOSP|3|12|Normostock|1|2|3|30|x".

Definition null_region_line : string :=
  "HOSPITAL D|null|II-1|00004|DIRIS|E|M004|ALCOHOL|I|7|2,5|10|1|2024-03-01|ACTIVO|MINSA|HOSP|3|12|Normostock|1|2|3|30|x".


Definition records_of (lines : list string) : list (@Parser.record platform) :=
  Parser.records (Parser.parse (P := platform) lines).

(** Five facts: one old with stock, one of the newest date, and three old
    ones without positive stock. *)
Definition five_facts : @database platform :=
  with_inventory
    [ row 1 1 1 100 (Some (5 # 1)%Q);
      row 2 1 2 200 (Some (7 # 1)%Q);
      row 3 1 3 100 (Some 0%Q);
      row 4 1 4 100 None;
      row 5 1 5 100 (Some (-3 # 1)%Q) ].

(** A processor whose run tracked the report date [d], over [tables]. *)
Definition tracking (d : date) (tables : @database platform)
  : @ETL.processor platform :=
  {| ETL.the_stats := ETL.stats_init;
     ETL.processed_items := [];
     ETL.latest_report_date := Some d;
     ETL.the_db := {| Store.db := tables; Store.attempts := 0 |} |}.

End Demo.

Example demo_decimal : Demo.decimal "12.5" = Some (125 # 10)%Q.
Proof. reflexivity. Qed.

Example demo_ymd :
  Demo.ymd "2024-03-01" = Some 738946%Z /\ Demo.ymd "2024-02-30" = None
  /\ Demo.ymd "0001-01-01" = Some 1%Z.
Proof. repeat split; reflexivity. Qed.

Example demo_split :
  Demo.split_fields "" "a|b||c" = ["a"; "b"; ""; "c"].
Proof. reflexivity. Qed.

(** * Properties *)

(** ** Strings *)

Section StringFacts.

Lemma is_empty_true (s : string) : is_empty s = true <-> s = EmptyString.
Proof. destruct s; simpl; split; congruence. Qed.




Lemma is_empty_map_chars (f : ascii -> ascii) (s : string) :
  is_empty (map_chars f s) = is_empty s.
Proof. destruct s; reflexivity. Qed.

Lemma map_chars_compose (f g : ascii -> ascii) (s : string) :
  map_chars f (map_chars g s) = map_chars (fun c => f (g c)) s.
Proof. induction s as [|c s IH]; simpl; [|rewrite IH]; reflexivity. Qed.

Lemma map_chars_ext (f g : ascii -> ascii) (s : string) :
  (forall c, f c = g c) -> map_chars f s = map_chars g s.
Proof.
  intros H. induction s as [|c s IH]; simpl; [|rewrite IH, H]; reflexivity.
Qed.

Lemma comma_to_period_idem (c : ascii) :
  comma_to_period (comma_to_period c) = comma_to_period c.
Proof.
  unfold comma_to_period.
  destruct (Ascii.eqb c ",") eqn:Hc; [reflexivity|].
  rewrite Hc. reflexivity.
Qed.

Lemma replace_comma_idem (s : string) :
  replace "," "." (replace "," "." s) = replace "," "." s.
Proof.
  unfold replace. rewrite map_chars_compose.
  apply map_chars_ext. exact comma_to_period_idem.
Qed.

(** Lower-casing sees a comma and a period alike when the result is
    compared with a letter. *)
Lemma lower_comma_to_period (c t : ascii) :
  t <> ","%char -> t <> "."%char ->
  Ascii.eqb (lower_char (comma_to_period c)) t = Ascii.eqb (lower_char c) t.
Proof.
  intros Hcomma Hperiod. unfold comma_to_period.
  destruct (Ascii.eqb c ",") eqn:Hc; [|reflexivity].
  apply Ascii.eqb_eq in Hc. subst c.
  change (lower_char ".") with "."%char.
  change (lower_char ",") with ","%char.
  transitivity false; [|symmetry]; apply Ascii.eqb_neq; congruence.
Qed.

Lemma eqb_lower_replace (t : string) :
  no_separator t ->
  forall s, String.eqb (lower (replace "," "." s)) t = String.eqb (lower s) t.
Proof.
  induction t as [|c t IH]; intros Ht s.
  - destruct s; reflexivity.
  - destruct Ht as (H1 & H2 & Ht). destruct s as [|a s]; [reflexivity|].
    simpl. fold (comma_to_period a).
    rewrite lower_comma_to_period by assumption.
    destruct (Ascii.eqb (lower_char a) c); [|reflexivity].
    apply (IH Ht).
Qed.

End StringFacts.

(** ** The parser *)

Section ParserFacts.
Context {P : Platform}.

Lemma validate_short (values : list string) :
  List.length values < 25 -> Parser._validate_record values = false.
Proof.
  intros H. unfold Parser._validate_record.
  change (List.length Parser.COLUMNS) with 25.
  destruct (Nat.ltb_spec (List.length values) 25); [reflexivity|lia].
Qed.


Lemma validate_length (values : list string) :
  Parser._validate_record values = true -> 25 <= List.length values.
Proof.
  intros H. destruct (Nat.lt_ge_cases (List.length values) 25) as [Hlt|Hge];
    [|exact Hge].
  rewrite (validate_short values Hlt) in H. discriminate.
Qed.

Lemma pad_nth (values : list string) (i : nat) :
  25 <= List.length values -> i < 25 ->
  nth i (Parser.pad values) "" = nth i values "".
Proof.
  intros Hlen Hi. unfold Parser.pad.
  change (List.length Parser.COLUMNS) with 25.
  replace (25 - List.length values) with 0 by lia.
  simpl repeat. rewrite app_nil_r, nth_firstn.
  destruct (Nat.ltb_spec i 25); [reflexivity|lia].
Qed.


Lemma parse_line_record (st : Parser.parse_state) (line : string)
      (values : list string) :
  Parser.skipped_line line = false ->
  csv_row (strip line) = Some values ->
  Parser._validate_record values = true ->
  Parser.parse_line st line
  = Parser.add_record st (Parser._create_record values).
Proof.
  intros Hskip Hsplit Hval. unfold Parser.parse_line.
  unfold Parser.skipped_line in Hskip.
  rewrite Hskip, Hsplit, Hval. reflexivity.
Qed.

(** Blank lines and lines that start with the marker are passed over:
    no record, no error. *)
Lemma parse_line_skipped (st : Parser.parse_state) (line : string) :
  Parser.skipped_line line = true -> Parser.parse_line st line = st.
Proof.
  intros Hskip. unfold Parser.parse_line.
  unfold Parser.skipped_line in Hskip. rewrite Hskip. reflexivity.
Qed.





Lemma to_number_absent (s : string) :
  s = "" \/ lower s = "null" -> Parser.to_number s = None.
Proof.
  unfold Parser.to_number. intros [->|H]; [reflexivity|].
  rewrite H. simpl. rewrite andb_false_r. reflexivity.
Qed.

Lemma to_number_parsed (s : string) :
  s <> "" -> lower s <> "null" ->
  Parser.to_number s = py_float (replace "," "." s).
Proof.
  intros Hne Hnull. unfold Parser.to_number.
  destruct (is_empty s) eqn:He; [apply is_empty_true in He; contradiction|].
  destruct (String.eqb_spec (lower s) "null"); [contradiction|reflexivity].
Qed.

Lemma to_number_replace (s : string) :
  Parser.to_number (replace "," "." s) = Parser.to_number s.
Proof.
  unfold Parser.to_number.
  rewrite replace_comma_idem.
  unfold replace at 1. rewrite is_empty_map_chars.
  rewrite eqb_lower_replace; [reflexivity|].
  simpl. repeat split; discriminate.
Qed.

End ParserFacts.




(** C8.  A numeric column whose text is empty or is [null] in any letter
    case is absent; any other text is given to [float] with every comma
    replaced by a period, so that a value written with a comma is the value
    written with a period ("12,5" and "12.5"); when [float] fails the field
    is absent.  Whatever [float] does, a line that passes the structural
    check yields exactly one record, every numeric field of which is the
    conversion of its column, and the error count stays as it was. *)
Theorem numeric_coercion :
  forall (P : Platform),
    (forall s, s = "" \/ lower s = "null" -> Parser.to_number s = None)
    /\ (forall s, s <> "" -> lower s <> "null" ->
                  Parser.to_number s = py_float (replace "," "." s))
    /\ (forall s, Parser.to_number (replace "," "." s) = Parser.to_number s)
    /\ Parser.to_number "12,5" = Parser.to_number "12.5"
    /\ (forall s, py_float (replace "," "." s) = None ->
                  Parser.to_number s = None)
    /\ (forall st line values,
           Parser.skipped_line line = false ->
           csv_row (strip line) = Some values ->
           Parser._validate_record values = true ->
           Parser.parse_line st line
           = Parser.add_record st (Parser._create_record values)
           /\ Parser.records (Parser.parse_line st line)
              = (Parser.records st ++ [Parser._create_record values])%list
           /\ Parser.error_count (Parser.parse_line st line)
              = Parser.error_count st
           /\ Forall (fun column =>
                        snd column (Parser._create_record values)
                        = Parser.to_number
                            (strip (nth (fst column) values "")))
                     Parser.numeric_fields).
Proof.
  intros P. split; [|split; [|split; [|split; [|split]]]].
  - apply to_number_absent.
  - apply to_number_parsed.
  - apply to_number_replace.
  - apply (to_number_replace "12,5").
  - intros s H. unfold Parser.to_number. rewrite H.
    destruct (negb (is_empty s) && negb (String.eqb (lower s) "null"));
      reflexivity.
  - intros st line values Hskip Hsplit Hval.
    rewrite (parse_line_record st line values Hskip Hsplit Hval).
    repeat split.
    pose proof (validate_length values Hval) as Hlen.
    unfold Parser.numeric_fields.
    repeat (apply Forall_cons;
            [cbn [fst snd Parser._create_record Parser.stk Parser.cpma
                  Parser.consumo_acum_4m Parser.med Parser.consumo_ult_mes
                  Parser.stk_ult_mes Parser.cpma_hace_12_meses_a
                  Parser.cpma_hace_24_meses_a Parser.cpma_hace_36_meses_a
                  Parser.consumo_acum_12m];
             rewrite pad_nth by lia; reflexivity|]).
    apply Forall_nil.
Qed.

Lemma numeric_coercion_witness :
  Parser.to_number (P := Demo.platform) "NuLL" = None
  /\ Parser.to_number (P := Demo.platform) "12,5" = Some (125 # 10)%Q
  /\ Parser.to_number (P := Demo.platform) "1,2,3" = None.
Proof.
  destruct (numeric_coercion Demo.platform) as (Habsent & Hparsed & _ & _ & Hfail & _).
  split; [|split].
  - apply Habsent. right. reflexivity.
  - rewrite Hparsed; [reflexivity|discriminate|discriminate].
  - apply Hfail. reflexivity.
Defined.

(** ** The store *)

Section StoreFacts.
Context {P : Platform}.

Lemma same_key_spec (d : inventory_data) (r : inventory_row) :
  Sql.same_key d r = true <-> Sql.row_key r = Sql.data_key d.
Proof.
  unfold Sql.same_key, Sql.row_key, Sql.data_key.
  rewrite !andb_true_iff, !Z.eqb_eq. split.
  - intros [[H1 H2] H3]. congruence.
  - intros H. inversion H. auto.
Qed.



Lemma do_update_key (d : inventory_data) (now : timestamp)
      (r : inventory_row) :
  Sql.row_key (Sql.do_update d now r) = Sql.row_key r.
Proof. unfold Sql.do_update. destruct (Sql.same_key d r); reflexivity. Qed.

Lemma same_key_do_update (d d' : inventory_data) (now : timestamp)
      (r : inventory_row) :
  Sql.same_key d' (Sql.do_update d now r) = Sql.same_key d' r.
Proof.
  apply eq_true_iff_eq. rewrite !same_key_spec, do_update_key. reflexivity.
Qed.

Lemma proposed_row_key (i : ident) (d : inventory_data) (now : timestamp) :
  Sql.row_key (Sql.proposed_row i d now) = Sql.data_key d.
Proof. reflexivity. Qed.


Lemma NoDup_snoc (A : Type) (l : list A) (a : A) :
  NoDup l -> ~ In a l -> NoDup (l ++ [a]).
Proof.
  induction l as [|b l IH]; simpl; intros Hu Hn.
  - constructor; [intros []|constructor].
  - inversion Hu as [|b' l' Hb Hl]; subst. constructor.
    + rewrite in_app_iff. simpl. intros [H|[H|[]]]; [auto|].
      apply Hn. left. symmetry. exact H.
    + apply IH; [exact Hl|]. intros H. apply Hn. right. exact H.
Qed.





End StoreFacts.

Section ReconciliationFacts.
Context {P : Platform}.

Lemma stale_spec (report_date : date) (r : inventory_row) :
  Sql.stale report_date r = true
  <-> (inv_report_date r < report_date)%Z
      /\ exists x, inv_current_stock r = Some x /\ num_pos x = true.
Proof.
  unfold Sql.stale. rewrite andb_true_iff, Z.ltb_lt.
  destruct (inv_current_stock r) as [x|]; split.
  - intros [Hd Hx]. split; [exact Hd|]. exists x. auto.
  - intros [Hd (y & Hy & Hpos)]. inversion Hy; subst. auto.
  - intros [_ H]. discriminate.
  - intros [_ (y & Hy & _)]. discriminate.
Qed.

Lemma not_stale_spec (report_date : date) (r : inventory_row) :
  (report_date <= inv_report_date r)%Z
  \/ (forall x, inv_current_stock r = Some x -> num_pos x = false) ->
  Sql.stale report_date r = false.
Proof.
  intros H. apply not_true_is_false. intros Hs.
  apply stale_spec in Hs. destruct Hs as [Hd (x & Hx & Hpos)].
  destruct H as [H|H]; [lia|]. rewrite (H x Hx) in Hpos. discriminate.
Qed.

End ReconciliationFacts.

(** The UPDATE of [mark_missing_inventory_as_zero], as a statement: its
    row count is the number of rows whose report date is strictly before
    the given date and whose stock is strictly greater than zero.  Row by
    row: such a row keeps its identity and key and gets stock zero and the
    status indicator 'Desabastecido'; a row whose report date is the given
    date or later, or whose stock is not greater than zero (zero, negative
    or null), is left exactly as it was.  No row is added or removed and
    no other table is touched. *)
Lemma reconciliation_statement :
  forall (P : Platform) (report_date : date) (now : timestamp)
         (db : database),
    let count := fst (Sql.mark_missing_inventory_as_zero report_date now db) in
    let db' := snd (Sql.mark_missing_inventory_as_zero report_date now db) in
    (forall row,
        Sql.stale report_date row = true
        <-> (inv_report_date row < report_date)%Z
            /\ exists x, inv_current_stock row = Some x /\ num_pos x = true)
    /\ count = List.length (filter (Sql.stale report_date) (inventory db))
    /\ List.length (inventory db') = List.length (inventory db)
    /\ (forall i row,
           nth_error (inventory db) i = Some row ->
           exists row',
             nth_error (inventory db') i = Some row'
             /\ inv_inventory_id row' = inv_inventory_id row
             /\ Sql.row_key row' = Sql.row_key row
             /\ ((inv_report_date row < report_date)%Z ->
                 (exists x, inv_current_stock row = Some x
                            /\ num_pos x = true) ->
                 inv_current_stock row' = Some num_zero
                 /\ inv_status_indicator row' = "Desabastecido")
             /\ ((report_date <= inv_report_date row)%Z
                 \/ (forall x, inv_current_stock row = Some x ->
                               num_pos x = false) ->
                 row' = row))
    /\ regions db' = regions db
    /\ medical_centers db' = medical_centers db
    /\ product_types db' = product_types db
    /\ products db' = products db.
Proof.
  intros P report_date now db. cbv zeta.
  unfold Sql.mark_missing_inventory_as_zero. simpl.
  split; [intros row; apply stale_spec|].
  split; [reflexivity|].
  split; [apply length_map|].
  split; [|repeat split].
  intros i row Hrow.
  exists (Sql.zero_stock report_date now row).
  split; [apply map_nth_error, Hrow|].
  unfold Sql.zero_stock.
  destruct (Sql.stale report_date row) eqn:Hs.
  - split; [reflexivity|]. split; [reflexivity|]. split.
    + intros _ _. split; reflexivity.
    + intros H. rewrite (not_stale_spec report_date row H) in Hs.
      discriminate.
  - split; [reflexivity|]. split; [reflexivity|]. split.
    + intros Hd Hx.
      assert (Sql.stale report_date row = true)
        by (apply stale_spec; split; assumption).
      congruence.
    + intros _. reflexivity.
Qed.



(** ** The orchestrator: what each method leaves alone *)

Section Footprints.
Context {P : Platform} (E : env).
Import ETL.

Section Generic.
Context {B : Type} (f : processor -> B).

Lemma keeps_ret {A : Type} (a : A) : keeps f (ret a).
Proof. intros s s' r H. inversion H. reflexivity. Qed.

Lemma keeps_raise {A : Type} (e : exn) : keeps f (@raise P A e).
Proof. intros s s' r H. inversion H. reflexivity. Qed.

Lemma keeps_get : keeps f get.
Proof. intros s s' r H. inversion H. reflexivity. Qed.

Lemma keeps_bind {A C : Type} (c : M A) (k : A -> M C) :
  keeps f c -> (forall a, keeps f (k a)) -> keeps f (bind c k).
Proof.
  intros Hc Hk s s' r H. unfold bind in H.
  destruct (c s) as [s1 [e|a]] eqn:Hcs.
  - inversion H; subst. apply (Hc _ _ _ Hcs).
  - rewrite (Hk a _ _ _ H). apply (Hc _ _ _ Hcs).
Qed.

Lemma keeps_try_except {A : Type} (c : M A) (h : exn -> M A) :
  keeps f c -> (forall e, keeps f (h e)) -> keeps f (try_except c h).
Proof.
  intros Hc Hh s s' r H. unfold try_except in H.
  destruct (c s) as [s1 [e|a]] eqn:Hcs.
  - rewrite (Hh e _ _ _ H). apply (Hc _ _ _ Hcs).
  - inversion H; subst. apply (Hc _ _ _ Hcs).
Qed.

Lemma keeps_modify (g : processor -> processor) :
  (forall s, f (g s) = f s) -> keeps f (modify g).
Proof. intros Hg s s' r H. inversion H. apply Hg. Qed.

Lemma keeps_for_each {A : Type} (body : A -> M unit) (xs : list A) :
  (forall x, keeps f (body x)) -> keeps f (for_each body xs).
Proof.
  intros Hb. induction xs as [|x xs IH]; simpl.
  - apply keeps_ret.
  - apply keeps_bind; [apply Hb|intros _; exact IH].
Qed.

(** A method of the manager leaves alone what does not look at the
    manager. *)
Lemma keeps_call_db {A : Type}
      (m : Store.world -> Store.world * (exn + A)) :
  (forall s w,
      f {| the_stats := the_stats s;
           processed_items := processed_items s;
           latest_report_date := latest_report_date s;
           the_db := w |} = f s) ->
  keeps f (call_db m).
Proof.
  intros Hf s s' r H. unfold call_db in H.
  destruct (m (the_db s)) as [w r']. inversion H. apply Hf.
Qed.

End Generic.

(** What [get_cursor] can do: raise with the tables untouched, or run
    the statements once, at the time of the connection it got. *)
Lemma get_cursor_cases {A : Type}
      (body : timestamp -> database -> A * database) (w : Store.world) :
  (exists n e,
      Store.get_cursor E body w
      = ({| Store.db := Store.db w; Store.attempts := n |}, inl e))
  \/ (exists n k,
         Store.get_cursor E body w
         = ({| Store.db := snd (body (txn_time E k) (Store.db w));
               Store.attempts := n |},
            inr (fst (body (txn_time E k) (Store.db w))))).
Proof.
  unfold Store.get_cursor.
  destruct (Store.get_connection E 3 (Store.attempts w)) as [n [e|k]].
  { left. exists n, e. reflexivity. }
  destruct (stmt_fault E k) as [[|]|].
  - left.
    destruct (Store.get_connection_throw E 3 (k - Store.attempts w) n)
      as [n' e].
    exists n', e. reflexivity.
  - left. exists n, DatabaseError. reflexivity.
  - right. exists n, k. destruct (body _ _). reflexivity.
Qed.

(** A method of the manager leaves alone the tables its statements leave
    alone. *)
Lemma keeps_call_cursor {A B : Type} (g : database -> B)
      (body : timestamp -> database -> A * database) :
  (forall now db, g (snd (body now db)) = g db) ->
  keeps (fun s => g (Store.db (the_db s)))
        (call_db (Store.get_cursor E body)).
Proof.
  intros Hg s s' r H. unfold call_db in H.
  destruct (get_cursor_cases body (the_db s)) as [(n & ex & Hc)|(n & k & Hc)];
    rewrite Hc in H; inversion H; simpl; [reflexivity|apply Hg].
Qed.

End Footprints.

Ltac split_branches :=
  repeat match goal with
         | |- context [if ?b then _ else _] => destruct b
         | |- context [match ?x with _ => _ end] => destruct x
         end.

(** Walks down a method, one monadic construct at a time. *)
Ltac footprint :=
  repeat first
    [ apply keeps_ret
    | apply keeps_raise
    | apply keeps_get
    | apply keeps_bind; [|intros ?]
    | apply keeps_try_except; [|intros ?]
    | apply keeps_modify; intros ?; split_branches; reflexivity
    | apply keeps_call_db; intros ? ?; reflexivity
    | match goal with
      | |- ETL.keeps _ (if ?b then _ else _) => destruct b
      | |- ETL.keeps _ (match ?x with _ => _ end) => destruct x
      end ].

Section OrchestratorFootprints.
Context {P : Platform} (E : env).
Import ETL.

Lemma process_record_counters (r : Parser.record) :
  keeps batch_counters (_process_record E r).
Proof.
  unfold _process_record, track_latest_report_date, _process_region,
    _process_medical_center, _process_product, _process_inventory,
    add_processed_item, update_stats.
  footprint.
Qed.

Lemma process_one_idle (r : Parser.record) :
  keeps idle_counters (process_one E r).
Proof.
  unfold process_one, _process_record, track_latest_report_date,
    _process_region, _process_medical_center, _process_product,
    _process_inventory, add_processed_item, update_stats.
  footprint.
Qed.

Lemma process_region_latest (r : Parser.record) :
  keeps latest_report_date (_process_region E r).
Proof. unfold _process_region, update_stats. footprint. Qed.

Lemma process_medical_center_latest (r : Parser.record) (i : ident) :
  keeps latest_report_date (_process_medical_center E r i).
Proof. unfold _process_medical_center. footprint. Qed.

Lemma process_product_latest (r : Parser.record) :
  keeps latest_report_date (_process_product E r).
Proof. unfold _process_product. footprint. Qed.

Lemma process_inventory_latest (r : Parser.record) (c p : ident) :
  keeps latest_report_date (_process_inventory E r c p).
Proof. unfold _process_inventory. footprint. Qed.

(** After the date is tracked, nothing in the pipeline touches it. *)
Lemma pipeline_latest (r : Parser.record) :
  keeps latest_report_date
        (bind (_process_region E r) (fun region_id =>
         bind (_process_medical_center E r region_id) (fun center_id =>
         bind (_process_product E r) (fun product_id =>
         bind (_process_inventory E r center_id product_id) (fun _ =>
         add_processed_item (center_id, product_id)))))).
Proof.
  apply keeps_bind; [apply process_region_latest|intros region_id].
  apply keeps_bind; [apply process_medical_center_latest|intros center_id].
  apply keeps_bind; [apply process_product_latest|intros product_id].
  apply keeps_bind; [apply process_inventory_latest|intros _].
  unfold add_processed_item. footprint.
Qed.

End OrchestratorFootprints.

(** ** The orchestrator: batches *)

Section Batches.

Lemma firstn_add {A : Type} (a b : nat) (l : list A) :
  firstn (a + b) l = (firstn a l ++ firstn b (skipn a l))%list.
Proof.
  revert l. induction a as [|a IH]; intros l; [reflexivity|].
  destruct l as [|x l]; simpl.
  - rewrite firstn_nil. reflexivity.
  - rewrite IH. reflexivity.
Qed.

(** Consecutive slices of width [step] starting at [k * step]. *)
Lemma slices_concat {A : Type} (step : nat) (l : list A) (m : nat) :
  forall k,
    List.concat (map (fun i => firstn step (skipn i l))
                (map (fun j => j * step) (seq k m)))
    = firstn (m * step) (skipn (k * step) l).
Proof.
  induction m as [|m IH]; intros k; [reflexivity|].
  simpl. rewrite IH, firstn_add, skipn_skipn.
  replace (step + k * step) with (S k * step) by (simpl; lia).
  reflexivity.
Qed.

(** The batches of [process_records], one after the other, are the
    records. *)
Lemma batches_concat {A : Type} (step : nat) (l : list A) :
  0 < step ->
  List.concat (map (fun i => firstn step (skipn i l))
              (ETL.py_range (List.length l) step))
  = l.
Proof.
  intros Hstep. unfold ETL.py_range.
  rewrite slices_concat. simpl.
  apply firstn_all2.
  pose proof (Nat.div_mod_eq (List.length l + step - 1) step) as Hdm.
  pose proof (Nat.mod_upper_bound (List.length l + step - 1) step) as Hmod.
  nia.
Qed.

End Batches.

Section Loops.
Context {P : Platform} (E : env).
Import ETL.

Lemma for_each_app {A : Type} (body : A -> M unit) (xs ys : list A) :
  forall s,
    for_each body (xs ++ ys) s
    = bind (for_each body xs) (fun _ => for_each body ys) s.
Proof.
  induction xs as [|x xs IH]; intros s; simpl.
  - reflexivity.
  - unfold bind. destruct (body x s) as [s1 [e|[]]]; [reflexivity|].
    rewrite IH. reflexivity.
Qed.

Lemma for_each_concat {A C : Type} (body : A -> M unit)
      (part : C -> list A) (cs : list C) :
  forall s,
    for_each (fun c => for_each body (part c)) cs s
    = for_each body (List.concat (map part cs)) s.
Proof.
  induction cs as [|c cs IH]; intros s; simpl; [reflexivity|].
  rewrite for_each_app. unfold bind.
  destruct (for_each body (part c) s) as [s1 [e|[]]]; [reflexivity|].
  apply IH.
Qed.

(** Batching does not change what is done: [process_records] runs the
    body of the batch loop on every record, in order. *)
Lemma process_records_flat (records : list Parser.record) (s : processor) :
  process_records E records s
  = bind (for_each (process_one E) records)
         (fun _ => bind get (fun s' => ret (the_stats s'))) s.
Proof.
  unfold process_records, _process_batch.
  unfold bind at 1 3.
  rewrite (for_each_concat (process_one E)
             (fun i => firstn BATCH_SIZE (skipn i records))).
  rewrite batches_concat by (unfold BATCH_SIZE; lia).
  reflexivity.
Qed.

(** The body of the batch loop never raises: it counts the record as
    processed when [_process_record] returns and as an error when it
    raises. *)
Lemma process_one_cases (r : Parser.record) (s : processor) :
  (exists s1,
      _process_record E r s = (s1, inr tt)
      /\ process_one E r s
         = ({| the_stats := incr_processed (the_stats s1);
               processed_items := processed_items s1;
               latest_report_date := latest_report_date s1;
               the_db := the_db s1 |}, inr tt))
  \/ (exists s1 e,
         _process_record E r s = (s1, inl e)
         /\ process_one E r s
            = ({| the_stats := incr_errors (the_stats s1);
                  processed_items := processed_items s1;
                  latest_report_date := latest_report_date s1;
                  the_db := the_db s1 |}, inr tt)).
Proof.
  unfold process_one, try_except, bind.
  destruct (_process_record E r s) as [s1 [e|[]]] eqn:Hr.
  - right. exists s1, e. split; reflexivity.
  - left. exists s1. split; reflexivity.
Qed.

Lemma process_one_count (r : Parser.record) (s : processor) :
  exists s',
    process_one E r s = (s', inr tt)
    /\ ((processed (the_stats s') = processed (the_stats s) + 1
         /\ errors (the_stats s') = errors (the_stats s))
        \/ (processed (the_stats s') = processed (the_stats s)
            /\ errors (the_stats s') = errors (the_stats s) + 1)).
Proof.
  destruct (process_one_cases r s)
    as [(s1 & Hr & Ho)|(s1 & e & Hr & Ho)];
    pose proof (process_record_counters E r _ _ _ Hr) as Hk;
    unfold batch_counters in Hk; inversion Hk as [[Hp He]];
    eexists; (split; [exact Ho|]); simpl; [left|right]; auto.
Qed.

Lemma for_each_process_one (records : list Parser.record) :
  forall s,
    exists s',
      for_each (process_one E) records s = (s', inr tt)
      /\ processed (the_stats s') + errors (the_stats s')
         = processed (the_stats s) + errors (the_stats s)
           + List.length records.
Proof.
  induction records as [|r records IH]; intros s; simpl.
  - exists s. split; [reflexivity|lia].
  - destruct (process_one_count r s) as (s1 & Ho & Hc).
    destruct (IH s1) as (s' & Hf & Hn).
    exists s'. unfold bind. rewrite Ho. split; [exact Hf|]. lia.
Qed.

Lemma process_records_returns (records : list Parser.record)
      (s : processor) :
  exists s',
    process_records E records s = (s', inr (the_stats s'))
    /\ for_each (process_one E) records s = (s', inr tt).
Proof.
  rewrite process_records_flat.
  destruct (for_each_process_one records s) as (s' & Hf & _).
  exists s'. unfold bind. rewrite Hf. split; reflexivity.
Qed.

Lemma validation_failure_skips (r : Parser.record) (s : processor) :
  _validate_record r = false ->
  process_one E r s
  = ({| the_stats := incr_processed (incr_skipped (the_stats s));
        processed_items := processed_items s;
        latest_report_date := latest_report_date s;
        the_db := the_db s |}, inr tt).
Proof.
  intros Hv. unfold process_one, try_except, bind, _process_record.
  rewrite Hv. reflexivity.
Qed.

End Loops.

(** ** The orchestrator: statistics *)

Section Statistics.
Context {P : Platform} (E : env).
Import ETL.

Lemma region_found (name : string) (rows : list region_row) :
  In name (map rg_name rows) ->
  exists row, find (fun r => String.eqb (rg_name r) name) rows = Some row.
Proof.
  intros Hin.
  destruct (find (fun r => String.eqb (rg_name r) name) rows) as [row|] eqn:Hf;
    [exists row; reflexivity|].
  exfalso. apply in_map_iff in Hin. destruct Hin as (r & Hname & Hr).
  pose proof (find_none _ _ Hf r Hr) as Hneq. simpl in Hneq.
  rewrite Hname, String.eqb_refl in Hneq. discriminate.
Qed.

(** What a call of [_process_region] that returns has done. *)
Lemma process_region_returns (r : Parser.record) (s s' : processor)
      (region_id : ident) :
  _process_region E r s = (s', inr region_id) ->
  the_stats s' = incr_regions_created (the_stats s)
  /\ exists n k,
      the_db s'
      = {| Store.db :=
             snd (Sql.get_or_create_region (Parser.diresa r)
                    (txn_time E k) (Store.db (the_db s)));
           Store.attempts := n |}.
Proof.
  unfold _process_region.
  destruct (is_empty (Parser.diresa r)
            || mem (upper (Parser.diresa r)) ["NULL"; "NONE"; ""]);
    [discriminate|].
  unfold try_except, bind, call_db, update_stats, modify, ret, raise,
    Store.get_or_create_region.
  destruct (get_cursor_cases E
              (Sql.get_or_create_region (Parser.diresa r)) (the_db s))
    as [(n & ex & Hc)|(n & k & Hc)]; rewrite Hc; simpl; intros H;
    inversion H; subst; simpl.
  split; [reflexivity|]. exists n, k. reflexivity.
Qed.

Lemma process_region_raises (r : Parser.record) (s s' : processor)
      (e : exn) :
  _process_region E r s = (s', inl e) ->
  the_stats s' = the_stats s.
Proof.
  unfold _process_region.
  destruct (is_empty (Parser.diresa r)
            || mem (upper (Parser.diresa r)) ["NULL"; "NONE"; ""]).
  { intros H. inversion H. reflexivity. }
  unfold try_except, bind, call_db, update_stats, modify, ret, raise,
    Store.get_or_create_region.
  destruct (get_cursor_cases E
              (Sql.get_or_create_region (Parser.diresa r)) (the_db s))
    as [(n & ex & Hc)|(n & k & Hc)]; rewrite Hc; simpl; intros H;
    inversion H; subst; reflexivity.
Qed.

Lemma cleanup_idle : keeps idle_counters (cleanup_missing_inventory E).
Proof. unfold cleanup_missing_inventory. footprint. Qed.

Lemma process_records_idle (records : list Parser.record) :
  keeps idle_counters (process_records E records).
Proof.
  unfold process_records, _process_batch.
  apply keeps_bind; [|intros _; footprint].
  apply keeps_for_each. intros i.
  apply keeps_for_each. apply process_one_idle.
Qed.

End Statistics.

(** C9.  [process_records] returns the statistics, and in them
    processed + errors is the number of records: each record increments
    exactly one of the two counters.  A record that the orchestrator's
    validation rejects increments [skipped] and [processed] together, so
    the skipped records are among the processed ones. *)
Theorem processed_plus_errors :
  forall (P : Platform) (E : env) (records : list Parser.record)
         (db_manager : Store.world),
    (exists s',
        ETL.process_records E records (ETL.init db_manager)
        = (s', inr (ETL.the_stats s'))
        /\ ETL.processed (ETL.the_stats s') + ETL.errors (ETL.the_stats s')
           = List.length records)
    /\ (forall r s,
           exists s',
             ETL.process_one E r s = (s', inr tt)
             /\ ((ETL.processed (ETL.the_stats s')
                  = ETL.processed (ETL.the_stats s) + 1
                  /\ ETL.errors (ETL.the_stats s')
                     = ETL.errors (ETL.the_stats s))
                 \/ (ETL.processed (ETL.the_stats s')
                     = ETL.processed (ETL.the_stats s)
                     /\ ETL.errors (ETL.the_stats s')
                        = ETL.errors (ETL.the_stats s) + 1)))
    /\ (forall r s,
           ETL._validate_record r = false ->
           exists s',
             ETL.process_one E r s = (s', inr tt)
             /\ ETL.skipped (ETL.the_stats s')
                = ETL.skipped (ETL.the_stats s) + 1
             /\ ETL.processed (ETL.the_stats s')
                = ETL.processed (ETL.the_stats s) + 1
             /\ ETL.errors (ETL.the_stats s')
                = ETL.errors (ETL.the_stats s)).
Proof.
  intros P E records db_manager. split; [|split].
  - destruct (process_records_returns E records (ETL.init db_manager))
      as (s' & Hp & Hf).
    exists s'. split; [exact Hp|].
    destruct (for_each_process_one E records (ETL.init db_manager))
      as (s'' & Hf' & Hn).
    rewrite Hf in Hf'. inversion Hf'; subst s''. simpl in Hn. lia.
  - intros r s. apply process_one_count.
  - intros r s Hv. rewrite (validation_failure_skips E r s Hv).
    eexists. split; [reflexivity|]. simpl. repeat split; reflexivity.
Qed.

Lemma processed_plus_errors_witness :
  exists s',
    ETL.process_one Demo.calm
      (P := Demo.platform)
      (Parser._create_record (P := Demo.platform)
         (Demo.split_fields "" Demo.no_date_line))
      (ETL.init {| Store.db := Demo.empty_db; Store.attempts := 0 |})
    = (s', inr tt)
    /\ ETL.skipped (ETL.the_stats s') = 1
    /\ ETL.processed (ETL.the_stats s') = 1
    /\ ETL.errors (ETL.the_stats s') = 0.
Proof.
  destruct (processed_plus_errors Demo.platform Demo.calm []
              {| Store.db := Demo.empty_db; Store.attempts := 0 |})
    as (_ & _ & Hskip).
  apply Hskip. reflexivity.
Defined.

(** C10.  The counters [centers_created], [centers_updated],
    [products_created], [products_updated], [inventory_created] and
    [inventory_updated] are left alone by [process_records] and by
    [cleanup_missing_inventory], so they are 0 in the statistics a fresh
    processor returns.  [regions_created] goes up by one each time
    [_process_region] returns, also when the region was already in the
    table and nothing was created; it stays when [_process_region]
    raises. *)
Theorem idle_counters_and_region_resolutions :
  forall (P : Platform) (E : env),
    (forall records s s' r,
        ETL.process_records E records s = (s', r) ->
        ETL.idle_counters s' = ETL.idle_counters s)
    /\ (forall s s' r,
           ETL.cleanup_missing_inventory E s = (s', r) ->
           ETL.idle_counters s' = ETL.idle_counters s)
    /\ (forall records db_manager,
           exists s',
             ETL.process_records E records (ETL.init db_manager)
             = (s', inr (ETL.the_stats s'))
             /\ ETL.idle_counters s' = [0; 0; 0; 0; 0; 0])
    /\ (forall r s s' region_id,
           ETL._process_region E r s = (s', inr region_id) ->
           ETL.regions_created (ETL.the_stats s')
           = ETL.regions_created (ETL.the_stats s) + 1
           /\ (In (Parser.diresa r)
                  (map rg_name (regions (Store.db (ETL.the_db s)))) ->
               regions (Store.db (ETL.the_db s'))
               = regions (Store.db (ETL.the_db s))))
    /\ (forall r s s' e,
           ETL._process_region E r s = (s', inl e) ->
           ETL.regions_created (ETL.the_stats s')
           = ETL.regions_created (ETL.the_stats s)).
Proof.
  intros P E. split; [|split; [|split; [|split]]].
  - intros records s s' r. apply process_records_idle.
  - intros s s' r. apply cleanup_idle.
  - intros records db_manager.
    destruct (process_records_returns E records (ETL.init db_manager))
      as (s' & Hp & _).
    exists s'. split; [exact Hp|].
    apply (process_records_idle E records _ _ _ Hp).
  - intros r s s' region_id H.
    destruct (process_region_returns E r s s' region_id H)
      as (Hstats & n & k & Hdb).
    rewrite Hstats, Hdb. split; [reflexivity|].
    intros Hin. simpl. unfold Sql.get_or_create_region.
    destruct (region_found _ _ Hin) as (row & Hrow). rewrite Hrow.
    reflexivity.
  - intros r s s' e H. rewrite (process_region_raises E r s s' e H).
    reflexivity.
Qed.

Lemma idle_counters_and_region_resolutions_witness :
  exists s',
    ETL.process_records Demo.calm
      (Demo.records_of [Demo.good_line; Demo.same_region_line])
      (ETL.init {| Store.db := Demo.empty_db; Store.attempts := 0 |})
    = (s', inr (ETL.the_stats s'))
    /\ ETL.idle_counters s' = [0; 0; 0; 0; 0; 0].
Proof.
  destruct (idle_counters_and_region_resolutions Demo.platform Demo.calm)
    as (_ & _ & Hzero & _).
  apply Hzero.
Defined.

(** Two records of one region: two resolutions counted, one region
    created. *)
Example regions_created_counts_resolutions :
  let s' :=
    fst (ETL.process_records Demo.calm
           (Demo.records_of [Demo.good_line; Demo.same_region_line])
           (ETL.init {| Store.db := Demo.empty_db; Store.attempts := 0 |})) in
  ETL.regions_created (ETL.the_stats s') = 2
  /\ map rg_name (regions (Store.db (ETL.the_db s'))) = ["LIMA"].
Proof. vm_compute. split; reflexivity. Qed.

(** ** The orchestrator: the tracked report date *)

Section TrackedDate.
Context {P : Platform} (E : env).
Import ETL.

Lemma try_reraise {A : Type} (c : M A) (s : processor) :
  try_except c (fun e => raise e) s = c s.
Proof.
  unfold try_except, raise. destruct (c s) as [s1 [e|a]]; reflexivity.
Qed.

Lemma track_latest (r : Parser.record) (s : processor) :
  exists s1,
    track_latest_report_date r s = (s1, inr tt)
    /\ latest_report_date s1
       = later (latest_report_date s) (Parser.fechareporte r)
    /\ the_stats s1 = the_stats s
    /\ the_db s1 = the_db s.
Proof.
  unfold track_latest_report_date, modify, later.
  eexists. split; [reflexivity|].
  destruct (Parser.fechareporte r) as [d|];
    [|repeat split; reflexivity].
  destruct (latest_report_date s) as [l|] eqn:Hl;
    [|repeat split; reflexivity].
  destruct (Z.gtb_spec d l); simpl; repeat split; try reflexivity;
    rewrite ?Hl; f_equal; lia.
Qed.

(** A record that passes validation moves the tracked date, whether the
    rest of its processing returns or raises. *)
Lemma process_record_latest (r : Parser.record) (s s' : processor)
      (res : exn + unit) :
  _validate_record r = true ->
  _process_record E r s = (s', res) ->
  latest_report_date s'
  = later (latest_report_date s) (Parser.fechareporte r).
Proof.
  intros Hv. unfold _process_record. rewrite Hv. cbn [negb].
  rewrite try_reraise. unfold bind at 1.
  destruct (track_latest r s) as (s1 & Ht & Hl & _). rewrite Ht.
  intros H. rewrite <- Hl. apply (pipeline_latest E r _ _ _ H).
Qed.

Lemma process_one_latest (r : Parser.record) (s s' : processor)
      (res : exn + unit) :
  process_one E r s = (s', res) ->
  latest_report_date s'
  = if _validate_record r
    then later (latest_report_date s) (Parser.fechareporte r)
    else latest_report_date s.
Proof.
  destruct (_validate_record r) eqn:Hv.
  - destruct (process_one_cases E r s)
      as [(s1 & Hr & Ho)|(s1 & e & Hr & Ho)];
      rewrite Ho; intros H; inversion H; subst; simpl;
      apply (process_record_latest r s _ _ Hv Hr).
  - rewrite (validation_failure_skips E r s Hv).
    intros H. inversion H. reflexivity.
Qed.

Lemma validated_has_date (r : Parser.record) :
  _validate_record r = true -> exists d, Parser.fechareporte r = Some d.
Proof.
  unfold _validate_record. intros H.
  destruct (Parser.fechareporte r) as [d|]; [exists d; reflexivity|].
  simpl in H. rewrite !andb_false_r in H. discriminate.
Qed.

Lemma for_each_latest (records : list Parser.record) :
  forall s s',
    for_each (process_one E) records s = (s', inr tt) ->
    latest_report_date s'
    = fold_left (fun acc d => later acc (Some d))
                (validated_dates records) (latest_report_date s).
Proof.
  induction records as [|r records IH]; intros s s' H.
  - inversion H. reflexivity.
  - simpl in H. unfold bind in H.
    destruct (process_one_count E r s) as (s1 & Ho & _).
    rewrite Ho in H. rewrite (IH _ _ H).
    rewrite (process_one_latest r s _ _ Ho).
    unfold validated_dates. simpl flat_map. rewrite fold_left_app.
    destruct (_validate_record r) eqn:Hv; [|reflexivity].
    destruct (validated_has_date r Hv) as (d & Hd). rewrite Hd.
    reflexivity.
Qed.

Lemma fold_later_bounds (dates : list date) :
  forall acc,
    (forall d, In d dates ->
               exists m,
                 fold_left (fun a x => later a (Some x)) dates acc = Some m
                 /\ (d <= m)%Z)
    /\ (forall l, acc = Some l ->
                  exists m,
                    fold_left (fun a x => later a (Some x)) dates acc
                    = Some m /\ (l <= m)%Z)
    /\ (forall m,
           fold_left (fun a x => later a (Some x)) dates acc = Some m ->
           acc = Some m \/ In m dates).
Proof.
  induction dates as [|x dates IH]; intros acc; simpl.
  - split; [intros d []|]. split.
    + intros l Hl. exists l. split; [exact Hl|lia].
    + intros m Hm. left. exact Hm.
  - destruct (IH (later acc (Some x))) as (IH1 & IH2 & IH3).
    split; [|split].
    + intros d [Hd|Hd]; [subst d|apply IH1, Hd].
      destruct acc as [l|]; simpl in *.
      * destruct (IH2 (Z.max l x) eq_refl) as (m & Hm & Hle).
        exists m. split; [exact Hm|lia].
      * destruct (IH2 x eq_refl) as (m & Hm & Hle).
        exists m. split; [exact Hm|lia].
    + intros l Hl. subst acc. simpl in *.
      destruct (IH2 (Z.max l x) eq_refl) as (m & Hm & Hle).
      exists m. split; [exact Hm|lia].
    + intros m Hm. destruct (IH3 m Hm) as [Hacc|Hin]; [|right; right; exact Hin].
      destruct acc as [l|]; simpl in Hacc; inversion Hacc.
      * destruct (Z.max_spec l x) as [[_ Hmax]|[_ Hmax]]; rewrite Hmax.
        -- right. left. reflexivity.
        -- left. reflexivity.
      * right. left. reflexivity.
Qed.

End TrackedDate.

(** C4 (as the code has it).  The date tracked for reconciliation is the
    latest report date among the records that pass the orchestrator's
    validation: it is at least the date of each of them and is the date of
    one of them, and it is absent when there is none.  A record that
    passes validation moves the tracked date whether the rest of its
    processing returns or raises; a record that validation rejects, and so
    every record without a report date, leaves it as it was. *)
Theorem tracked_date_is_latest_validated :
  forall (P : Platform) (E : env),
    (forall records db_manager,
        exists s',
          ETL.process_records E records (ETL.init db_manager)
          = (s', inr (ETL.the_stats s'))
          /\ (forall r d,
                 In r records ->
                 ETL._validate_record r = true ->
                 Parser.fechareporte r = Some d ->
                 exists m,
                   ETL.latest_report_date s' = Some m /\ (d <= m)%Z)
          /\ (forall m,
                 ETL.latest_report_date s' = Some m ->
                 exists r,
                   In r records
                   /\ ETL._validate_record r = true
                   /\ Parser.fechareporte r = Some m))
    /\ (forall r s s' res,
           ETL._process_record E r s = (s', res) ->
           ETL._validate_record r = true ->
           ETL.latest_report_date s'
           = ETL.later (ETL.latest_report_date s) (Parser.fechareporte r))
    /\ (forall r s s' res,
           ETL.process_one E r s = (s', res) ->
           ETL._validate_record r = false ->
           ETL.latest_report_date s' = ETL.latest_report_date s)
    /\ (forall r s s' res,
           ETL.process_one E r s = (s', res) ->
           Parser.fechareporte r = None ->
           ETL.latest_report_date s' = ETL.latest_report_date s).
Proof.
  intros P E. split; [|split; [|split]].
  - intros records db_manager.
    destruct (process_records_returns E records (ETL.init db_manager))
      as (s' & Hp & Hf).
    exists s'. split; [exact Hp|].
    pose proof (for_each_latest E records _ _ Hf) as Hl.
    change (ETL.latest_report_date (ETL.init db_manager))
      with (@None date) in Hl.
    destruct (fold_later_bounds (ETL.validated_dates records) None)
      as (Hub & _ & Hmem).
    rewrite <- Hl in Hub, Hmem. split.
    + intros r d Hr Hv Hd. apply Hub.
      unfold ETL.validated_dates. apply in_flat_map. exists r.
      split; [exact Hr|]. rewrite Hv, Hd. left. reflexivity.
    + intros m Hm. destruct (Hmem m Hm) as [Hnone|Hin]; [discriminate|].
      unfold ETL.validated_dates in Hin. apply in_flat_map in Hin.
      destruct Hin as (r & Hr & Hd). exists r.
      destruct (ETL._validate_record r); [|destruct Hd].
      destruct (Parser.fechareporte r) as [d|]; [|destruct Hd].
      destruct Hd as [Hd|[]]. subst d. auto.
  - intros r s s' res H Hv. apply (process_record_latest E r s s' res Hv H).
  - intros r s s' res H Hv.
    rewrite (process_one_latest E r s s' res H), Hv. reflexivity.
  - intros r s s' res H Hd.
    rewrite (process_one_latest E r s s' res H).
    destruct (ETL._validate_record r); [|reflexivity].
    rewrite Hd. reflexivity.
Qed.

Lemma tracked_date_is_latest_validated_witness :
  exists s',
    ETL.process_records Demo.calm
      (Demo.records_of [Demo.good_line; Demo.no_date_line])
      (ETL.init {| Store.db := Demo.empty_db; Store.attempts := 0 |})
    = (s', inr (ETL.the_stats s'))
    /\ (forall r d,
           In r (Demo.records_of [Demo.good_line; Demo.no_date_line]) ->
           ETL._validate_record r = true ->
           Parser.fechareporte r = Some d ->
           exists m, ETL.latest_report_date s' = Some m /\ (d <= m)%Z)
    /\ (forall m,
           ETL.latest_report_date s' = Some m ->
           exists r,
             In r (Demo.records_of [Demo.good_line; Demo.no_date_line])
             /\ ETL._validate_record r = true
             /\ Parser.fechareporte r = Some m).
Proof.
  destruct (tracked_date_is_latest_validated Demo.platform Demo.calm)
    as (Hrun & _).
  apply Hrun.
Defined.

(** A record without a report date beside a well-formed one: the tracked
    date is the date of the well-formed one (2024-03-01). *)
Example tracked_date_of_two_lines :
  ETL.latest_report_date
    (fst (ETL.process_records Demo.calm
            (Demo.records_of [Demo.good_line; Demo.no_date_line])
            (ETL.init {| Store.db := Demo.empty_db; Store.attempts := 0 |})))
  = Some 738946%Z.
Proof. vm_compute. reflexivity. Qed.

(** C4 as stated fails: the only record of the run has product type X;
    its processing raises and it is counted as an error, yet its report
    date (2024-05-01) has become the tracked date. *)
Lemma failed_record_moves_tracked_date :
  ETL.errors
    (ETL.the_stats
       (fst (ETL.process_records Demo.calm
               (Demo.records_of [Demo.bad_type_line])
               (ETL.init {| Store.db := Demo.empty_db;
                            Store.attempts := 0 |})))) = 1
  /\ ETL.processed
       (ETL.the_stats
          (fst (ETL.process_records Demo.calm
                  (Demo.records_of [Demo.bad_type_line])
                  (ETL.init {| Store.db := Demo.empty_db;
                               Store.attempts := 0 |})))) = 0
  /\ ETL.latest_report_date
       (fst (ETL.process_records Demo.calm
               (Demo.records_of [Demo.bad_type_line])
               (ETL.init {| Store.db := Demo.empty_db;
                            Store.attempts := 0 |})))
     = Some 739007%Z.
Proof. vm_compute. repeat split; reflexivity. Qed.

(** ** The orchestrator: one record through the pipeline *)

Section Pipeline.
Context {P : Platform} (E : env).
Import ETL.

(** Where a record that passes validation can stop: at the region, at
    the facility, at the product, at the inventory fact, or nowhere. *)
Lemma pipeline_cases (r : Parser.record) (s : processor) :
  _validate_record r = true ->
  exists s1,
    track_latest_report_date r s = (s1, inr tt)
    /\ tables s1 = tables s
    /\ the_stats s1 = the_stats s
    /\ ((exists s2 e,
            _process_region E r s1 = (s2, inl e)
            /\ _process_record E r s = (s2, inl e))
        \/ exists s2 region_id,
            _process_region E r s1 = (s2, inr region_id)
            /\ ((exists s3 e,
                    _process_medical_center E r region_id s2 = (s3, inl e)
                    /\ _process_record E r s = (s3, inl e))
                \/ exists s3 center_id,
                    _process_medical_center E r region_id s2
                    = (s3, inr center_id)
                    /\ ((exists s4 e,
                            _process_product E r s3 = (s4, inl e)
                            /\ _process_record E r s = (s4, inl e))
                        \/ exists s4 product_id,
                            _process_product E r s3 = (s4, inr product_id)
                            /\ ((exists s5 e,
                                    _process_inventory E r center_id
                                                       product_id s4
                                    = (s5, inl e)
                                    /\ _process_record E r s = (s5, inl e))
                                \/ exists s5,
                                    _process_inventory E r center_id
                                                       product_id s4
                                    = (s5, inr tt)
                                    /\ _process_record E r s
                                       = (with_item (center_id, product_id)
                                                    s5, inr tt))))).
Proof.
  intros Hv. unfold _process_record. rewrite Hv. cbn [negb].
  rewrite try_reraise. unfold bind.
  destruct (track_latest r s) as (s1 & Ht & _ & Hstats & Hdb).
  exists s1. rewrite Ht.
  split; [reflexivity|]. split; [unfold tables; rewrite Hdb; reflexivity|].
  split; [exact Hstats|].
  destruct (_process_region E r s1) as [s2 [e|region_id]];
    [left; exists s2, e; split; reflexivity|].
  right. exists s2, region_id. split; [reflexivity|].
  destruct (_process_medical_center E r region_id s2)
    as [s3 [e|center_id]];
    [left; exists s3, e; split; reflexivity|].
  right. exists s3, center_id. split; [reflexivity|].
  destruct (_process_product E r s3) as [s4 [e|product_id]];
    [left; exists s4, e; split; reflexivity|].
  right. exists s4, product_id. split; [reflexivity|].
  destruct (_process_inventory E r center_id product_id s4)
    as [s5 [e|[]]];
    [left; exists s5, e; split; reflexivity|].
  right. exists s5. split; reflexivity.
Qed.

Lemma region_statements_frame (name : string) (now : timestamp)
      (db : database) :
  later_tables (snd (Sql.get_or_create_region name now db))
  = later_tables db.
Proof.
  unfold Sql.get_or_create_region.
  destruct (find _ (regions db)); reflexivity.
Qed.

Lemma center_statements_frame (d : center_data) (now : timestamp)
      (db : database) :
  later_tables (snd (Sql.get_or_create_medical_center d now db))
  = later_tables db.
Proof.
  unfold Sql.get_or_create_medical_center.
  destruct (find _ (medical_centers db)); reflexivity.
Qed.

(** Region and facility resolution leave the product types, the
    products and the inventory as they were. *)
Lemma process_region_frame (r : Parser.record) :
  keeps (fun s => later_tables (Store.db (the_db s))) (_process_region E r).
Proof.
  unfold _process_region.
  destruct (is_empty (Parser.diresa r) || _); [apply keeps_raise|].
  apply keeps_try_except; [|intros e; apply keeps_raise].
  apply keeps_bind.
  - apply (keeps_call_cursor E later_tables). apply region_statements_frame.
  - intros region_id. unfold update_stats. footprint.
Qed.

Lemma process_medical_center_frame (r : Parser.record) (i : ident) :
  keeps (fun s => later_tables (Store.db (the_db s)))
        (_process_medical_center E r i).
Proof.
  unfold _process_medical_center.
  apply keeps_try_except; [|intros e; apply keeps_raise].
  apply (keeps_call_cursor E later_tables). apply center_statements_frame.
Qed.

Lemma find_snoc {A : Type} (p : A -> bool) (l : list A) (x : A) :
  find p (l ++ [x])
  = match find p l with
    | Some y => Some y
    | None => if p x then Some x else None
    end.
Proof.
  induction l as [|a l IH]; simpl; [reflexivity|].
  destruct (p a); [reflexivity|exact IH].
Qed.

Lemma select_after_insert (c code name : string) (db : database) :
  c <> code ->
  Sql.select_type_id c (Sql.insert_type_if_absent code name db)
  = Sql.select_type_id c db.
Proof.
  intros Hc. unfold Sql.insert_type_if_absent, Sql.select_type_id.
  destruct (existsb _ (product_types db)); simpl; [reflexivity|].
  rewrite find_snoc. simpl.
  destruct (find _ (product_types db)); [reflexivity|].
  destruct (String.eqb_spec code c); [congruence|reflexivity].
Qed.

Lemma select_absent (c : string) (db : database) :
  ~ In c (map pt_code (product_types db)) ->
  Sql.select_type_id c db = None.
Proof.
  intros Hn. unfold Sql.select_type_id.
  destruct (find _ (product_types db)) as [row|] eqn:Hf; [|reflexivity].
  exfalso. apply Hn. apply find_some in Hf. destruct Hf as [Hin Heq].
  apply String.eqb_eq in Heq. rewrite <- Heq. apply in_map, Hin.
Qed.

Lemma insert_type_frame (r : Parser.record) (code name : string)
      (db : database) :
  bystanders r (Sql.insert_type_if_absent code name db) = bystanders r db.
Proof.
  unfold Sql.insert_type_if_absent.
  destruct (existsb _ (product_types db)); reflexivity.
Qed.

(** A type code that is neither M nor I and is not in the table is not
    resolved; looking it up writes to the product types only. *)
Lemma unknown_type_statements (r : Parser.record) (c : string)
      (now : timestamp) (db : database) :
  c <> "M" -> c <> "I" ->
  ~ In c (map pt_code (product_types db)) ->
  fst (Sql.get_product_type_id c now db) = None
  /\ bystanders r (snd (Sql.get_product_type_id c now db))
     = bystanders r db.
Proof.
  intros HM HI Hn. unfold Sql.get_product_type_id.
  rewrite (select_absent c db Hn). simpl.
  rewrite !select_after_insert by assumption.
  split; [apply select_absent, Hn|].
  rewrite !insert_type_frame. reflexivity.
Qed.

Lemma process_product_unknown_type (r : Parser.record) (s : processor) :
  Parser.tipo_prod r <> "M" -> Parser.tipo_prod r <> "I" ->
  ~ In (Parser.tipo_prod r) (map pt_code (product_types (tables s))) ->
  exists s' e,
    _process_product E r s = (s', inl e)
    /\ bystanders r (tables s') = bystanders r (tables s)
    /\ batch_counters s' = batch_counters s.
Proof.
  intros HM HI Hn. unfold _process_product, bind, call_db,
                     Store.get_product_type_id.
  destruct (get_cursor_cases E
              (Sql.get_product_type_id (Parser.tipo_prod r)) (the_db s))
    as [(n & ex & Hc)|(n & k & Hc)]; rewrite Hc.
  - eexists _, _. split; [reflexivity|]. split; reflexivity.
  - destruct (unknown_type_statements r (Parser.tipo_prod r) (txn_time E k)
                (Store.db (the_db s)) HM HI Hn) as (Hnone & Hb).
    rewrite Hnone. unfold raise. eexists _, _. split; [reflexivity|].
    unfold tables. simpl. rewrite Hb. split; reflexivity.
Qed.

Lemma region_statements_bystanders (r : Parser.record) (now : timestamp)
      (db : database) :
  bystanders r (snd (Sql.get_or_create_region (Parser.diresa r) now db))
  = bystanders r db.
Proof.
  unfold Sql.get_or_create_region.
  destruct (find _ (regions db)); [reflexivity|].
  unfold bystanders. simpl. rewrite filter_app. simpl.
  rewrite String.eqb_refl. simpl. rewrite app_nil_r. reflexivity.
Qed.

Lemma filter_update_center (d : center_data) (now : timestamp)
      (rows : list center_row) :
  filter (fun row => negb (String.eqb (mc_code row) (cd_code d)))
         (map (Sql.update_center d now) rows)
  = filter (fun row => negb (String.eqb (mc_code row) (cd_code d))) rows.
Proof.
  induction rows as [|row rows IH]; simpl; [reflexivity|].
  rewrite IH.
  destruct (String.eqb (mc_code row) (cd_code d)) eqn:Hc;
    unfold Sql.update_center; rewrite Hc; simpl; rewrite Hc; reflexivity.
Qed.

Lemma center_statements_bystanders (r : Parser.record) (d : center_data)
      (now : timestamp) (db : database) :
  cd_code d = Parser.codpre r ->
  bystanders r (snd (Sql.get_or_create_medical_center d now db))
  = bystanders r db.
Proof.
  intros Hcode. unfold Sql.get_or_create_medical_center.
  destruct (find _ (medical_centers db)); unfold bystanders; simpl;
    rewrite <- Hcode.
  - rewrite filter_update_center. reflexivity.
  - rewrite filter_app. simpl. rewrite String.eqb_refl. simpl.
    rewrite app_nil_r. reflexivity.
Qed.

Lemma process_region_bystanders (r : Parser.record) :
  keeps (fun s => bystanders r (Store.db (the_db s))) (_process_region E r).
Proof.
  unfold _process_region.
  destruct (is_empty (Parser.diresa r) || _); [apply keeps_raise|].
  apply keeps_try_except; [|intros e; apply keeps_raise].
  apply keeps_bind.
  - apply (keeps_call_cursor E (bystanders r)).
    apply region_statements_bystanders.
  - intros region_id. unfold update_stats. footprint.
Qed.

Lemma process_medical_center_bystanders (r : Parser.record) (i : ident) :
  keeps (fun s => bystanders r (Store.db (the_db s)))
        (_process_medical_center E r i).
Proof.
  unfold _process_medical_center.
  apply keeps_try_except; [|intros e; apply keeps_raise].
  apply (keeps_call_cursor E (bystanders r)).
  intros now db. apply center_statements_bystanders. reflexivity.
Qed.

(** A record with an unknown product type stops at the region, at the
    facility or at the product, with the bystanders untouched. *)
Lemma unknown_type_record (r : Parser.record) (s : processor) :
  _validate_record r = true ->
  Parser.tipo_prod r <> "M" -> Parser.tipo_prod r <> "I" ->
  ~ In (Parser.tipo_prod r) (map pt_code (product_types (tables s))) ->
  exists s' e,
    _process_record E r s = (s', inl e)
    /\ bystanders r (tables s') = bystanders r (tables s).
Proof.
  intros Hv HM HI Hn.
  destruct (pipeline_cases r s Hv) as (s1 & _ & Hdb1 & _ & Hcases).
  rewrite <- Hdb1 in Hn |- *. unfold tables in *.
  destruct Hcases as [(s2 & e & Hr & Hrec)|(s2 & rid & Hr & Hcases)].
  { exists s2, e. split; [exact Hrec|].
    apply (process_region_bystanders r _ _ _ Hr). }
  pose proof (process_region_bystanders r _ _ _ Hr) as Hb2.
  pose proof (process_region_frame r _ _ _ Hr) as Hf2.
  cbv beta in Hb2, Hf2.
  destruct Hcases as [(s3 & e & Hc & Hrec)|(s3 & cid & Hc & Hcases)].
  { exists s3, e. split; [exact Hrec|].
    pose proof (process_medical_center_bystanders r rid _ _ _ Hc) as Hb3.
    cbv beta in Hb3. rewrite Hb3. exact Hb2. }
  pose proof (process_medical_center_bystanders r rid _ _ _ Hc) as Hb3.
  pose proof (process_medical_center_frame r rid _ _ _ Hc) as Hf3.
  cbv beta in Hb3, Hf3.
  assert (Hn3 : ~ In (Parser.tipo_prod r)
                     (map pt_code (product_types (tables s3)))).
  { unfold tables, later_tables in *.
    inversion Hf3 as [[Ht3 Hx3 Hy3]]. inversion Hf2 as [[Ht2 Hx2 Hy2]].
    rewrite Ht3, Ht2. exact Hn. }
  destruct (process_product_unknown_type r s3 HM HI Hn3)
    as (s4 & e & Hp & Hb4 & _).
  unfold tables in Hb4.
  destruct Hcases as [(s4' & e' & Hp' & Hrec)|(s4' & pid & Hp' & _)].
  - rewrite Hp in Hp'. inversion Hp'; subst s4' e'.
    exists s4, e. split; [exact Hrec|].
    rewrite Hb4, Hb3. exact Hb2.
  - rewrite Hp in Hp'. discriminate.
Qed.

End Pipeline.

(** C3 (as the code has it).  A record that passes the orchestrator's
    validation and whose product type code is neither M nor I, nor a code
    of the product-type table, fails: the batch loop counts it as an error
    and not as processed.  Its failure writes no product and no inventory
    fact, and leaves the regions and facilities other than its own as
    they were.  (Its own region and facility are resolved before the
    product type is looked at.) *)
Theorem unknown_product_type_is_an_error :
  forall (P : Platform) (E : env) (r : Parser.record) (s : ETL.processor),
    ETL._validate_record r = true ->
    Parser.tipo_prod r <> "M" ->
    Parser.tipo_prod r <> "I" ->
    ~ In (Parser.tipo_prod r) (map pt_code (product_types (ETL.tables s))) ->
    exists s',
      ETL.process_one E r s = (s', inr tt)
      /\ (exists s1 e, ETL._process_record E r s = (s1, inl e))
      /\ ETL.errors (ETL.the_stats s') = ETL.errors (ETL.the_stats s) + 1
      /\ ETL.processed (ETL.the_stats s') = ETL.processed (ETL.the_stats s)
      /\ products (ETL.tables s') = products (ETL.tables s)
      /\ inventory (ETL.tables s') = inventory (ETL.tables s)
      /\ filter (fun row => negb (String.eqb (rg_name row) (Parser.diresa r)))
                (regions (ETL.tables s'))
         = filter (fun row => negb (String.eqb (rg_name row)
                                                (Parser.diresa r)))
                  (regions (ETL.tables s))
      /\ filter (fun row => negb (String.eqb (mc_code row) (Parser.codpre r)))
                (medical_centers (ETL.tables s'))
         = filter (fun row => negb (String.eqb (mc_code row)
                                                (Parser.codpre r)))
                  (medical_centers (ETL.tables s)).
Proof.
  intros P E r s Hv HM HI Hn.
  destruct (unknown_type_record E r s Hv HM HI Hn) as (s1 & e & Hrec & Hb).
  destruct (process_one_cases E r s)
    as [(s1' & Hr & _)|(s1' & e' & Hr & Ho)];
    rewrite Hrec in Hr; [discriminate|].
  inversion Hr; subst s1' e'. clear Hr.
  pose proof (process_record_counters E r _ _ _ Hrec) as Hk.
  unfold ETL.batch_counters in Hk. inversion Hk as [[Hp He]].
  eexists. split; [exact Ho|].
  split; [exists s1, e; exact Hrec|].
  unfold ETL.bystanders in Hb. inversion Hb as [[Hrg Hmc Hpr Hinv]].
  unfold ETL.tables in *. simpl.
  rewrite Hp, He. repeat split; assumption.
Qed.

Lemma unknown_product_type_is_an_error_witness :
  exists s',
    ETL.process_one Demo.calm
      (P := Demo.platform)
      (Parser._create_record (P := Demo.platform)
         (Demo.split_fields "" Demo.bad_type_line))
      (ETL.init {| Store.db := Demo.empty_db; Store.attempts := 0 |})
    = (s', inr tt)
    /\ ETL.errors (ETL.the_stats s') = 1
    /\ products (ETL.tables s') = []
    /\ inventory (ETL.tables s') = [].
Proof.
  destruct (unknown_product_type_is_an_error Demo.platform Demo.calm
              (Parser._create_record (P := Demo.platform)
                 (Demo.split_fields "" Demo.bad_type_line))
              (ETL.init {| Store.db := Demo.empty_db; Store.attempts := 0 |}))
    as (s' & Ho & _ & He & _ & Hp & Hi & _).
  - reflexivity.
  - discriminate.
  - discriminate.
  - simpl. tauto.
  - exists s'. repeat split; assumption.
Defined.

(** C3 as stated fails: processing the record with product type X, on
    empty tables, is counted as an error and still inserts the region
    CUSCO and the facility 00002. *)
Lemma unknown_type_record_writes_region_and_facility :
  ETL.errors
    (ETL.the_stats
       (fst (ETL.process_records Demo.calm
               (Demo.records_of [Demo.bad_type_line])
               (ETL.init {| Store.db := Demo.empty_db;
                            Store.attempts := 0 |})))) = 1
  /\ regions Demo.empty_db = []
  /\ medical_centers Demo.empty_db = []
  /\ map rg_name
         (regions
            (ETL.tables
               (fst (ETL.process_records Demo.calm
                       (Demo.records_of [Demo.bad_type_line])
                       (ETL.init {| Store.db := Demo.empty_db;
                                    Store.attempts := 0 |})))))
     = ["CUSCO"]
  /\ map mc_code
         (medical_centers
            (ETL.tables
               (fst (ETL.process_records Demo.calm
                       (Demo.records_of [Demo.bad_type_line])
                       (ETL.init {| Store.db := Demo.empty_db;
                                    Store.attempts := 0 |})))))
     = ["00002"].
Proof. vm_compute. repeat split; reflexivity. Qed.

(** ** The orchestrator: the inventory fact of a record *)

Section InventoryFact.
Context {P : Platform} (E : env).
Import ETL.

(** The row an upsert leaves for its fact. *)
Lemma update_inventory_row (d : inventory_data) (now : timestamp)
      (db : database) :
  exists row,
    In row (inventory (snd (Sql.update_inventory d now db)))
    /\ Sql.row_key row = Sql.data_key d
    /\ inv_current_stock row = id_current_stock d
    /\ inv_status row = id_status d.
Proof.
  unfold Sql.update_inventory.
  destruct (existsb (Sql.same_key d) (inventory db)) eqn:Hex; simpl.
  - apply existsb_exists in Hex. destruct Hex as (r0 & Hin & Hk).
    exists (Sql.do_update d now r0). split; [apply in_map, Hin|].
    split; [rewrite do_update_key; apply same_key_spec, Hk|].
    unfold Sql.do_update. rewrite Hk. split; reflexivity.
  - exists (Sql.proposed_row (inventory_seq db) d now).
    split; [apply in_or_app; right; left; reflexivity|].
    repeat split; reflexivity.
Qed.

Lemma process_inventory_returns (r : Parser.record) (c p : ident)
      (s s' : processor) :
  _process_inventory E r c p s = (s', inr tt) ->
  exists now,
    tables s'
    = snd (Sql.update_inventory (make_inventory_data E r c p) now
                                (tables s)).
Proof.
  unfold _process_inventory. rewrite try_reraise.
  unfold call_db, Store.update_inventory, tables.
  destruct (get_cursor_cases E
              (Sql.update_inventory (make_inventory_data E r c p))
              (the_db s))
    as [(n & ex & Hc)|(n & k & Hc)]; rewrite Hc; intros H; inversion H.
  exists (txn_time E k). reflexivity.
Qed.

Lemma with_item_in (item : ident * ident) (s : processor) :
  In item (processed_items (with_item item s)).
Proof.
  unfold with_item, add_processed_item, modify.
  cbn [fst processed_items].
  match goal with
  | |- context [if ?b then _ else _] => destruct b eqn:Hex
  end.
  - apply existsb_exists in Hex. destruct Hex as ([c p] & Hin & Heq).
    destruct item as [c' p']. simpl in Heq.
    apply andb_true_iff in Heq. destruct Heq as [H1 H2].
    apply Z.eqb_eq in H1, H2. subst c' p'. exact Hin.
  - left. reflexivity.
Qed.

(** A record that passes validation has a report date and a stock. *)
Lemma validated_has_stock (r : Parser.record) :
  _validate_record r = true -> exists x, Parser.stk r = Some x.
Proof.
  unfold _validate_record. intros H.
  destruct (negb (forallb _ _)); [discriminate|].
  destruct (Parser.stk r) as [x|]; [exists x; reflexivity|discriminate].
Qed.

Lemma missing_date_or_stock (r : Parser.record) :
  Parser.fechareporte r = None \/ Parser.stk r = None ->
  _validate_record r = false.
Proof.
  intros H. apply not_true_is_false. intros Hv.
  destruct (validated_has_date r Hv) as (d & Hd).
  destruct (validated_has_stock r Hv) as (x & Hx).
  destruct H as [H|H]; congruence.
Qed.

End InventoryFact.

(** C6 (as the code has it).  When [_process_record] runs a record that
    passes validation to the end, the inventory holds a row for the
    resolved facility and product whose report date is the record's
    report date, whose stock is the record's stock (a zero stock written
    as 0) and whose status is the record's status, 'ACTIVO' when that is
    empty.  A record without a report date or without a stock does not
    get that far: validation rejects it, it is counted as skipped, and no
    table is touched. *)
Theorem accepted_record_inventory_fact :
  forall (P : Platform) (E : env) (r : Parser.record),
    (forall s s',
        ETL._validate_record r = true ->
        ETL._process_record E r s = (s', inr tt) ->
        exists d x row,
          Parser.fechareporte r = Some d
          /\ Parser.stk r = Some x
          /\ In row (inventory (ETL.tables s'))
          /\ inv_report_date row = d
          /\ inv_current_stock row
             = Some (if num_truthy x then x else num_zero)
          /\ inv_status row
             = (if is_empty (Parser.estado r) then "ACTIVO"
                else Parser.estado r)
          /\ In (inv_center_id row, inv_product_id row)
                (ETL.processed_items s'))
    /\ (forall s,
           Parser.fechareporte r = None \/ Parser.stk r = None ->
           ETL._process_record E r s
           = ({| ETL.the_stats := ETL.incr_skipped (ETL.the_stats s);
                 ETL.processed_items := ETL.processed_items s;
                 ETL.latest_report_date := ETL.latest_report_date s;
                 ETL.the_db := ETL.the_db s |}, inr tt)).
Proof.
  intros P E r. split.
  - intros s s' Hv Hrec.
    destruct (validated_has_date r Hv) as (d & Hd).
    destruct (validated_has_stock r Hv) as (x & Hx).
    destruct (pipeline_cases E r s Hv) as (s1 & _ & _ & _ & Hcases).
    destruct Hcases as [(s2 & e & _ & Hf)|(s2 & rid & _ & Hcases)];
      [rewrite Hf in Hrec; discriminate|].
    destruct Hcases as [(s3 & e & _ & Hf)|(s3 & cid & _ & Hcases)];
      [rewrite Hf in Hrec; discriminate|].
    destruct Hcases as [(s4 & e & _ & Hf)|(s4 & pid & _ & Hcases)];
      [rewrite Hf in Hrec; discriminate|].
    destruct Hcases as [(s5 & e & _ & Hf)|(s5 & Hinv & Hf)];
      [rewrite Hf in Hrec; discriminate|].
    rewrite Hf in Hrec. inversion Hrec as [Hs']. clear Hrec Hf Hs'.
    destruct (process_inventory_returns E r cid pid s4 s5 Hinv)
      as (now & Hdb).
    destruct (update_inventory_row
                (ETL.make_inventory_data E r cid pid) now (ETL.tables s4))
      as (row & Hin & Hkey & Hstock & Hstatus).
    rewrite <- Hdb in Hin.
    unfold Sql.row_key, Sql.data_key in Hkey. simpl in Hkey.
    rewrite Hd in Hkey. inversion Hkey as [[Hc Hp Hdate]].
    exists d, x, row.
    split; [exact Hd|]. split; [exact Hx|].
    split; [exact Hin|]. split; [exact Hdate|].
    split; [rewrite Hstock; simpl; rewrite Hx; reflexivity|].
    split; [rewrite Hstatus; reflexivity|].
    rewrite Hc, Hp. apply with_item_in.
  - intros s Hmiss. unfold ETL._process_record.
    rewrite (missing_date_or_stock r Hmiss). reflexivity.
Qed.

Lemma accepted_record_inventory_fact_witness :
  exists s' d x row,
    ETL._process_record Demo.calm
      (P := Demo.platform)
      (Parser._create_record (P := Demo.platform)
         (Demo.split_fields "" Demo.same_region_line))
      (ETL.init {| Store.db := Demo.empty_db; Store.attempts := 0 |})
    = (s', inr tt)
    /\ Parser.fechareporte
         (Parser._create_record (P := Demo.platform)
            (Demo.split_fields "" Demo.same_region_line)) = Some d
    /\ Parser.stk
         (Parser._create_record (P := Demo.platform)
            (Demo.split_fields "" Demo.same_region_line)) = Some x
    /\ In row (inventory (ETL.tables s'))
    /\ inv_report_date row = d
    /\ inv_current_stock row
       = Some (if num_truthy (Platform := Demo.platform) x then x
               else num_zero)
    /\ inv_status row
       = (if is_empty
               (Parser.estado
                  (Parser._create_record (P := Demo.platform)
                     (Demo.split_fields "" Demo.same_region_line)))
          then "ACTIVO"
          else Parser.estado
                 (Parser._create_record (P := Demo.platform)
                    (Demo.split_fields "" Demo.same_region_line)))
    /\ In (inv_center_id row, inv_product_id row) (ETL.processed_items s').
Proof.
  assert (Hreturns :
            snd (ETL._process_record Demo.calm
                   (P := Demo.platform)
                   (Parser._create_record (P := Demo.platform)
                      (Demo.split_fields "" Demo.same_region_line))
                   (ETL.init {| Store.db := Demo.empty_db;
                                Store.attempts := 0 |}))
            = inr tt)
    by (vm_compute; reflexivity).
  destruct (ETL._process_record Demo.calm
              (P := Demo.platform)
              (Parser._create_record (P := Demo.platform)
                 (Demo.split_fields "" Demo.same_region_line))
              (ETL.init {| Store.db := Demo.empty_db; Store.attempts := 0 |}))
    as [s' res] eqn:Hrun.
  simpl in Hreturns. subst res.
  destruct (accepted_record_inventory_fact Demo.platform Demo.calm
              (Parser._create_record (P := Demo.platform)
                 (Demo.split_fields "" Demo.same_region_line)))
    as [Hrow _].
  destruct (Hrow _ s' eq_refl Hrun) as (d & x & row & Hfact).
  exists s', d, x, row. split; [reflexivity|exact Hfact].
Defined.

(** C6 as stated fails: a record without a report date and a record
    without a stock are both skipped, and no inventory fact is written. *)
Lemma record_without_date_or_stock_is_not_upserted :
  ETL.skipped
    (ETL.the_stats
       (fst (ETL.process_records Demo.calm
               (Demo.records_of [Demo.no_date_line; Demo.no_stock_line])
               (ETL.init {| Store.db := Demo.empty_db;
                            Store.attempts := 0 |})))) = 2
  /\ Parser.fechareporte
       (Parser._create_record (P := Demo.platform)
          (Demo.split_fields "" Demo.no_date_line)) = None
  /\ Parser.stk
       (Parser._create_record (P := Demo.platform)
          (Demo.split_fields "" Demo.no_stock_line)) = None
  /\ List.length (Demo.records_of [Demo.no_date_line; Demo.no_stock_line]) = 2
  /\ List.length
       (inventory
          (ETL.tables
             (fst (ETL.process_records Demo.calm
                     (Demo.records_of [Demo.no_date_line; Demo.no_stock_line])
                     (ETL.init {| Store.db := Demo.empty_db;
                                  Store.attempts := 0 |})))))
     = 0.
Proof. vm_compute. repeat split; reflexivity. Qed.

(** ** The store: connections *)

Section Connections.
Context (E : env).

Lemma get_connection_first_success (retries : nat) :
  forall n k,
    k < retries ->
    getconn_ok E (n + k) = true ->
    (forall j, j < k -> getconn_ok E (n + j) = false) ->
    Store.get_connection_loop E retries n = (n + k + 1, inr (n + k)).
Proof.
  induction retries as [|retries IH]; intros n k Hk Hok Hfail; [lia|].
  simpl. destruct k as [|k].
  - rewrite Nat.add_0_r in *. rewrite Hok. f_equal. lia.
  - rewrite <- (Nat.add_0_r n) at 1. rewrite (Hfail 0) by lia.
    destruct retries as [|retries']; [lia|].
    rewrite (IH (S n) k); [f_equal; [lia|f_equal; lia]|lia| |].
    + replace (S n + k) with (n + S k) by lia. exact Hok.
    + intros j Hj. replace (S n + j) with (n + S j) by lia.
      apply Hfail. lia.
Qed.

Lemma get_connection_all_fail (retries : nat) :
  forall n,
    0 < retries ->
    (forall j, j < retries -> getconn_ok E (n + j) = false) ->
    Store.get_connection_loop E retries n
    = (n + retries, inl OperationalError).
Proof.
  induction retries as [|retries IH]; intros n Hpos Hfail; [lia|].
  simpl. rewrite <- (Nat.add_0_r n) at 1. rewrite (Hfail 0) by lia.
  destruct retries as [|retries'].
  - f_equal. lia.
  - rewrite (IH (S n)); [f_equal; lia|lia|].
    intros j Hj. replace (S n + j) with (n + S j) by lia. apply Hfail. lia.
Qed.

End Connections.

Section CursorOutcomes.
Context {P : Platform} (E : env) {A : Type}
        (body : timestamp -> database -> A * database) (w : Store.world).

(** The first of the three calls of the pool that succeeds is call
    [attempts w + k], and the statements run on it without a fault:
    [get_cursor] returns their result and leaves their tables. *)
Lemma get_cursor_returns (k : nat) :
  k < 3 ->
  getconn_ok E (Store.attempts w + k) = true ->
  (forall j, j < k -> getconn_ok E (Store.attempts w + j) = false) ->
  stmt_fault E (Store.attempts w + k) = None ->
  Store.get_cursor E body w
  = ({| Store.db :=
          snd (body (txn_time E (Store.attempts w + k)) (Store.db w));
        Store.attempts := Store.attempts w + k + 1 |},
     inr (fst (body (txn_time E (Store.attempts w + k)) (Store.db w)))).
Proof.
  intros Hk Hok Hfail Hnone. unfold Store.get_cursor, Store.get_connection.
  rewrite (get_connection_first_success E 3 _ k Hk Hok Hfail), Hnone.
  destruct (body _ _). reflexivity.
Qed.



(** All three calls of the pool fail. *)
Lemma get_cursor_refused :
  (forall j, j < 3 -> getconn_ok E (Store.attempts w + j) = false) ->
  Store.get_cursor E body w
  = ({| Store.db := Store.db w; Store.attempts := Store.attempts w + 3 |},
     inl OperationalError).
Proof.
  intros Hfail. unfold Store.get_cursor, Store.get_connection.
  rewrite (get_connection_all_fail E 3 _ ltac:(lia) Hfail). reflexivity.
Qed.


End CursorOutcomes.


(** ** The run *)

Section Run.
Context {P : Platform} (E : env).
Import ETL.

(** Three refused connections in a row: the method raises
    [OperationalError] and the tables stay as they were. *)
Lemma get_cursor_offline {A : Type}
      (body : timestamp -> database -> A * database) (w : Store.world) :
  getconn_ok E (Store.attempts w) = false ->
  getconn_ok E (S (Store.attempts w)) = false ->
  getconn_ok E (S (S (Store.attempts w))) = false ->
  Store.get_cursor E body w
  = ({| Store.db := Store.db w;
        Store.attempts := S (S (S (Store.attempts w))) |},
     inl OperationalError).
Proof.
  intros H0 H1 H2. unfold Store.get_cursor, Store.get_connection. simpl.
  rewrite H0, H1, H2. reflexivity.
Qed.

(** [cleanup_missing_inventory] never raises. *)
Lemma cleanup_returns (s : processor) :
  exists s' count, cleanup_missing_inventory E s = (s', inr count).
Proof.
  unfold cleanup_missing_inventory, bind, get.
  destruct (latest_report_date s) as [d|]; [|eexists _, _; reflexivity].
  unfold try_except, call_db, Store.mark_missing_inventory_as_zero.
  destruct (get_cursor_cases E (Sql.mark_missing_inventory_as_zero d)
                             (the_db s))
    as [(n & ex & Hc)|(n & k & Hc)]; rewrite Hc; eexists _, _; reflexivity.
Qed.

(** Reconciliation is run with the tracked date, when there is one; its
    count is 0 when there is none or when the store raises. *)
Lemma cleanup_reconciles (s s' : processor) (count : nat) :
  cleanup_missing_inventory E s = (s', inr count) ->
  (count = 0 /\ tables s' = tables s)
  \/ exists d now,
      latest_report_date s = Some d
      /\ (count, tables s')
         = Sql.mark_missing_inventory_as_zero d now (tables s).
Proof.
  unfold cleanup_missing_inventory, bind, get.
  destruct (latest_report_date s) as [d|].
  - unfold try_except, call_db, Store.mark_missing_inventory_as_zero, ret.
    destruct (get_cursor_cases E (Sql.mark_missing_inventory_as_zero d)
                               (the_db s))
      as [(n & ex & Hc)|(n & k & Hc)]; rewrite Hc; intros H; inversion H.
    + left. split; reflexivity.
    + right. exists d, (txn_time E k). split; [reflexivity|].
      reflexivity.
  - intros H. inversion H. left. split; reflexivity.
Qed.

Lemma run_completes (tables : database) (lines : list string) :
  exists o, Ingestor.run E (inr tables) (inr lines) = inr o.
Proof.
  unfold Ingestor.run.
  destruct (process_records_returns E
              (Parser.records (Parser.parse lines))
              (init {| Store.db := tables; Store.attempts := 0 |}))
    as (s1 & Hp & _).
  rewrite Hp.
  destruct (cleanup_returns s1) as (s2 & count & Hc). rewrite Hc.
  eexists. reflexivity.
Qed.

End Run.

(** C1.  The method [mark_missing_inventory_as_zero] and the end-of-run
    step that calls it.  The method returns as soon as one of its three
    calls of the pool hands out a connection on which neither the UPDATE
    nor the commit fails, and what it returns is the number of rows whose
    report date is strictly before the given date and whose stock is
    strictly greater than zero.  When it returns, row by row: such a row
    keeps its identity and key and has stock zero and the status indicator
    'Desabastecido'; a row whose report date is the given date or later,
    or whose stock is not greater than zero (zero, negative or null), is
    exactly as it was; no row is added or removed and no other table is
    touched.  When it raises (three refused connections raise
    [OperationalError]), the tables are as they were.  With a tracked
    date, [cleanup_missing_inventory] leaves the database manager the
    method leaves and returns the count of the method, or 0 when the
    method raised. *)
Theorem mark_missing_inventory_as_zero_spec :
  forall (P : Platform) (E : env) (report_date : date) (w : Store.world),
    let r := Store.mark_missing_inventory_as_zero E report_date w in
    let db' := Store.db (fst r) in
    (forall row,
        Sql.stale report_date row = true
        <-> (inv_report_date row < report_date)%Z
            /\ exists x, inv_current_stock row = Some x /\ num_pos x = true)
    /\ (forall k,
           k < 3 ->
           getconn_ok E (Store.attempts w + k) = true ->
           (forall j, j < k -> getconn_ok E (Store.attempts w + j) = false) ->
           stmt_fault E (Store.attempts w + k) = None ->
           snd r
           = inr (List.length (filter (Sql.stale report_date)
                                      (inventory (Store.db w)))))
    /\ (forall count,
           snd r = inr count ->
           count = List.length (filter (Sql.stale report_date)
                                       (inventory (Store.db w)))
           /\ List.length (inventory db')
              = List.length (inventory (Store.db w))
           /\ (forall i row,
                  nth_error (inventory (Store.db w)) i = Some row ->
                  exists row',
                    nth_error (inventory db') i = Some row'
                    /\ inv_inventory_id row' = inv_inventory_id row
                    /\ Sql.row_key row' = Sql.row_key row
                    /\ ((inv_report_date row < report_date)%Z ->
                        (exists x, inv_current_stock row = Some x
                                   /\ num_pos x = true) ->
                        inv_current_stock row' = Some num_zero
                        /\ inv_status_indicator row' = "Desabastecido")
                    /\ ((report_date <= inv_report_date row)%Z
                        \/ (forall x, inv_current_stock row = Some x ->
                                      num_pos x = false) ->
                        row' = row))
           /\ regions db' = regions (Store.db w)
           /\ medical_centers db' = medical_centers (Store.db w)
           /\ product_types db' = product_types (Store.db w)
           /\ products db' = products (Store.db w))
    /\ (forall e, snd r = inl e -> db' = Store.db w)
    /\ ((forall j, j < 3 -> getconn_ok E (Store.attempts w + j) = false) ->
        snd r = inl OperationalError)
    /\ (forall s,
           ETL.the_db s = w ->
           ETL.latest_report_date s = Some report_date ->
           exists s',
             ETL.cleanup_missing_inventory E s
             = (s', inr match snd r with
                        | inr count => count
                        | inl _ => 0
                        end)
             /\ ETL.the_db s' = fst r).
Proof.
  intros P E report_date w. cbv zeta.
  unfold Store.mark_missing_inventory_as_zero.
  split; [intros row; apply stale_spec|].
  split.
  { intros k Hk Hok Hfail Hnone.
    rewrite (get_cursor_returns E _ w k Hk Hok Hfail Hnone).
    reflexivity. }
  split.
  { intros count Hret.
    destruct (get_cursor_cases E (Sql.mark_missing_inventory_as_zero
                                    report_date) w)
      as [(n & ex & Hc)|(n & k & Hc)]; rewrite Hc in *; simpl in Hret;
      [discriminate|].
    injection Hret as Hcount. cbn [fst snd Store.db].
    destruct (reconciliation_statement P report_date (txn_time E k)
                                       (Store.db w))
      as (_ & Hn & Hrest).
    split; [rewrite <- Hcount; exact Hn|exact Hrest]. }
  split.
  { intros e Hraise.
    destruct (get_cursor_cases E (Sql.mark_missing_inventory_as_zero
                                    report_date) w)
      as [(n & ex & Hc)|(n & k & Hc)]; rewrite Hc in *; simpl in Hraise;
      [reflexivity|discriminate]. }
  split.
  { intros Hfail. rewrite (get_cursor_refused E _ w Hfail). reflexivity. }
  intros s Hw Hdate.
  unfold ETL.cleanup_missing_inventory, ETL.bind, ETL.get.
  rewrite Hdate.
  unfold ETL.try_except, ETL.call_db, Store.mark_missing_inventory_as_zero,
    ETL.ret.
  rewrite Hw.
  destruct (Store.get_cursor E
              (Sql.mark_missing_inventory_as_zero report_date) w)
    as [w' [e|count]]; eexists; split; reflexivity.
Qed.

Lemma mark_missing_inventory_as_zero_spec_witness :
  snd (Store.mark_missing_inventory_as_zero (P := Demo.platform)
         Demo.calm 200%Z
         {| Store.db := Demo.five_facts; Store.attempts := 0 |})
  = inr 1
  /\ map inv_current_stock
         (inventory
            (Store.db
               (fst (Store.mark_missing_inventory_as_zero
                       (P := Demo.platform) Demo.calm 200%Z
                       {| Store.db := Demo.five_facts;
                          Store.attempts := 0 |}))))
     = [Some 0%Q; Some (7 # 1)%Q; Some 0%Q; None; Some (-3 # 1)%Q].
Proof.
  destruct (mark_missing_inventory_as_zero_spec
              Demo.platform Demo.calm 200%Z
              {| Store.db := Demo.five_facts; Store.attempts := 0 |})
    as (_ & Hret & _).
  split; [|reflexivity].
  apply (Hret 0).
  - lia.
  - reflexivity.
  - intros j Hj. lia.
  - reflexivity.
Defined.

(** C5 (as the code has it).  Nothing that happens while records are
    processed or stock is reconciled unwinds the run: the batch loop turns
    every exception of a record into one counted error, an
    [OperationalError] of the store after three refused connections
    included, and [cleanup_missing_inventory] turns every exception into
    the count 0.  So [main] returns 0 whenever the database manager could
    be set up and the source file could be read, and 1 exactly when one of
    these two raised. *)
Theorem exit_status :
  forall (P : Platform) (E : env),
    (forall connect source,
        Ingestor.main E connect source
        = match connect, source with
          | inr _, inr _ => 0%Z
          | _, _ => 1%Z
          end)
    /\ (forall r s, exists s', ETL.process_one E r s = (s', inr tt))
    /\ (forall r s s1 e,
           ETL._process_record E r s = (s1, inl e) ->
           exists s',
             ETL.process_one E r s = (s', inr tt)
             /\ ETL.errors (ETL.the_stats s')
                = ETL.errors (ETL.the_stats s) + 1)
    /\ (forall s, exists s' count,
           ETL.cleanup_missing_inventory E s = (s', inr count))
    /\ (forall (A : Type) (body : timestamp -> database -> A * database) w,
           getconn_ok E (Store.attempts w) = false ->
           getconn_ok E (S (Store.attempts w)) = false ->
           getconn_ok E (S (S (Store.attempts w))) = false ->
           snd (Store.get_cursor E body w) = inl OperationalError).
Proof.
  intros P E. split; [|split; [|split; [|split]]].
  - intros [e|tables] [e'|lines]; try reflexivity.
    unfold Ingestor.main.
    destruct (run_completes E tables lines) as (o & Ho). rewrite Ho.
    reflexivity.
  - intros r s. destruct (process_one_count E r s) as (s' & Ho & _).
    exists s'. exact Ho.
  - intros r s s1 e Hrec.
    destruct (process_one_cases E r s)
      as [(s1' & Hr & _)|(s1' & e' & Hr & Ho)];
      rewrite Hrec in Hr; [discriminate|].
    inversion Hr; subst s1' e'.
    pose proof (process_record_counters E r _ _ _ Hrec) as Hk.
    unfold ETL.batch_counters in Hk. inversion Hk as [[Hp He]].
    eexists. split; [exact Ho|]. simpl. rewrite He. reflexivity.
  - apply cleanup_returns.
  - intros A body w H0 H1 H2.
    rewrite (get_cursor_offline E body w H0 H1 H2). reflexivity.
Qed.

Lemma exit_status_witness :
  Ingestor.main (P := Demo.platform) Demo.calm
    (inr Demo.empty_db) (inr [Demo.good_line; Demo.bad_type_line]) = 0%Z
  /\ Ingestor.main (P := Demo.platform) Demo.calm
       (inl OperationalError) (inr [Demo.good_line]) = 1%Z
  /\ Ingestor.main (P := Demo.platform) Demo.calm
       (inr Demo.empty_db) (inl RuntimeError) = 1%Z.
Proof.
  destruct (exit_status Demo.platform Demo.calm) as (Hmain & _).
  repeat split; apply Hmain.
Defined.

(** C5 as stated fails: with a pool that never hands out a connection,
    the first store operation of the run raises [OperationalError] after
    its three attempts; the record is counted as an error, the run goes on
    to the end, and the exit status is 0. *)
Lemma connection_failure_exits_zero :
  snd (Store.get_or_create_region (P := Demo.platform) Demo.offline "LIMA"
         {| Store.db := Demo.empty_db; Store.attempts := 0 |})
  = inl OperationalError
  /\ ETL.errors
       (ETL.the_stats
          (fst (ETL.process_records Demo.offline
                  (Demo.records_of [Demo.good_line])
                  (ETL.init {| Store.db := Demo.empty_db;
                               Store.attempts := 0 |})))) = 1
  /\ Ingestor.main (P := Demo.platform) Demo.offline
       (inr Demo.empty_db) (inr [Demo.good_line]) = 0%Z.
Proof. vm_compute. repeat split; reflexivity. Qed.

(** * Further properties *)

(** ** The parser: what becomes of every line *)

Section ParserAccounting.
Context {P : Platform}.

Lemma parse_line_accounts (st : Parser.parse_state) (line : string) :
  List.length (Parser.records (Parser.parse_line st line))
  + Parser.error_count (Parser.parse_line st line)
  + (if Parser.skipped_line line then 1 else 0)
  = List.length (Parser.records st) + Parser.error_count st + 1
  /\ (Parser.line_count st = List.length (Parser.records st) ->
      Parser.line_count (Parser.parse_line st line)
      = List.length (Parser.records (Parser.parse_line st line))).
Proof.
  unfold Parser.parse_line, Parser.skipped_line.
  destruct (is_empty (strip line)
            || startswith (strip line) Parser.bom_marker).
  { split; [lia|auto]. }
  destruct (csv_row (strip line)) as [values|]; [|simpl; split; [lia|auto]].
  destruct (Parser._validate_record values); simpl.
  - rewrite length_app. simpl. split; [lia|]. intros H. lia.
  - split; [lia|auto].
Qed.

Lemma parse_lines_accounts (lines : list string) :
  forall st,
    List.length (Parser.records (Parser.parse_lines st lines))
    + Parser.error_count (Parser.parse_lines st lines)
    + List.length (filter Parser.skipped_line lines)
    = List.length (Parser.records st) + Parser.error_count st
      + List.length lines
    /\ (Parser.line_count st = List.length (Parser.records st) ->
        Parser.line_count (Parser.parse_lines st lines)
        = List.length (Parser.records (Parser.parse_lines st lines))).
Proof.
  unfold Parser.parse_lines.
  induction lines as [|line lines IH]; intros st; simpl.
  - split; [lia|auto].
  - destruct (IH (Parser.parse_line st line)) as [IHn IHc].
    destruct (parse_line_accounts st line) as [Hn Hc].
    split.
    + destruct (Parser.skipped_line line); simpl; lia.
    + intros H. apply IHc, Hc, H.
Qed.

(** The records of a line do not depend on what was parsed before it. *)
Lemma parse_line_delta (st : Parser.parse_state) (line : string) :
  Parser.records (Parser.parse_line st line)
  = (Parser.records st
     ++ Parser.records (Parser.parse_line Parser.parse_init line))%list
  /\ Parser.error_count (Parser.parse_line st line)
     = Parser.error_count st
       + Parser.error_count (Parser.parse_line Parser.parse_init line)
  /\ Parser.line_count (Parser.parse_line st line)
     = Parser.line_count st
       + Parser.line_count (Parser.parse_line Parser.parse_init line).
Proof.
  unfold Parser.parse_line.
  destruct (is_empty (strip line)
            || startswith (strip line) Parser.bom_marker).
  { simpl. rewrite app_nil_r. repeat split; lia. }
  destruct (csv_row (strip line)) as [values|];
    [|simpl; rewrite app_nil_r; repeat split; lia].
  destruct (Parser._validate_record values); simpl.
  - repeat split; lia.
  - rewrite app_nil_r. repeat split; lia.
Qed.

Lemma parse_lines_delta (lines : list string) :
  forall st,
    Parser.records (Parser.parse_lines st lines)
    = (Parser.records st
       ++ Parser.records (Parser.parse_lines Parser.parse_init lines))%list
    /\ Parser.error_count (Parser.parse_lines st lines)
       = Parser.error_count st
         + Parser.error_count (Parser.parse_lines Parser.parse_init lines)
    /\ Parser.line_count (Parser.parse_lines st lines)
       = Parser.line_count st
         + Parser.line_count (Parser.parse_lines Parser.parse_init lines).
Proof.
  unfold Parser.parse_lines.
  induction lines as [|line lines IH]; intros st; simpl.
  - rewrite app_nil_r. repeat split; lia.
  - destruct (IH (Parser.parse_line st line)) as (Hr & He & Hl).
    destruct (IH (Parser.parse_line Parser.parse_init line))
      as (Hr0 & He0 & Hl0).
    destruct (parse_line_delta st line) as (Dr & De & Dl).
    rewrite Hr, He, Hl, Hr0, He0, Hl0, Dr, De, Dl.
    rewrite app_assoc. repeat split; lia.
Qed.

(** Where a parsed record comes from: a line that was split into values
    that pass the structural check. *)
Lemma parsed_record_origin (lines : list string) :
  forall st r,
    In r (Parser.records (Parser.parse_lines st lines)) ->
    In r (Parser.records st)
    \/ exists values,
        Parser._validate_record values = true
        /\ r = Parser._create_record values.
Proof.
  unfold Parser.parse_lines.
  induction lines as [|line lines IH]; intros st r Hin; simpl in Hin.
  - left. exact Hin.
  - destruct (IH _ _ Hin) as [Hold|Hnew]; [|right; exact Hnew].
    unfold Parser.parse_line in Hold.
    destruct (is_empty (strip line)
              || startswith (strip line) Parser.bom_marker);
      [left; exact Hold|].
    destruct (csv_row (strip line)) as [values|]; [|left; exact Hold].
    destruct (Parser._validate_record values) eqn:Hv; [|left; exact Hold].
    simpl in Hold. apply in_app_or in Hold.
    destruct Hold as [Hold|[Hr|[]]]; [left; exact Hold|].
    right. exists values. split; [exact Hv|symmetry; exact Hr].
Qed.

End ParserAccounting.

(** X1.  Every line of the file is accounted for exactly once: it is the
    header, or it is passed over (blank, or starting with the marker), or
    it is counted as an error, or it yields one record.  The number of
    records is the [line_count] the parser logs. *)
Theorem parse_accounts_for_every_line :
  forall (P : Platform) (lines : list string),
    Parser.line_count (Parser.parse lines)
    = List.length (Parser.records (Parser.parse lines))
    /\ List.length (Parser.records (Parser.parse lines))
       + Parser.error_count (Parser.parse lines)
       + List.length (filter Parser.skipped_line (Parser.after_header lines))
       + match lines with
         | [] => 0
         | first_line :: _ =>
             if startswith (strip first_line) "nombre_ejecutora" then 1
             else 0
         end
       = List.length lines.
Proof.
  intros P lines. unfold Parser.parse.
  destruct (parse_lines_accounts (Parser.after_header lines)
              Parser.parse_init) as [Hn Hc].
  split; [apply Hc; reflexivity|].
  simpl in Hn. rewrite Nat.add_0_l in Hn || idtac.
  destruct lines as [|first_line rest]; [simpl in *; lia|].
  unfold Parser.after_header in *.
  destruct (startswith (strip first_line) "nombre_ejecutora");
    simpl List.length in *; lia.
Qed.

(** X2.  Parsing is line by line: the records of two runs of lines, one
    after the other, are the records of the first followed by the records
    of the second, and the error counts add up. *)
Theorem parse_lines_concatenation :
  forall (P : Platform) (st : Parser.parse_state) (a b : list string),
    Parser.records (Parser.parse_lines st (a ++ b))
    = (Parser.records (Parser.parse_lines st a)
       ++ Parser.records (Parser.parse_lines Parser.parse_init b))%list
    /\ Parser.error_count (Parser.parse_lines st (a ++ b))
       = Parser.error_count (Parser.parse_lines st a)
         + Parser.error_count (Parser.parse_lines Parser.parse_init b).
Proof.
  intros P st a b.
  assert (Happ : Parser.parse_lines st (a ++ b)
                 = Parser.parse_lines (Parser.parse_lines st a) b)
    by (unfold Parser.parse_lines; apply fold_left_app).
  rewrite Happ.
  destruct (parse_lines_delta b (Parser.parse_lines st a)) as (Hr & He & _).
  split; assumption.
Qed.

(** ** The parser: the shape of a record *)

Section StripFacts.

Lemma rstrip_idem (s : string) : rstrip (rstrip s) = rstrip s.
Proof.
  induction s as [|c s IH]; [reflexivity|].
  cbn [rstrip]. destruct (rstrip s) as [|c' s'] eqn:Hr.
  - destruct (is_space c) eqn:Hc; [reflexivity|].
    cbn [rstrip]. rewrite Hc. reflexivity.
  - change (rstrip (String c (String c' s')))
      with (match rstrip (String c' s') with
            | EmptyString =>
                if is_space c then EmptyString else String c EmptyString
            | String a r => String c (String a r)
            end).
    rewrite IH. reflexivity.
Qed.

Lemma lstrip_head (s : string) :
  lstrip s = EmptyString
  \/ exists c t, lstrip s = String c t /\ is_space c = false.
Proof.
  induction s as [|c s IH]; [left; reflexivity|].
  simpl. destruct (is_space c) eqn:Hc; [exact IH|].
  right. exists c, s. split; [reflexivity|exact Hc].
Qed.

Lemma rstrip_keeps_head (c : ascii) (t : string) :
  is_space c = false -> exists t', rstrip (String c t) = String c t'.
Proof.
  intros Hc. cbn [rstrip]. rewrite Hc.
  destruct (rstrip t) as [|a r]; eexists; reflexivity.
Qed.

(** Stripping a stripped string changes nothing. *)
Lemma strip_idem (s : string) : strip (strip s) = strip s.
Proof.
  unfold strip.
  destruct (lstrip_head s) as [Hnil|(c & t & Hs & Hc)].
  - rewrite Hnil. reflexivity.
  - rewrite Hs. destruct (rstrip_keeps_head c t Hc) as (t' & Ht').
    rewrite Ht'. cbn [lstrip]. rewrite Hc. rewrite <- Ht'.
    apply rstrip_idem.
Qed.

End StripFacts.

Section RecordShape.
Context {P : Platform}.

Lemma validate_required (values : list string) (i : nat) :
  Parser._validate_record values = true ->
  In i Parser.required_indices ->
  is_empty (strip (nth i values "")) = false.
Proof.
  intros Hv Hi. unfold Parser._validate_record in Hv.
  destruct (List.length values <? List.length Parser.COLUMNS);
    [discriminate|].
  rewrite forallb_forall in Hv. specialize (Hv i Hi).
  apply negb_true_iff, orb_false_iff in Hv. tauto.
Qed.

Lemma pad_long (values extra : list string) :
  List.length values = 25 ->
  Parser.pad (values ++ extra) = values /\ Parser.pad values = values.
Proof.
  intros Hlen. unfold Parser.pad.
  change (List.length Parser.COLUMNS) with 25.
  rewrite length_app, <- Hlen.
  replace (List.length values - (List.length values + List.length extra))
    with 0 by lia.
  rewrite Nat.sub_diag. simpl repeat. rewrite !app_nil_r. split.
  - rewrite firstn_app, Nat.sub_diag, firstn_all. simpl. apply app_nil_r.
  - apply firstn_all.
Qed.

End RecordShape.

(** X3.  In every record the parser returns, the seven required fields
    (facility name, region, category, facility code, product code, product
    name, product type) are non-empty. *)
Theorem parsed_records_have_required_fields :
  forall (P : Platform) (lines : list string) (r : Parser.record),
    In r (Parser.records (Parser.parse lines)) ->
    is_empty (Parser.nombre_ejecutora r) = false
    /\ is_empty (Parser.diresa r) = false
    /\ is_empty (Parser.categoria r) = false
    /\ is_empty (Parser.codpre r) = false
    /\ is_empty (Parser.codmed r) = false
    /\ is_empty (Parser.nombre_prod r) = false
    /\ is_empty (Parser.tipo_prod r) = false.
Proof.
  intros P lines r Hin. unfold Parser.parse in Hin.
  destruct (parsed_record_origin _ _ _ Hin) as [[]|(values & Hv & Hr)].
  subst r. pose proof (validate_length values Hv) as Hlen.
  unfold Parser._create_record. simpl.
  rewrite !pad_nth by lia.
  repeat split; apply (validate_required values _ Hv); simpl; tauto.
Qed.

Lemma parsed_records_have_required_fields_witness :
  is_empty
    (Parser.tipo_prod
       (Parser._create_record (P := Demo.platform)
          (Demo.split_fields "" Demo.good_line))) = false.
Proof.
  apply (parsed_records_have_required_fields Demo.platform
           [Demo.good_line]).
  left. reflexivity.
Defined.

(** X4.  Every text field of a record the parser builds is trimmed:
    stripping it again changes nothing. *)
Theorem record_text_fields_are_trimmed :
  forall (P : Platform) (values : list string),
    Forall (fun field =>
              strip (field (Parser._create_record values))
              = field (Parser._create_record values))
           [ Parser.nombre_ejecutora; Parser.diresa; Parser.categoria;
             Parser.codpre; Parser.reportante; Parser.tipsum;
             Parser.codmed; Parser.nombre_prod; Parser.tipo_prod;
             Parser.estado; Parser.institucion; Parser.tipo_reportante;
             Parser.indicador; Parser.fin ].
Proof.
  intros P values.
  repeat (apply Forall_cons; [apply strip_idem|]). apply Forall_nil.
Qed.

(** X5.  Fields beyond the 25th are ignored: a line with more fields
    passes the structural check exactly when its first 25 fields do, and
    gives the record of its first 25 fields. *)
Theorem extra_fields_are_ignored :
  forall (P : Platform) (values extra : list string),
    List.length values = 25 ->
    Parser._validate_record (values ++ extra)
    = Parser._validate_record values
    /\ Parser._create_record (values ++ extra)
       = Parser._create_record values.
Proof.
  intros P values extra Hlen. split.
  - unfold Parser._validate_record.
    change (List.length Parser.COLUMNS) with 25.
    rewrite length_app, Hlen.
    replace (25 + List.length extra <? 25) with false
      by (symmetry; apply Nat.ltb_ge; lia).
    change (25 <? 25) with false. cbv iota.
    unfold Parser.required_indices. simpl forallb.
    rewrite !app_nth1 by lia.
    repeat match goal with
           | |- context [25 + List.length extra <=? ?i] =>
               replace (25 + List.length extra <=? i) with false
                 by (symmetry; apply Nat.leb_gt; lia)
           end.
    reflexivity.
  - unfold Parser._create_record.
    destruct (pad_long values extra Hlen) as [H1 H2].
    rewrite H1, H2. reflexivity.
Qed.

Lemma extra_fields_are_ignored_witness :
  Parser._create_record (P := Demo.platform)
    (Demo.split_fields "" Demo.good_line ++ ["more"; "and more"])
  = Parser._create_record (P := Demo.platform)
      (Demo.split_fields "" Demo.good_line).
Proof.
  apply (extra_fields_are_ignored Demo.platform).
  reflexivity.
Defined.

(** X6.  A line whose report date is empty or not a date, or whose stock
    is empty, [null] or not a number, is no parser error, and the
    orchestrator then skips its record: [skipped] and [processed] go up
    by one and the database manager is not called. *)
Theorem unparsable_date_or_stock_is_skipped :
  forall (P : Platform) (E : env) (values : list string)
         (s : ETL.processor),
    Parser._validate_record values = true ->
    Parser.to_date (strip (nth 13 values "")) = None
    \/ Parser.to_number (strip (nth 9 values "")) = None ->
    ETL.process_one E (Parser._create_record values) s
    = ({| ETL.the_stats :=
            ETL.incr_processed (ETL.incr_skipped (ETL.the_stats s));
          ETL.processed_items := ETL.processed_items s;
          ETL.latest_report_date := ETL.latest_report_date s;
          ETL.the_db := ETL.the_db s |}, inr tt).
Proof.
  intros P E values s Hv Hmiss.
  pose proof (validate_length values Hv) as Hlen.
  apply validation_failure_skips, missing_date_or_stock.
  unfold Parser._create_record. simpl.
  rewrite !pad_nth by lia. exact Hmiss.
Qed.

Lemma unparsable_date_or_stock_is_skipped_witness :
  ETL.skipped
    (ETL.the_stats
       (fst (ETL.process_one Demo.calm
               (Parser._create_record (P := Demo.platform)
                  (Demo.split_fields "" Demo.no_date_line))
               (ETL.init {| Store.db := Demo.empty_db;
                            Store.attempts := 0 |})))) = 1.
Proof.
  rewrite (unparsable_date_or_stock_is_skipped Demo.platform Demo.calm
             (Demo.split_fields "" Demo.no_date_line)).
  - reflexivity.
  - reflexivity.
  - left. reflexivity.
Defined.

(** ** The store: get-or-create *)

Section GetOrCreate.
Context {P : Platform}.

Lemma find_map_same {A : Type} (p : A -> bool) (f : A -> A) (l : list A) :
  (forall x, p (f x) = p x) ->
  find p (map f l) = option_map f (find p l).
Proof.
  intros Hp. induction l as [|a l IH]; simpl; [reflexivity|].
  rewrite Hp. destruct (p a); [reflexivity|exact IH].
Qed.

Lemma find_of_existsb {A : Type} (p : A -> bool) (l : list A) :
  existsb p l = true -> exists x, find p l = Some x.
Proof.
  induction l as [|a l IH]; simpl; [discriminate|].
  destruct (p a); [intros _; eexists; reflexivity|exact IH].
Qed.

Lemma find_none_of_existsb {A : Type} (p : A -> bool) (l : list A) :
  existsb p l = false -> find p l = None.
Proof.
  induction l as [|a l IH]; simpl; [reflexivity|].
  destruct (p a); [discriminate|exact IH].
Qed.

Lemma update_center_code (d : center_data) (now : timestamp)
      (r : center_row) :
  mc_code (Sql.update_center d now r) = mc_code r.
Proof.
  unfold Sql.update_center.
  destruct (String.eqb (mc_code r) (cd_code d)); reflexivity.
Qed.

Lemma update_center_id (d : center_data) (now : timestamp)
      (r : center_row) :
  mc_center_id (Sql.update_center d now r) = mc_center_id r.
Proof.
  unfold Sql.update_center.
  destruct (String.eqb (mc_code r) (cd_code d)); reflexivity.
Qed.

(** After [get_or_create_medical_center] the row found under the code
    has the returned id and the attributes that came in. *)
Lemma center_found_after (d : center_data) (now : timestamp)
      (db : database) :
  exists row,
    find (fun r => String.eqb (mc_code r) (cd_code d))
         (medical_centers (snd (Sql.get_or_create_medical_center d now db)))
    = Some row
    /\ mc_center_id row = fst (Sql.get_or_create_medical_center d now db)
    /\ mc_code row = cd_code d
    /\ mc_name row = cd_name d
    /\ mc_region_id row = cd_region_id d
    /\ mc_category row = cd_category d
    /\ mc_reporter_name row = cd_reporter_name d
    /\ mc_institution_type row = cd_institution_type d
    /\ mc_reporter_type row = cd_reporter_type d.
Proof.
  unfold Sql.get_or_create_medical_center.
  destruct (find (fun r => String.eqb (mc_code r) (cd_code d))
                 (medical_centers db)) as [row0|] eqn:Hf; simpl.
  - exists (Sql.update_center d now row0).
    rewrite find_map_same
      by (intros x; rewrite update_center_code; reflexivity).
    rewrite Hf. split; [reflexivity|].
    split; [apply update_center_id|].
    apply find_some in Hf. destruct Hf as [_ Hcode].
    unfold Sql.update_center. rewrite Hcode. simpl.
    apply String.eqb_eq in Hcode. repeat split; try reflexivity.
    exact Hcode.
  - eexists. rewrite find_snoc, Hf. simpl. rewrite String.eqb_refl.
    split; [reflexivity|]. repeat split; reflexivity.
Qed.

Lemma update_product_code (d : product_data) (now : timestamp)
      (r : product_row) :
  pr_code (Sql.update_product d now r) = pr_code r.
Proof.
  unfold Sql.update_product.
  destruct (String.eqb (pr_code r) (pd_code d)); reflexivity.
Qed.

Lemma update_product_id (d : product_data) (now : timestamp)
      (r : product_row) :
  pr_product_id (Sql.update_product d now r) = pr_product_id r.
Proof.
  unfold Sql.update_product.
  destruct (String.eqb (pr_code r) (pd_code d)); reflexivity.
Qed.

Lemma product_found_after (d : product_data) (now : timestamp)
      (db : database) :
  exists row,
    find (fun r => String.eqb (pr_code r) (pd_code d))
         (products (snd (Sql.get_or_create_product d now db)))
    = Some row
    /\ pr_product_id row = fst (Sql.get_or_create_product d now db)
    /\ pr_code row = pd_code d
    /\ pr_name row = pd_name d
    /\ pr_type_id row = pd_type_id d.
Proof.
  unfold Sql.get_or_create_product.
  destruct (find (fun r => String.eqb (pr_code r) (pd_code d))
                 (products db)) as [row0|] eqn:Hf; simpl.
  - exists (Sql.update_product d now row0).
    rewrite find_map_same
      by (intros x; rewrite update_product_code; reflexivity).
    rewrite Hf. split; [reflexivity|].
    split; [apply update_product_id|].
    apply find_some in Hf. destruct Hf as [_ Hcode].
    unfold Sql.update_product. rewrite Hcode. simpl.
    apply String.eqb_eq in Hcode. repeat split; try reflexivity.
    exact Hcode.
  - eexists. rewrite find_snoc, Hf. simpl. rewrite String.eqb_refl.
    split; [reflexivity|]. repeat split; reflexivity.
Qed.

Lemma region_found_after (name : string) (now : timestamp) (db : database) :
  exists row,
    find (fun r => String.eqb (rg_name r) name)
         (regions (snd (Sql.get_or_create_region name now db)))
    = Some row
    /\ rg_region_id row = fst (Sql.get_or_create_region name now db)
    /\ rg_name row = name.
Proof.
  unfold Sql.get_or_create_region.
  destruct (find (fun r => String.eqb (rg_name r) name) (regions db))
    as [row0|] eqn:Hf; simpl.
  - exists row0. rewrite Hf. split; [reflexivity|]. split; [reflexivity|].
    apply find_some in Hf. destruct Hf as [_ Hn].
    apply String.eqb_eq. exact Hn.
  - eexists. rewrite find_snoc, Hf. simpl. rewrite String.eqb_refl.
    split; [reflexivity|]. split; reflexivity.
Qed.

End GetOrCreate.

(** X7.  [get_or_create_region] returns the id of a row that carries the
    name; asking again for the same name returns the same id and changes
    nothing.  Rows are only ever appended, at most one and none when the
    name was there, and names that were distinct stay distinct. *)
Theorem region_get_or_create_round_trip :
  forall (P : Platform) (name : string) (now now' : timestamp)
         (db : database),
    let r1 := Sql.get_or_create_region name now db in
    (exists row,
        In row (regions (snd r1))
        /\ rg_name row = name /\ rg_region_id row = fst r1)
    /\ Sql.get_or_create_region name now' (snd r1) = r1
    /\ (exists extra,
           regions (snd r1) = (regions db ++ extra)%list
           /\ List.length extra <= 1
           /\ (In name (map rg_name (regions db)) -> extra = []))
    /\ (NoDup (map rg_name (regions db)) ->
        NoDup (map rg_name (regions (snd r1)))).
Proof.
  intros P name now now' db r1.
  destruct (region_found_after name now db) as (row & Hfind & Hid & Hname).
  fold r1 in Hfind, Hid.
  split; [|split; [|split]].
  - exists row. apply find_some in Hfind. tauto.
  - unfold Sql.get_or_create_region at 1. rewrite Hfind, Hid.
    destruct r1; reflexivity.
  - subst r1. unfold Sql.get_or_create_region.
    destruct (find (fun r => String.eqb (rg_name r) name) (regions db))
      as [row0|] eqn:Hf; simpl.
    + exists []. rewrite app_nil_r. repeat split; [simpl; lia].
    + eexists. split; [reflexivity|]. split; [simpl; lia|].
      intros Hin. destruct (region_found name (regions db) Hin) as (x & Hx).
      congruence.
  - intros Hnodup. subst r1. unfold Sql.get_or_create_region.
    destruct (find (fun r => String.eqb (rg_name r) name) (regions db))
      as [row0|] eqn:Hf; simpl; [exact Hnodup|].
    rewrite map_app. simpl. apply NoDup_snoc; [exact Hnodup|].
    intros Hin. destruct (region_found name (regions db) Hin) as (x & Hx).
    congruence.
Qed.

Lemma region_get_or_create_round_trip_witness :
  Sql.get_or_create_region (P := Demo.platform) "LIMA" 8%Z
    (snd (Sql.get_or_create_region "LIMA" 7%Z Demo.empty_db))
  = Sql.get_or_create_region "LIMA" 7%Z Demo.empty_db.
Proof.
  apply (region_get_or_create_round_trip Demo.platform "LIMA" 7%Z 8%Z
           Demo.empty_db).
Defined.

(** X8.  [get_or_create_medical_center] is last write wins on the code:
    afterwards the row found under the code has the returned id and every
    attribute of the incoming data.  A later call for the same code, with
    whatever attributes, returns the same id and adds no row. *)
Theorem medical_center_last_write_wins :
  forall (P : Platform) (d d2 : center_data) (now now2 : timestamp)
         (db : database),
    cd_code d2 = cd_code d ->
    let r1 := Sql.get_or_create_medical_center d now db in
    let r2 := Sql.get_or_create_medical_center d2 now2 (snd r1) in
    (exists row,
        find (fun r => String.eqb (mc_code r) (cd_code d))
             (medical_centers (snd r1)) = Some row
        /\ mc_center_id row = fst r1
        /\ mc_name row = cd_name d
        /\ mc_region_id row = cd_region_id d
        /\ mc_category row = cd_category d
        /\ mc_reporter_name row = cd_reporter_name d
        /\ mc_institution_type row = cd_institution_type d
        /\ mc_reporter_type row = cd_reporter_type d)
    /\ fst r2 = fst r1
    /\ List.length (medical_centers (snd r2))
       = List.length (medical_centers (snd r1))
    /\ (exists row,
           find (fun r => String.eqb (mc_code r) (cd_code d))
                (medical_centers (snd r2)) = Some row
           /\ mc_center_id row = fst r1
           /\ mc_name row = cd_name d2
           /\ mc_region_id row = cd_region_id d2).
Proof.
  intros P d d2 now now2 db Hcode r1 r2.
  destruct (center_found_after d now db)
    as (row & Hfind & Hid & Hc & Hattrs).
  fold r1 in Hfind, Hid.
  split; [exists row; tauto|].
  assert (Hr2 : fst r2 = fst r1
                /\ List.length (medical_centers (snd r2))
                   = List.length (medical_centers (snd r1))).
  { assert (Hcall : r2
                    = (mc_center_id row,
                       Sql.set_medical_centers (snd r1)
                         (map (Sql.update_center d2 now2)
                              (medical_centers (snd r1)))
                         (medical_centers_seq (snd r1))))
      by (subst r2; unfold Sql.get_or_create_medical_center;
          rewrite Hcode, Hfind; reflexivity).
    rewrite Hcall. simpl. rewrite length_map. tauto. }
  split; [tauto|]. split; [tauto|].
  destruct (center_found_after d2 now2 (snd r1))
    as (row2 & Hfind2 & Hid2 & _ & Hn2 & Hr2' & _).
  fold r2 in Hfind2, Hid2. rewrite Hcode in Hfind2.
  exists row2. split; [exact Hfind2|].
  split; [rewrite Hid2; tauto|]. tauto.
Qed.

Lemma medical_center_last_write_wins_witness :
  fst (Sql.get_or_create_medical_center (P := Demo.platform)
         {| cd_code := "00001"; cd_name := "POSTA B"; cd_region_id := 2;
            cd_category := "I-2"; cd_reporter_name := "";
            cd_institution_type := ""; cd_reporter_type := "" |} 8%Z
         (snd (Sql.get_or_create_medical_center
                 {| cd_code := "00001"; cd_name := "HOSPITAL A";
                    cd_region_id := 1; cd_category := "II-1";
                    cd_reporter_name := ""; cd_institution_type := "";
                    cd_reporter_type := "" |} 7%Z Demo.empty_db)))
  = fst (Sql.get_or_create_medical_center (P := Demo.platform)
           {| cd_code := "00001"; cd_name := "HOSPITAL A";
              cd_region_id := 1; cd_category := "II-1";
              cd_reporter_name := ""; cd_institution_type := "";
              cd_reporter_type := "" |} 7%Z Demo.empty_db).
Proof.
  destruct (medical_center_last_write_wins Demo.platform
              {| cd_code := "00001"; cd_name := "HOSPITAL A";
                 cd_region_id := 1; cd_category := "II-1";
                 cd_reporter_name := ""; cd_institution_type := "";
                 cd_reporter_type := "" |}
              {| cd_code := "00001"; cd_name := "POSTA B";
                 cd_region_id := 2; cd_category := "I-2";
                 cd_reporter_name := ""; cd_institution_type := "";
                 cd_reporter_type := "" |}
              7%Z 8%Z Demo.empty_db eq_refl) as (_ & Hid & _).
  exact Hid.
Defined.

(** X9.  [get_or_create_product] is last write wins on the code, in the
    same way. *)
Theorem product_last_write_wins :
  forall (P : Platform) (d d2 : product_data) (now now2 : timestamp)
         (db : database),
    pd_code d2 = pd_code d ->
    let r1 := Sql.get_or_create_product d now db in
    let r2 := Sql.get_or_create_product d2 now2 (snd r1) in
    (exists row,
        find (fun r => String.eqb (pr_code r) (pd_code d))
             (products (snd r1)) = Some row
        /\ pr_product_id row = fst r1
        /\ pr_name row = pd_name d
        /\ pr_type_id row = pd_type_id d)
    /\ fst r2 = fst r1
    /\ List.length (products (snd r2)) = List.length (products (snd r1))
    /\ (exists row,
           find (fun r => String.eqb (pr_code r) (pd_code d))
                (products (snd r2)) = Some row
           /\ pr_product_id row = fst r1
           /\ pr_name row = pd_name d2
           /\ pr_type_id row = pd_type_id d2).
Proof.
  intros P d d2 now now2 db Hcode r1 r2.
  destruct (product_found_after d now db)
    as (row & Hfind & Hid & Hc & Hattrs).
  fold r1 in Hfind, Hid.
  split; [exists row; tauto|].
  assert (Hr2 : fst r2 = fst r1
                /\ List.length (products (snd r2))
                   = List.length (products (snd r1))).
  { assert (Hcall : r2
                    = (pr_product_id row,
                       Sql.set_products (snd r1)
                         (map (Sql.update_product d2 now2)
                              (products (snd r1)))
                         (products_seq (snd r1))))
      by (subst r2; unfold Sql.get_or_create_product;
          rewrite Hcode, Hfind; reflexivity).
    rewrite Hcall. simpl. rewrite length_map. tauto. }
  split; [tauto|]. split; [tauto|].
  destruct (product_found_after d2 now2 (snd r1))
    as (row2 & Hfind2 & Hid2 & _ & Hn2 & Ht2).
  fold r2 in Hfind2, Hid2. rewrite Hcode in Hfind2.
  exists row2. split; [exact Hfind2|].
  split; [rewrite Hid2; tauto|]. tauto.
Qed.

Lemma product_last_write_wins_witness :
  fst (Sql.get_or_create_product (P := Demo.platform)
         {| pd_code := "M001"; pd_name := "PARACETAMOL 500"; pd_type_id := 2 |}
         8%Z
         (snd (Sql.get_or_create_product
                 {| pd_code := "M001"; pd_name := "PARACETAMOL";
                    pd_type_id := 1 |} 7%Z Demo.empty_db)))
  = fst (Sql.get_or_create_product (P := Demo.platform)
           {| pd_code := "M001"; pd_name := "PARACETAMOL"; pd_type_id := 1 |}
           7%Z Demo.empty_db).
Proof.
  destruct (product_last_write_wins Demo.platform
              {| pd_code := "M001"; pd_name := "PARACETAMOL";
                 pd_type_id := 1 |}
              {| pd_code := "M001"; pd_name := "PARACETAMOL 500";
                 pd_type_id := 2 |}
              7%Z 8%Z Demo.empty_db eq_refl) as (_ & Hid & _).
  exact Hid.
Defined.

(** ** The store: product types *)

Section ProductTypes.
Context {P : Platform}.

Lemma select_some_row (c : string) (db : database) (tid : ident) :
  Sql.select_type_id c db = Some tid ->
  exists row,
    In row (product_types db) /\ pt_code row = c /\ pt_type_id row = tid.
Proof.
  unfold Sql.select_type_id. intros H.
  destruct (find (fun r => String.eqb (pt_code r) c) (product_types db))
    as [row|] eqn:Hf; [|discriminate].
  apply find_some in Hf. destruct Hf as [Hin Hc].
  apply String.eqb_eq in Hc. inversion H. exists row. auto.
Qed.

(** Once a code is seeded it is found. *)
Lemma select_seeded (c name : string) (db : database) :
  exists tid,
    Sql.select_type_id c (Sql.insert_type_if_absent c name db) = Some tid.
Proof.
  unfold Sql.insert_type_if_absent, Sql.select_type_id.
  destruct (existsb (fun r => String.eqb (pt_code r) c) (product_types db))
    eqn:Hex; simpl.
  - destruct (find_of_existsb _ _ Hex) as (row & Hrow). rewrite Hrow.
    eexists. reflexivity.
  - rewrite find_snoc, (find_none_of_existsb _ _ Hex). simpl.
    rewrite String.eqb_refl. eexists. reflexivity.
Qed.

Lemma insert_type_grows (code name : string) (db : database) :
  exists extra,
    product_types (Sql.insert_type_if_absent code name db)
    = (product_types db ++ extra)%list
    /\ (NoDup (map pt_code (product_types db)) ->
        NoDup (map pt_code
                   (product_types (Sql.insert_type_if_absent code name db)))).
Proof.
  unfold Sql.insert_type_if_absent.
  destruct (existsb (fun r => String.eqb (pt_code r) code) (product_types db))
    eqn:Hex; simpl.
  - exists []. rewrite app_nil_r. auto.
  - eexists. split; [reflexivity|]. intros Hnodup.
    rewrite map_app. simpl. apply NoDup_snoc; [exact Hnodup|].
    intros Hin. apply in_map_iff in Hin. destruct Hin as (row & Hc & Hrow).
    assert (existsb (fun r => String.eqb (pt_code r) code) (product_types db)
            = true).
    { apply existsb_exists. exists row. split; [exact Hrow|].
      apply String.eqb_eq. exact Hc. }
    congruence.
Qed.

End ProductTypes.

(** X10.  The two known type codes always resolve: for M and for I,
    [get_product_type_id] returns the id of a row of the table that
    carries the code, seeding the table when the code is not found. *)
Theorem known_product_types_resolve :
  forall (P : Platform) (c : string) (now : timestamp) (db : database),
    c = "M" \/ c = "I" ->
    exists tid row,
      fst (Sql.get_product_type_id c now db) = Some tid
      /\ In row (product_types (snd (Sql.get_product_type_id c now db)))
      /\ pt_code row = c
      /\ pt_type_id row = tid.
Proof.
  intros P c now db Hc.
  assert (Hsome : exists tid,
             fst (Sql.get_product_type_id c now db) = Some tid
             /\ Sql.select_type_id c (snd (Sql.get_product_type_id c now db))
                = Some tid).
  { unfold Sql.get_product_type_id.
    destruct (Sql.select_type_id c db) as [tid|] eqn:Hsel; simpl.
    - exists tid. auto.
    - destruct Hc as [-> | ->].
      + rewrite select_after_insert by discriminate.
        destruct (select_seeded "M" "Medicine" db) as (tid & Htid).
        exists tid. auto.
      + destruct (select_seeded "I" "Instrument/Supply"
                    (Sql.insert_type_if_absent "M" "Medicine" db))
          as (tid & Htid).
        exists tid. auto. }
  destruct Hsome as (tid & Hfst & Hsel).
  destruct (select_some_row c _ tid Hsel) as (row & Hrow).
  exists tid, row. tauto.
Qed.

Lemma known_product_types_resolve_witness :
  exists tid row,
    fst (Sql.get_product_type_id (P := Demo.platform) "I" 7%Z Demo.empty_db)
    = Some tid
    /\ In row
          (product_types
             (snd (Sql.get_product_type_id "I" 7%Z Demo.empty_db)))
    /\ pt_code row = "I"
    /\ pt_type_id row = tid.
Proof.
  apply (known_product_types_resolve Demo.platform "I" 7%Z Demo.empty_db).
  right. reflexivity.
Defined.

(** X11.  [get_product_type_id] never changes or removes a row of the
    product types: it only appends, and codes that were distinct stay
    distinct (the seeding statement does nothing on a code that is
    there). *)
Theorem product_type_lookup_only_appends :
  forall (P : Platform) (c : string) (now : timestamp) (db : database),
    exists extra,
      product_types (snd (Sql.get_product_type_id c now db))
      = (product_types db ++ extra)%list
      /\ List.length extra <= 2
      /\ (Sql.select_type_id c db <> None -> extra = [])
      /\ (NoDup (map pt_code (product_types db)) ->
          NoDup (map pt_code
                     (product_types
                        (snd (Sql.get_product_type_id c now db))))).
Proof.
  intros P c now db. unfold Sql.get_product_type_id.
  destruct (Sql.select_type_id c db) as [tid|] eqn:Hsel; simpl.
  - exists []. rewrite app_nil_r. repeat split; auto.
  - unfold Sql.insert_type_if_absent at 1 3.
    set (db1 := Sql.insert_type_if_absent "M" "Medicine" db).
    destruct (insert_type_grows "M" "Medicine" db) as (e1 & He1 & Hn1).
    fold db1 in He1, Hn1.
    assert (Hlen1 : List.length e1 <= 1).
    { subst db1. unfold Sql.insert_type_if_absent in He1.
      destruct (existsb _ (product_types db)); simpl in He1.
      - assert (e1 = []) as ->; [|simpl; lia].
        apply (app_inv_head (product_types db)).
        rewrite app_nil_r. symmetry. exact He1.
      - apply app_inv_head in He1. subst e1. simpl. lia. }
    destruct (existsb (fun r => String.eqb (pt_code r) "I")
                      (product_types db1)) eqn:Hex; simpl.
    + exists e1. split; [exact He1|]. split; [lia|].
      split; [congruence|]. exact Hn1.
    + exists (e1 ++ [{| pt_type_id := product_types_seq db1;
                        pt_code := "I";
                        pt_name := "Instrument/Supply" |}])%list.
      rewrite He1, <- app_assoc. split; [reflexivity|].
      split; [rewrite length_app; simpl; lia|].
      split; [congruence|].
      intros Hnodup. rewrite app_assoc, <- He1, map_app. simpl.
      apply NoDup_snoc; [apply Hn1, Hnodup|].
      intros Hin. apply in_map_iff in Hin. destruct Hin as (row & Hc & Hrow).
      assert (existsb (fun r => String.eqb (pt_code r) "I")
                      (product_types db1) = true).
      { apply existsb_exists. exists row. split; [exact Hrow|].
        apply String.eqb_eq. exact Hc. }
      congruence.
Qed.

(** ** The store: inventory *)

Section InventoryStatements.
Context {P : Platform}.

Lemma filter_others_do_update (d : inventory_data) (now : timestamp)
      (rows : list inventory_row) :
  filter (fun r => negb (Sql.same_key d r)) (map (Sql.do_update d now) rows)
  = filter (fun r => negb (Sql.same_key d r)) rows.
Proof.
  induction rows as [|r rows IH]; simpl; [reflexivity|].
  rewrite same_key_do_update, IH.
  destruct (Sql.same_key d r) eqn:Hk; simpl; [reflexivity|].
  unfold Sql.do_update. rewrite Hk. reflexivity.
Qed.

Lemma do_update_id (d : inventory_data) (now : timestamp)
      (r : inventory_row) :
  inv_inventory_id (Sql.do_update d now r) = inv_inventory_id r.
Proof. unfold Sql.do_update. destruct (Sql.same_key d r); reflexivity. Qed.

(** A row that reconciliation has been over is not stale any more. *)
Lemma zero_stock_not_stale (report_date : date) (now : timestamp)
      (r : inventory_row) :
  num_pos num_zero = false ->
  Sql.stale report_date (Sql.zero_stock report_date now r) = false.
Proof.
  intros Hzero. unfold Sql.zero_stock.
  destruct (Sql.stale report_date r) eqn:Hs; [|exact Hs].
  unfold Sql.stale. simpl. rewrite Hzero. apply andb_false_r.
Qed.

Lemma zero_stock_fixed (report_date : date) (now : timestamp)
      (r : inventory_row) :
  Sql.stale report_date r = false -> Sql.zero_stock report_date now r = r.
Proof. intros Hs. unfold Sql.zero_stock. rewrite Hs. reflexivity. Qed.

Lemma filter_none {A : Type} (p : A -> bool) (l : list A) :
  Forall (fun x => p x = false) l -> filter p l = [].
Proof.
  induction 1 as [|x l Hx _ IH]; simpl; [reflexivity|].
  rewrite Hx. exact IH.
Qed.

Lemma map_fixed {A : Type} (f : A -> A) (l : list A) :
  Forall (fun x => f x = x) l -> map f l = l.
Proof.
  induction 1 as [|x l Hx _ IH]; simpl; [reflexivity|].
  rewrite Hx, IH. reflexivity.
Qed.

End InventoryStatements.

(** X12.  An upsert concerns one key only: the rows with any other key
    are exactly as before, in the same order; the table gets one row
    longer when the key was absent and keeps its length when it was
    there; and the rows that were there keep their ids. *)
Theorem update_inventory_leaves_other_keys :
  forall (P : Platform) (d : inventory_data) (now : timestamp)
         (db : database),
    let db' := snd (Sql.update_inventory d now db) in
    filter (fun r => negb (Sql.same_key d r)) (inventory db')
    = filter (fun r => negb (Sql.same_key d r)) (inventory db)
    /\ List.length (inventory db')
       = List.length (inventory db)
         + (if existsb (Sql.same_key d) (inventory db) then 0 else 1)
    /\ map inv_inventory_id
           (firstn (List.length (inventory db)) (inventory db'))
       = map inv_inventory_id (inventory db).
Proof.
  intros P d now db db'. subst db'. unfold Sql.update_inventory.
  destruct (existsb (Sql.same_key d) (inventory db)) eqn:Hex; simpl.
  - split; [apply filter_others_do_update|].
    split; [rewrite length_map; lia|].
    rewrite <- (length_map (Sql.do_update d now)), firstn_all, map_map.
    apply map_ext. intros r. apply do_update_id.
  - split.
    + rewrite filter_app. simpl.
      assert (Hk : Sql.same_key d (Sql.proposed_row (inventory_seq db) d now)
                   = true)
        by (apply same_key_spec, proposed_row_key).
      rewrite Hk. simpl. apply app_nil_r.
    + split; [rewrite length_app; simpl; lia|].
      rewrite firstn_app, Nat.sub_diag, firstn_all. simpl.
      rewrite app_nil_r. reflexivity.
Qed.

(** X13.  Where zero is not greater than zero, reconciliation leaves no
    fact older than the date with a positive stock, so a second pass with
    the same date affects 0 rows and changes nothing. *)
Theorem reconciliation_is_idempotent :
  forall (P : Platform) (report_date : date) (now now' : timestamp)
         (db : database),
    num_pos num_zero = false ->
    let r1 := Sql.mark_missing_inventory_as_zero report_date now db in
    Forall (fun row =>
              ~ ((inv_report_date row < report_date)%Z
                 /\ exists x, inv_current_stock row = Some x
                              /\ num_pos x = true))
           (inventory (snd r1))
    /\ Sql.mark_missing_inventory_as_zero report_date now' (snd r1)
       = (0, snd r1).
Proof.
  intros P report_date now now' db Hzero r1.
  assert (Hclean : Forall (fun row => Sql.stale report_date row = false)
                          (inventory (snd r1))).
  { subst r1. unfold Sql.mark_missing_inventory_as_zero. simpl.
    apply Forall_map, Forall_forall. intros r _.
    apply zero_stock_not_stale, Hzero. }
  split.
  - apply (Forall_impl _ (P := fun row => Sql.stale report_date row = false));
      [|exact Hclean].
    intros row Hs Hstale. apply stale_spec in Hstale. congruence.
  - unfold Sql.mark_missing_inventory_as_zero at 1.
    rewrite (filter_none _ _ Hclean).
    rewrite (map_fixed (Sql.zero_stock report_date now') (inventory (snd r1))).
    + subst r1. reflexivity.
    + apply (Forall_impl _ (P := fun row => Sql.stale report_date row = false));
        [|exact Hclean].
      intros row Hs. apply zero_stock_fixed, Hs.
Qed.

Lemma reconciliation_is_idempotent_witness :
  Sql.mark_missing_inventory_as_zero (P := Demo.platform) 200%Z 10%Z
    (snd (Sql.mark_missing_inventory_as_zero 200%Z 9%Z Demo.five_facts))
  = (0, snd (Sql.mark_missing_inventory_as_zero 200%Z 9%Z Demo.five_facts)).
Proof.
  apply (reconciliation_is_idempotent Demo.platform 200%Z 9%Z 10%Z
           Demo.five_facts).
  reflexivity.
Defined.

(** X14.  Each method of the store writes to one table: resolving a
    region leaves facilities, product types, products and inventory as
    they were, and likewise for the facility, the product, the product
    type and the inventory fact. *)
Theorem store_methods_write_one_table :
  forall (P : Platform) (now : timestamp) (db : database),
    (forall name,
        let db' := snd (Sql.get_or_create_region name now db) in
        medical_centers db' = medical_centers db
        /\ product_types db' = product_types db
        /\ products db' = products db
        /\ inventory db' = inventory db)
    /\ (forall d,
           let db' := snd (Sql.get_or_create_medical_center d now db) in
           regions db' = regions db
           /\ product_types db' = product_types db
           /\ products db' = products db
           /\ inventory db' = inventory db)
    /\ (forall d,
           let db' := snd (Sql.get_or_create_product d now db) in
           regions db' = regions db
           /\ medical_centers db' = medical_centers db
           /\ product_types db' = product_types db
           /\ inventory db' = inventory db)
    /\ (forall c,
           let db' := snd (Sql.get_product_type_id c now db) in
           regions db' = regions db
           /\ medical_centers db' = medical_centers db
           /\ products db' = products db
           /\ inventory db' = inventory db)
    /\ (forall d,
           let db' := snd (Sql.update_inventory d now db) in
           regions db' = regions db
           /\ medical_centers db' = medical_centers db
           /\ product_types db' = product_types db
           /\ products db' = products db).
Proof.
  intros P now db. split; [|split; [|split; [|split]]].
  - intros name. unfold Sql.get_or_create_region.
    destruct (find _ (regions db)); simpl; repeat split; reflexivity.
  - intros d. unfold Sql.get_or_create_medical_center.
    destruct (find _ (medical_centers db)); simpl; repeat split; reflexivity.
  - intros d. unfold Sql.get_or_create_product.
    destruct (find _ (products db)); simpl; repeat split; reflexivity.
  - intros c. unfold Sql.get_product_type_id.
    destruct (Sql.select_type_id c db); simpl; [repeat split; reflexivity|].
    unfold Sql.insert_type_if_absent.
    destruct (existsb _ (product_types db)); simpl;
      match goal with
      | |- context [if ?b then _ else _] => destruct b
      end; simpl; repeat split; reflexivity.
  - intros d. unfold Sql.update_inventory.
    destruct (existsb _ (inventory db)); simpl; repeat split; reflexivity.
Qed.

(** X15.  [get_connection] retries a bounded number of times: it yields
    the connection of the first call of the pool that succeeds among the
    first [retries] calls, having made no call after it, and it raises
    [OperationalError] after exactly [retries] calls when all of them
    fail. *)
Theorem get_connection_bounded_retry :
  forall (E : env) (retries n : nat),
    (forall k,
        k < retries ->
        getconn_ok E (n + k) = true ->
        (forall j, j < k -> getconn_ok E (n + j) = false) ->
        Store.get_connection E retries n = (n + k + 1, inr (n + k)))
    /\ (0 < retries ->
        (forall j, j < retries -> getconn_ok E (n + j) = false) ->
        Store.get_connection E retries n
        = (n + retries, inl OperationalError)).
Proof.
  intros E retries n. unfold Store.get_connection. split.
  - intros k. apply get_connection_first_success.
  - apply get_connection_all_fail.
Qed.

Lemma get_connection_bounded_retry_witness :
  Store.get_connection
    {| getconn_ok := fun n => Nat.eqb n 6;
       stmt_fault := fun _ => None;
       txn_time := fun n => Z.of_nat n;
       today := 739000%Z |} 3 5
  = (7, inr 6)
  /\ Store.get_connection Demo.offline 3 5 = (8, inl OperationalError).
Proof.
  split.
  - destruct (get_connection_bounded_retry
                {| getconn_ok := fun n => Nat.eqb n 6;
                   stmt_fault := fun _ => None;
                   txn_time := fun n => Z.of_nat n;
                   today := 739000%Z |} 3 5) as [Hfirst _].
    apply (Hfirst 1).
    + lia.
    + reflexivity.
    + intros j Hj. assert (j = 0) as -> by lia. reflexivity.
  - destruct (get_connection_bounded_retry Demo.offline 3 5) as [_ Hall].
    apply Hall.
    + lia.
    + intros j Hj. reflexivity.
Defined.

(** ** The orchestrator: records that never reach the store *)

Section NoStoreCall.
Context {P : Platform} (E : env).
Import ETL.

Lemma null_region_raises (r : Parser.record) (s : processor) :
  mem (upper (Parser.diresa r)) ["NULL"; "NONE"] = true ->
  _process_region E r s
  = (s, inl (ValueError ("Invalid region name: " ++ Parser.diresa r))).
Proof.
  intros Hnull. unfold _process_region.
  assert (Hguard : is_empty (Parser.diresa r)
                   || mem (upper (Parser.diresa r)) ["NULL"; "NONE"; ""]
                   = true).
  { apply orb_true_iff. right. unfold mem in *. simpl in *.
    rewrite orb_false_r in Hnull. rewrite orb_assoc, Hnull. reflexivity. }
  rewrite Hguard. reflexivity.
Qed.

Lemma invalid_records_leave_the_store (records : list Parser.record) :
  forall s,
    (forall r, In r records -> _validate_record r = false) ->
    exists s',
      for_each (process_one E) records s = (s', inr tt)
      /\ the_db s' = the_db s
      /\ latest_report_date s' = latest_report_date s.
Proof.
  induction records as [|r records IH]; intros s Hall; simpl.
  - exists s. repeat split; reflexivity.
  - unfold bind.
    rewrite (validation_failure_skips E r s (Hall r (or_introl eq_refl))).
    destruct (IH {| the_stats := incr_processed (incr_skipped (the_stats s));
                    processed_items := processed_items s;
                    latest_report_date := latest_report_date s;
                    the_db := the_db s |})
      as (s' & Hf & Hdb & Hl).
    { intros r' Hr'. apply Hall. right. exact Hr'. }
    exists s'. split; [exact Hf|]. split; assumption.
Qed.

End NoStoreCall.

(** X16.  A record that passes validation and whose region name is NULL
    or NONE in any letter case is rejected before the store is called:
    the batch loop counts one error, and the database manager (tables and
    connection attempts) is as it was, so no region is inserted. *)
Theorem null_region_is_rejected_without_store_call :
  forall (P : Platform) (E : env) (r : Parser.record) (s : ETL.processor),
    ETL._validate_record r = true ->
    mem (upper (Parser.diresa r)) ["NULL"; "NONE"] = true ->
    exists s',
      ETL.process_one E r s = (s', inr tt)
      /\ ETL.the_db s' = ETL.the_db s
      /\ ETL.errors (ETL.the_stats s') = ETL.errors (ETL.the_stats s) + 1
      /\ ETL.processed (ETL.the_stats s') = ETL.processed (ETL.the_stats s)
      /\ ETL.regions_created (ETL.the_stats s')
         = ETL.regions_created (ETL.the_stats s).
Proof.
  intros P E r s Hv Hnull.
  destruct (pipeline_cases E r s Hv) as (s1 & Ht & _ & Hst & Hcases).
  destruct (track_latest r s) as (s1' & Ht' & _ & _ & Hdb).
  rewrite Ht in Ht'. inversion Ht'; subst s1'. clear Ht'.
  pose proof (null_region_raises E r s1 Hnull) as Hreg.
  destruct Hcases as [(s2 & e & Hr & Hrec)|(s2 & rid & Hr & _)];
    [|rewrite Hreg in Hr; discriminate].
  rewrite Hreg in Hr. inversion Hr; subst s2 e. clear Hr.
  destruct (process_one_cases E r s)
    as [(s3 & Hr & _)|(s3 & e & Hr & Ho)];
    rewrite Hrec in Hr; [discriminate|].
  inversion Hr; subst s3 e.
  eexists. split; [exact Ho|]. simpl. rewrite Hst.
  repeat split; [exact Hdb].
Qed.

Lemma null_region_is_rejected_without_store_call_witness :
  exists s',
    ETL.process_one Demo.calm
      (P := Demo.platform)
      (Parser._create_record (P := Demo.platform)
         (Demo.split_fields "" Demo.null_region_line))
      (ETL.init {| Store.db := Demo.empty_db; Store.attempts := 0 |})
    = (s', inr tt)
    /\ ETL.the_db s' = {| Store.db := Demo.empty_db; Store.attempts := 0 |}
    /\ ETL.errors (ETL.the_stats s') = 0 + 1
    /\ ETL.processed (ETL.the_stats s') = 0
    /\ ETL.regions_created (ETL.the_stats s') = 0.
Proof.
  apply (null_region_is_rejected_without_store_call Demo.platform Demo.calm
           (Parser._create_record (P := Demo.platform)
              (Demo.split_fields "" Demo.null_region_line))
           (ETL.init {| Store.db := Demo.empty_db; Store.attempts := 0 |})).
  - reflexivity.
  - reflexivity.
Defined.

(** X17.  A run in which no record passes validation never calls the
    store: the database manager is as it was, no date is tracked, and
    [cleanup_missing_inventory] returns 0 without reconciling. *)
Theorem run_without_valid_record_leaves_the_store :
  forall (P : Platform) (E : env) (records : list Parser.record)
         (db_manager : Store.world),
    (forall r, In r records -> ETL._validate_record r = false) ->
    exists s',
      ETL.process_records E records (ETL.init db_manager)
      = (s', inr (ETL.the_stats s'))
      /\ ETL.the_db s' = db_manager
      /\ ETL.latest_report_date s' = None
      /\ ETL.cleanup_missing_inventory E s' = (s', inr 0).
Proof.
  intros P E records db_manager Hall.
  destruct (process_records_returns E records (ETL.init db_manager))
    as (s' & Hp & Hf).
  destruct (invalid_records_leave_the_store E records (ETL.init db_manager)
              Hall) as (s'' & Hf' & Hdb & Hl).
  rewrite Hf in Hf'. inversion Hf'; subst s''.
  exists s'. split; [exact Hp|]. split; [exact Hdb|]. split; [exact Hl|].
  unfold ETL.cleanup_missing_inventory, ETL.bind, ETL.get.
  rewrite Hl. reflexivity.
Qed.

Lemma run_without_valid_record_leaves_the_store_witness :
  exists s',
    ETL.process_records Demo.offline
      (Demo.records_of [Demo.no_date_line; Demo.no_stock_line])
      (ETL.init {| Store.db := Demo.empty_db; Store.attempts := 0 |})
    = (s', inr (ETL.the_stats s'))
    /\ ETL.the_db s' = {| Store.db := Demo.empty_db; Store.attempts := 0 |}
    /\ ETL.latest_report_date s' = None
    /\ ETL.cleanup_missing_inventory Demo.offline s' = (s', inr 0).
Proof.
  apply (run_without_valid_record_leaves_the_store Demo.platform
           Demo.offline).
  intros r Hr. simpl in Hr. destruct Hr as [<-|[<-|[]]]; reflexivity.
Defined.

(** ** The orchestrator: what a record that ran to the end has written *)

Section Steps.
Context {P : Platform} (E : env).
Import ETL.

(** A method of the manager that returns has run its statements once. *)
Lemma call_cursor_returns {A : Type}
      (body : timestamp -> database -> A * database)
      (s s' : processor) (a : A) :
  call_db (Store.get_cursor E body) s = (s', inr a) ->
  exists now, body now (tables s) = (a, tables s').
Proof.
  unfold call_db, tables.
  destruct (get_cursor_cases E body (the_db s)) as [(n & ex & Hc)|(n & k & Hc)];
    rewrite Hc; intros H; inversion H.
  exists (txn_time E k). simpl.
  destruct (body (txn_time E k) (Store.db (the_db s))). reflexivity.
Qed.

Lemma region_step (r : Parser.record) (s s' : processor) (rid : ident) :
  _process_region E r s = (s', inr rid) ->
  exists now,
    Sql.get_or_create_region (Parser.diresa r) now (tables s)
    = (rid, tables s').
Proof.
  unfold _process_region.
  destruct (is_empty (Parser.diresa r) || _); [discriminate|].
  rewrite try_reraise. unfold bind.
  destruct (call_db (Store.get_or_create_region E (Parser.diresa r)) s)
    as [s1 [e|rid']] eqn:Hcall; [discriminate|].
  apply call_cursor_returns in Hcall. destruct Hcall as (now & Hbody).
  unfold update_stats, modify, ret. intros H. inversion H; subst.
  exists now. exact Hbody.
Qed.

Lemma center_step (r : Parser.record) (rid : ident) (s s' : processor)
      (cid : ident) :
  _process_medical_center E r rid s = (s', inr cid) ->
  exists now d,
    cd_code d = Parser.codpre r
    /\ cd_name d = Parser.nombre_ejecutora r
    /\ cd_region_id d = rid
    /\ Sql.get_or_create_medical_center d now (tables s) = (cid, tables s').
Proof.
  unfold _process_medical_center. rewrite try_reraise. intros Hcall.
  apply call_cursor_returns in Hcall. destruct Hcall as (now & Hbody).
  eexists now, _. split; [|split; [|split; [|exact Hbody]]]; reflexivity.
Qed.

Lemma type_lookup_result (c : string) (now : timestamp) (db : database) :
  fst (Sql.get_product_type_id c now db)
  = Sql.select_type_id c (snd (Sql.get_product_type_id c now db)).
Proof.
  unfold Sql.get_product_type_id.
  destruct (Sql.select_type_id c db) eqn:Hsel; simpl; [symmetry; exact Hsel|].
  reflexivity.
Qed.

Lemma product_step (r : Parser.record) (s s' : processor) (pid : ident) :
  _process_product E r s = (s', inr pid) ->
  exists now1 now2 tid d,
    fst (Sql.get_product_type_id (Parser.tipo_prod r) now1 (tables s))
    = Some tid
    /\ tid <> 0%Z
    /\ pd_code d = Parser.codmed r
    /\ pd_name d = Parser.nombre_prod r
    /\ pd_type_id d = tid
    /\ Sql.get_or_create_product d now2
         (snd (Sql.get_product_type_id (Parser.tipo_prod r) now1 (tables s)))
       = (pid, tables s').
Proof.
  unfold _process_product, bind.
  destruct (call_db (Store.get_product_type_id E (Parser.tipo_prod r)) s)
    as [s1 [e|type_id]] eqn:Hcall; [discriminate|].
  apply call_cursor_returns in Hcall. destruct Hcall as (now1 & Hbody1).
  destruct type_id as [tid|]; [|discriminate].
  unfold id_truthy. destruct (Z.eqb_spec tid 0) as [Hz|Hnz];
    [discriminate|].
  cbn [negb]. rewrite try_reraise. intros Hcall.
  apply call_cursor_returns in Hcall. destruct Hcall as (now2 & Hbody2).
  exists now1, now2, tid. eexists.
  rewrite Hbody1. simpl.
  split; [reflexivity|]. split; [exact Hnz|].
  split; [|split; [|split; [|exact Hbody2]]]; reflexivity.
Qed.

End Steps.

(** X18.  When [_process_record] runs a record that passes validation to
    the end, the tables hold a region with the record's region name, a
    facility with its facility code that refers to that region, a product
    type with its type code, a product with its product code that refers
    to that type, and an inventory fact with its report date that refers
    to that facility and that product. *)
Theorem processed_record_is_linked :
  forall (P : Platform) (E : env) (r : Parser.record)
         (s s' : ETL.processor),
    ETL._validate_record r = true ->
    ETL._process_record E r s = (s', inr tt) ->
    exists region center ptype product fact,
      In region (regions (ETL.tables s'))
      /\ rg_name region = Parser.diresa r
      /\ In center (medical_centers (ETL.tables s'))
      /\ mc_code center = Parser.codpre r
      /\ mc_name center = Parser.nombre_ejecutora r
      /\ mc_region_id center = rg_region_id region
      /\ In ptype (product_types (ETL.tables s'))
      /\ pt_code ptype = Parser.tipo_prod r
      /\ In product (products (ETL.tables s'))
      /\ pr_code product = Parser.codmed r
      /\ pr_name product = Parser.nombre_prod r
      /\ pr_type_id product = pt_type_id ptype
      /\ In fact (inventory (ETL.tables s'))
      /\ inv_center_id fact = mc_center_id center
      /\ inv_product_id fact = pr_product_id product
      /\ Some (inv_report_date fact) = Parser.fechareporte r.
Proof.
  intros P E r s s' Hv Hrec.
  destruct (validated_has_date r Hv) as (d & Hd).
  destruct (pipeline_cases E r s Hv) as (s1 & _ & _ & _ & Hcases).
  destruct Hcases as [(s2 & e & _ & Hf)|(s2 & rid & Hreg & Hcases)];
    [rewrite Hf in Hrec; discriminate|].
  destruct Hcases as [(s3 & e & _ & Hf)|(s3 & cid & Hcen & Hcases)];
    [rewrite Hf in Hrec; discriminate|].
  destruct Hcases as [(s4 & e & _ & Hf)|(s4 & pid & Hpro & Hcases)];
    [rewrite Hf in Hrec; discriminate|].
  destruct Hcases as [(s5 & e & _ & Hf)|(s5 & Hinv & Hf)];
    [rewrite Hf in Hrec; discriminate|].
  rewrite Hf in Hrec. inversion Hrec as [Hs']. clear Hrec Hf Hs'.
  change (ETL.tables (ETL.with_item (cid, pid) s5)) with (ETL.tables s5).
  (* the region *)
  destruct (region_step E r s1 s2 rid Hreg) as (now1 & Hb1).
  destruct (region_found_after (Parser.diresa r) now1 (ETL.tables s1))
    as (region & Hfr & Hrid & Hrname).
  rewrite Hb1 in Hfr, Hrid. simpl in Hfr, Hrid.
  apply find_some in Hfr. destruct Hfr as [Hrin _].
  (* the facility *)
  destruct (center_step E r rid s2 s3 cid Hcen)
    as (now2 & cd & Hcd1 & Hcd2 & Hcd3 & Hb2).
  destruct (center_found_after cd now2 (ETL.tables s2))
    as (center & Hfc & Hcid & Hccode & Hcname & Hcreg & _).
  pose proof (center_statements_frame cd now2 (ETL.tables s2)) as Hfr2.
  assert (Hregs3 : regions (ETL.tables s3) = regions (ETL.tables s2)).
  { pose proof (f_equal snd Hb2) as Hsnd. simpl in Hsnd. rewrite <- Hsnd.
    unfold Sql.get_or_create_medical_center.
    destruct (find _ (medical_centers (ETL.tables s2))); reflexivity. }
  rewrite Hb2 in Hfc, Hcid. simpl in Hfc, Hcid.
  apply find_some in Hfc. destruct Hfc as [Hcin _].
  (* the product type and the product *)
  destruct (product_step E r s3 s4 pid Hpro)
    as (now3 & now4 & tid & pd & Htid & _ & Hpd1 & Hpd2 & Hpd3 & Hb4).
  set (db3 := snd (Sql.get_product_type_id (Parser.tipo_prod r) now3
                     (ETL.tables s3))) in *.
  rewrite type_lookup_result in Htid. fold db3 in Htid.
  destruct (select_some_row _ _ _ Htid) as (ptype & Htin & Htcode & Htyid).
  assert (Hkeep3 : regions db3 = regions (ETL.tables s3)
                   /\ medical_centers db3 = medical_centers (ETL.tables s3)).
  { subst db3. unfold Sql.get_product_type_id.
    destruct (Sql.select_type_id _ (ETL.tables s3)); simpl; [tauto|].
    unfold Sql.insert_type_if_absent.
    destruct (existsb _ (product_types (ETL.tables s3))); simpl;
      match goal with
      | |- context [if ?b then _ else _] => destruct b
      end; simpl; tauto. }
  destruct (product_found_after pd now4 db3)
    as (product & Hfp & Hpid & Hpcode & Hpname & Hptype).
  assert (Hkeep4 : regions (ETL.tables s4) = regions db3
                   /\ medical_centers (ETL.tables s4) = medical_centers db3
                   /\ product_types (ETL.tables s4) = product_types db3).
  { pose proof (f_equal snd Hb4) as Hsnd. simpl in Hsnd. rewrite <- Hsnd.
    unfold Sql.get_or_create_product.
    destruct (find _ (products db3)); simpl; tauto. }
  rewrite Hb4 in Hfp, Hpid. simpl in Hfp, Hpid.
  apply find_some in Hfp. destruct Hfp as [Hpin _].
  (* the inventory fact *)
  destruct (process_inventory_returns E r cid pid s4 s5 Hinv) as (now5 & Hb5).
  destruct (update_inventory_row (ETL.make_inventory_data E r cid pid) now5
              (ETL.tables s4)) as (fact & Hfin & Hkey & _).
  rewrite <- Hb5 in Hfin.
  unfold Sql.row_key, Sql.data_key in Hkey. simpl in Hkey.
  rewrite Hd in Hkey. inversion Hkey as [[Hfc' Hfp' Hfd]].
  assert (Hkeep5 : regions (ETL.tables s5) = regions (ETL.tables s4)
                   /\ medical_centers (ETL.tables s5)
                      = medical_centers (ETL.tables s4)
                   /\ product_types (ETL.tables s5)
                      = product_types (ETL.tables s4)
                   /\ products (ETL.tables s5) = products (ETL.tables s4)).
  { rewrite Hb5. unfold Sql.update_inventory.
    destruct (existsb _ (inventory (ETL.tables s4))); simpl; tauto. }
  destruct Hkeep3 as (K3r & K3c). destruct Hkeep4 as (K4r & K4c & K4t).
  destruct Hkeep5 as (K5r & K5c & K5t & K5p).
  exists region, center, ptype, product, fact.
  rewrite K5r, K4r, K3r, Hregs3, K5c, K4c, K3c, K5t, K4t, K5p.
  repeat split; try assumption; try congruence.
Qed.

Lemma processed_record_is_linked_witness :
  exists s' region center ptype product fact,
    ETL._process_record Demo.calm
      (P := Demo.platform)
      (Parser._create_record (P := Demo.platform)
         (Demo.split_fields "" Demo.good_line))
      (ETL.init {| Store.db := Demo.empty_db; Store.attempts := 0 |})
    = (s', inr tt)
    /\ In region (regions (ETL.tables s'))
    /\ rg_name region = "LIMA"
    /\ In center (medical_centers (ETL.tables s'))
    /\ mc_region_id center = rg_region_id region
    /\ In ptype (product_types (ETL.tables s'))
    /\ In product (products (ETL.tables s'))
    /\ pr_type_id product = pt_type_id ptype
    /\ In fact (inventory (ETL.tables s'))
    /\ inv_center_id fact = mc_center_id center
    /\ inv_product_id fact = pr_product_id product.
Proof.
  assert (Hreturns :
            snd (ETL._process_record Demo.calm
                   (P := Demo.platform)
                   (Parser._create_record (P := Demo.platform)
                      (Demo.split_fields "" Demo.good_line))
                   (ETL.init {| Store.db := Demo.empty_db;
                                Store.attempts := 0 |}))
            = inr tt)
    by (vm_compute; reflexivity).
  destruct (ETL._process_record Demo.calm
              (P := Demo.platform)
              (Parser._create_record (P := Demo.platform)
                 (Demo.split_fields "" Demo.good_line))
              (ETL.init {| Store.db := Demo.empty_db; Store.attempts := 0 |}))
    as [s' res] eqn:Hrun.
  simpl in Hreturns. subst res.
  destruct (processed_record_is_linked Demo.platform Demo.calm
              (Parser._create_record (P := Demo.platform)
                 (Demo.split_fields "" Demo.good_line))
              (ETL.init {| Store.db := Demo.empty_db; Store.attempts := 0 |})
              s' eq_refl Hrun)
    as (region & center & ptype & product & fact & H).
  exists s', region, center, ptype, product, fact.
  split; [reflexivity|]. tauto.
Defined.

(** ** The orchestrator: counters over a run *)

Section RunCounters.
Context {P : Platform} (E : env).
Import ETL.

Lemma validated_record_keeps_skipped (r : Parser.record) :
  _validate_record r = true ->
  keeps (fun s => skipped (the_stats s)) (_process_record E r).
Proof.
  intros Hv. unfold _process_record. rewrite Hv. cbn [negb].
  unfold track_latest_report_date, _process_region,
    _process_medical_center, _process_product, _process_inventory,
    add_processed_item, update_stats.
  footprint.
Qed.

Lemma process_one_skipped (r : Parser.record) (s s' : processor) :
  process_one E r s = (s', inr tt) ->
  skipped (the_stats s')
  = skipped (the_stats s) + (if _validate_record r then 0 else 1)
  /\ processed (the_stats s) + (if _validate_record r then 0 else 1)
     <= processed (the_stats s').
Proof.
  destruct (_validate_record r) eqn:Hv.
  - destruct (process_one_cases E r s)
      as [(s1 & Hr & Ho)|(s1 & e & Hr & Ho)];
      rewrite Ho; intros H; inversion H; subst; simpl;
      pose proof (validated_record_keeps_skipped r Hv _ _ _ Hr) as Hk;
      pose proof (process_record_counters E r _ _ _ Hr) as Hc;
      unfold batch_counters in Hc; inversion Hc as [[Hp He]];
      simpl in Hk; rewrite Hk, Hp; lia.
  - rewrite (validation_failure_skips E r s Hv).
    intros H. inversion H. simpl. lia.
Qed.

Lemma for_each_skipped (records : list Parser.record) :
  forall s s',
    for_each (process_one E) records s = (s', inr tt) ->
    skipped (the_stats s')
    = skipped (the_stats s)
      + List.length (filter (fun r => negb (_validate_record r)) records)
    /\ processed (the_stats s)
       + List.length (filter (fun r => negb (_validate_record r)) records)
       <= processed (the_stats s').
Proof.
  induction records as [|r records IH]; intros s s' H.
  - inversion H. simpl. lia.
  - simpl in H. unfold bind in H.
    destruct (process_one_count E r s) as (s1 & Ho & _).
    rewrite Ho in H.
    destruct (process_one_skipped r s s1 Ho) as [Hs Hp].
    destruct (IH s1 s' H) as [IHs IHp].
    simpl filter. destruct (_validate_record r); simpl; lia.
Qed.

End RunCounters.

(** X19.  In the statistics of a run, [skipped] is the number of records
    that the orchestrator's validation rejects, and it never exceeds
    [processed]. *)
Theorem skipped_counts_rejected_records :
  forall (P : Platform) (E : env) (records : list Parser.record)
         (db_manager : Store.world),
    exists s',
      ETL.process_records E records (ETL.init db_manager)
      = (s', inr (ETL.the_stats s'))
      /\ ETL.skipped (ETL.the_stats s')
         = List.length
             (filter (fun r => negb (ETL._validate_record r)) records)
      /\ ETL.skipped (ETL.the_stats s') <= ETL.processed (ETL.the_stats s').
Proof.
  intros P E records db_manager.
  destruct (process_records_returns E records (ETL.init db_manager))
    as (s' & Hp & Hf).
  exists s'. split; [exact Hp|].
  destruct (for_each_skipped E records _ _ Hf) as [Hs Hle].
  simpl in Hs, Hle. lia.
Qed.

(** X20.  Batching is invisible: [process_records] leaves the processor
    that running the body of the batch loop on every record, in the order
    of the list, leaves, and returns its statistics. *)
Theorem process_records_ignores_batches :
  forall (P : Platform) (E : env) (records : list Parser.record)
         (s : ETL.processor),
    ETL.process_records E records s
    = (fst (ETL.for_each (ETL.process_one E) records s),
       inr (ETL.the_stats
              (fst (ETL.for_each (ETL.process_one E) records s)))).
Proof.
  intros P E records s.
  destruct (process_records_returns E records s) as (s' & Hp & Hf).
  rewrite Hp, Hf. reflexivity.
Qed.

(** ** The orchestrator: a record on a reachable store *)

Section Reachable.
Context {P : Platform} (E : env).
Import ETL.

Hypothesis reachable : forall n, getconn_ok E n = true.
Hypothesis no_fault : forall n, stmt_fault E n = None.

Lemma call_db_reachable {A : Type}
      (body : timestamp -> database -> A * database) (s : processor) :
  exists s',
    call_db (Store.get_cursor E body) s
    = (s', inr (fst (body (txn_time E (Store.attempts (the_db s)))
                          (tables s))))
    /\ tables s'
       = snd (body (txn_time E (Store.attempts (the_db s))) (tables s)).
Proof.
  unfold call_db, Store.get_cursor, Store.get_connection, tables. simpl.
  rewrite reachable, no_fault.
  destruct (body (txn_time E (Store.attempts (the_db s)))
                 (Store.db (the_db s))) as [a db'].
  eexists. split; reflexivity.
Qed.

Lemma validated_has_region (r : Parser.record) :
  _validate_record r = true -> is_empty (Parser.diresa r) = false.
Proof.
  unfold _validate_record. intros H.
  destruct (is_empty (Parser.diresa r)); [simpl in H; discriminate|].
  reflexivity.
Qed.

Lemma region_runs (r : Parser.record) (s : processor) :
  is_empty (Parser.diresa r) = false ->
  mem (upper (Parser.diresa r)) ["NULL"; "NONE"] = false ->
  exists s' rid, _process_region E r s = (s', inr rid).
Proof.
  intros Hne Hnull. unfold _process_region.
  assert (Hguard : is_empty (Parser.diresa r)
                   || mem (upper (Parser.diresa r)) ["NULL"; "NONE"; ""]
                   = false).
  { rewrite Hne. unfold mem in *. simpl in *.
    rewrite orb_false_r in Hnull. rewrite orb_assoc, Hnull. simpl.
    rewrite orb_false_r.
    destruct (Parser.diresa r); [discriminate|reflexivity]. }
  rewrite Hguard, try_reraise. unfold bind.
  destruct (call_db_reachable
              (Sql.get_or_create_region (Parser.diresa r)) s)
    as (s1 & Hcall & _).
  unfold Store.get_or_create_region. rewrite Hcall.
  eexists _, _. reflexivity.
Qed.

Lemma center_runs (r : Parser.record) (rid : ident) (s : processor) :
  exists s' cid, _process_medical_center E r rid s = (s', inr cid).
Proof.
  unfold _process_medical_center. rewrite try_reraise.
  unfold Store.get_or_create_medical_center.
  match goal with
  | |- context [Store.get_cursor E ?body] =>
      destruct (call_db_reachable body s) as (s1 & Hcall & _)
  end.
  rewrite Hcall. eexists _, _. reflexivity.
Qed.

Lemma product_runs (r : Parser.record) (s : processor) (tid : ident) :
  Sql.select_type_id (Parser.tipo_prod r) (tables s) = Some tid ->
  tid <> 0%Z ->
  exists s' pid, _process_product E r s = (s', inr pid).
Proof.
  intros Hsel Hnz. unfold _process_product, bind.
  destruct (call_db_reachable
              (Sql.get_product_type_id (Parser.tipo_prod r)) s)
    as (s1 & Hcall & _).
  unfold Store.get_product_type_id. rewrite Hcall.
  assert (Hfst : fst (Sql.get_product_type_id (Parser.tipo_prod r)
                        (txn_time E (Store.attempts (the_db s))) (tables s))
                 = Some tid)
    by (unfold Sql.get_product_type_id; rewrite Hsel; reflexivity).
  rewrite Hfst. unfold id_truthy. destruct (Z.eqb_spec tid 0) as [Hz|_]; [contradiction|].
  cbn [negb]. rewrite try_reraise.
  unfold Store.get_or_create_product.
  match goal with
  | |- context [Store.get_cursor E ?body] =>
      destruct (call_db_reachable body s1) as (s2 & Hcall2 & _)
  end.
  rewrite Hcall2. eexists _, _. reflexivity.
Qed.

Lemma inventory_runs (r : Parser.record) (cid pid : ident) (s : processor) :
  exists s', _process_inventory E r cid pid s = (s', inr tt).
Proof.
  unfold _process_inventory. rewrite try_reraise.
  unfold Store.update_inventory.
  destruct (call_db_reachable
              (Sql.update_inventory (make_inventory_data E r cid pid)) s)
    as (s1 & Hcall & _).
  rewrite Hcall.
  destruct (Sql.update_inventory _ _ _) as [[] db']. eexists. reflexivity.
Qed.

(** With every connection handed out and no statement failing, a record
    that passes validation, names a region, and has a type code of the
    table with a non-zero id runs to the end. *)
Lemma valid_record_runs (r : Parser.record) (s : processor) (tid : ident) :
  _validate_record r = true ->
  mem (upper (Parser.diresa r)) ["NULL"; "NONE"] = false ->
  Sql.select_type_id (Parser.tipo_prod r) (tables s) = Some tid ->
  tid <> 0%Z ->
  exists s', _process_record E r s = (s', inr tt).
Proof.
  intros Hv Hnull Hsel Hnz.
  destruct (pipeline_cases E r s Hv) as (s1 & _ & Hdb1 & _ & Hcases).
  destruct (region_runs r s1 (validated_has_region r Hv) Hnull)
    as (s2' & rid' & Hreg).
  destruct Hcases as [(s2 & e & Hr & _)|(s2 & rid & Hr & Hcases)];
    [rewrite Hreg in Hr; discriminate|].
  pose proof (process_region_frame E r _ _ _ Hr) as Hf2. cbv beta in Hf2.
  destruct (center_runs r rid s2) as (s3' & cid' & Hcen).
  destruct Hcases as [(s3 & e & Hc & _)|(s3 & cid & Hc & Hcases)];
    [rewrite Hcen in Hc; discriminate|].
  pose proof (process_medical_center_frame E r rid _ _ _ Hc) as Hf3.
  cbv beta in Hf3.
  assert (Hsel3 : Sql.select_type_id (Parser.tipo_prod r) (tables s3)
                  = Some tid).
  { unfold later_tables in Hf2, Hf3.
    inversion Hf2 as [[Ht2 Hx2 Hy2]]. inversion Hf3 as [[Ht3 Hx3 Hy3]].
    unfold Sql.select_type_id, tables in *.
    rewrite Ht3, Ht2. rewrite <- Hdb1 in Hsel. exact Hsel. }
  destruct (product_runs r s3 tid Hsel3 Hnz) as (s4' & pid' & Hpro).
  destruct Hcases as [(s4 & e & Hp & _)|(s4 & pid & Hp & Hcases)];
    [rewrite Hpro in Hp; discriminate|].
  destruct (inventory_runs r cid pid s4) as (s5' & Hinv).
  destruct Hcases as [(s5 & e & Hi & _)|(s5 & Hi & Hrec)];
    [rewrite Hinv in Hi; discriminate|].
  eexists. exact Hrec.
Qed.

End Reachable.

(** X21.  On a store that hands out every connection and on which no
    statement and no commit fails, a record that passes validation, whose
    region name is not NULL or NONE, and whose type code is in the
    product-type table with a non-zero id, is processed to the end: the
    batch loop counts it as processed and not as an error. *)
Theorem valid_record_on_reachable_store_is_processed :
  forall (P : Platform) (E : env) (r : Parser.record) (s : ETL.processor)
         (tid : ident),
    (forall n, getconn_ok E n = true) ->
    (forall n, stmt_fault E n = None) ->
    ETL._validate_record r = true ->
    mem (upper (Parser.diresa r)) ["NULL"; "NONE"] = false ->
    Sql.select_type_id (Parser.tipo_prod r) (ETL.tables s) = Some tid ->
    tid <> 0%Z ->
    exists s',
      ETL.process_one E r s = (s', inr tt)
      /\ (exists s1, ETL._process_record E r s = (s1, inr tt))
      /\ ETL.processed (ETL.the_stats s')
         = ETL.processed (ETL.the_stats s) + 1
      /\ ETL.errors (ETL.the_stats s') = ETL.errors (ETL.the_stats s).
Proof.
  intros P E r s tid Hreach Hnone Hv Hnull Hsel Hnz.
  destruct (valid_record_runs E Hreach Hnone r s tid Hv Hnull Hsel Hnz)
    as (s1 & Hrec).
  destruct (process_one_cases E r s)
    as [(s1' & Hr & Ho)|(s1' & e & Hr & _)];
    rewrite Hrec in Hr; [|discriminate].
  inversion Hr; subst s1'.
  pose proof (process_record_counters E r _ _ _ Hrec) as Hk.
  unfold ETL.batch_counters in Hk. inversion Hk as [[Hp He]].
  eexists. split; [exact Ho|]. split; [exists s1; exact Hrec|].
  simpl. rewrite Hp, He. split; reflexivity.
Qed.

Lemma valid_record_on_reachable_store_is_processed_witness :
  exists s',
    ETL.process_one Demo.calm
      (P := Demo.platform)
      (Parser._create_record (P := Demo.platform)
         (Demo.split_fields "" Demo.good_line))
      (ETL.init
         {| Store.db := snd (Sql.get_product_type_id "M" 0%Z Demo.empty_db);
            Store.attempts := 0 |})
    = (s', inr tt)
    /\ ETL.processed (ETL.the_stats s') = 0 + 1
    /\ ETL.errors (ETL.the_stats s') = 0.
Proof.
  destruct (valid_record_on_reachable_store_is_processed
              Demo.platform Demo.calm
              (Parser._create_record (P := Demo.platform)
                 (Demo.split_fields "" Demo.good_line))
              (ETL.init
                 {| Store.db :=
                      snd (Sql.get_product_type_id "M" 0%Z Demo.empty_db);
                    Store.attempts := 0 |})
              1%Z)
    as (s' & Ho & _ & Hp & He).
  - intros n. reflexivity.
  - intros n. reflexivity.
  - reflexivity.
  - reflexivity.
  - reflexivity.
  - discriminate.
  - exists s'. repeat split; assumption.
Defined.

(** ** The run, end to end *)

(** X22.  [cleanup_missing_inventory] reconciles with the tracked date
    and with nothing else.  Without a tracked date it returns 0 and leaves
    the processor alone.  With a tracked date [d], when one of the three
    calls of the pool hands out a connection on which nothing fails, it
    returns the number of rows older than [d] with positive stock and
    leaves the tables the UPDATE for [d] leaves; when the method of the
    store raises, it returns 0 with the tables untouched.  It never
    raises, and it changes neither the statistics, nor the processed
    items, nor the tracked date. *)
Theorem cleanup_uses_the_tracked_date :
  forall (P : Platform) (E : env) (s : ETL.processor),
    (ETL.latest_report_date s = None ->
     ETL.cleanup_missing_inventory E s = (s, inr 0))
    /\ (forall d k,
           ETL.latest_report_date s = Some d ->
           k < 3 ->
           getconn_ok E (Store.attempts (ETL.the_db s) + k) = true ->
           (forall j, j < k ->
                      getconn_ok E (Store.attempts (ETL.the_db s) + j)
                      = false) ->
           stmt_fault E (Store.attempts (ETL.the_db s) + k) = None ->
           exists s',
             ETL.cleanup_missing_inventory E s
             = (s', inr (List.length (filter (Sql.stale d)
                                             (inventory (ETL.tables s)))))
             /\ ETL.tables s'
                = snd (Sql.mark_missing_inventory_as_zero d
                         (txn_time E (Store.attempts (ETL.the_db s) + k))
                         (ETL.tables s)))
    /\ (forall d e,
           ETL.latest_report_date s = Some d ->
           snd (Store.mark_missing_inventory_as_zero E d (ETL.the_db s))
           = inl e ->
           exists s',
             ETL.cleanup_missing_inventory E s = (s', inr 0)
             /\ ETL.tables s' = ETL.tables s)
    /\ (exists s' count,
           ETL.cleanup_missing_inventory E s = (s', inr count)
           /\ ETL.the_stats s' = ETL.the_stats s
           /\ ETL.processed_items s' = ETL.processed_items s
           /\ ETL.latest_report_date s' = ETL.latest_report_date s).
Proof.
  intros P E s. split; [|split; [|split]].
  - intros Hnone.
    unfold ETL.cleanup_missing_inventory, ETL.bind, ETL.get.
    rewrite Hnone. reflexivity.
  - intros d k Hdate Hk Hok Hfail Hnf.
    unfold ETL.cleanup_missing_inventory, ETL.bind, ETL.get.
    rewrite Hdate.
    unfold ETL.try_except, ETL.call_db,
      Store.mark_missing_inventory_as_zero.
    rewrite (get_cursor_returns E _ (ETL.the_db s) k Hk Hok Hfail Hnf).
    eexists. split; reflexivity.
  - intros d e Hdate Hraise.
    unfold ETL.cleanup_missing_inventory, ETL.bind, ETL.get.
    rewrite Hdate.
    unfold ETL.try_except, ETL.call_db, ETL.ret.
    unfold Store.mark_missing_inventory_as_zero in *.
    destruct (get_cursor_cases E (Sql.mark_missing_inventory_as_zero d)
                               (ETL.the_db s))
      as [(n & ex & Hc)|(n & k & Hc)]; rewrite Hc in *; simpl in Hraise;
      [|discriminate].
    eexists. split; reflexivity.
  - destruct (cleanup_returns E s) as (s' & count & Hc).
    exists s', count. split; [exact Hc|].
    assert (Hk1 : ETL.keeps ETL.the_stats (ETL.cleanup_missing_inventory E))
      by (unfold ETL.cleanup_missing_inventory; footprint).
    assert (Hk2 : ETL.keeps ETL.processed_items
                            (ETL.cleanup_missing_inventory E))
      by (unfold ETL.cleanup_missing_inventory; footprint).
    assert (Hk3 : ETL.keeps ETL.latest_report_date
                            (ETL.cleanup_missing_inventory E))
      by (unfold ETL.cleanup_missing_inventory; footprint).
    split; [apply (Hk1 _ _ _ Hc)|].
    split; [apply (Hk2 _ _ _ Hc)|apply (Hk3 _ _ _ Hc)].
Qed.

Lemma cleanup_uses_the_tracked_date_witness :
  exists s',
    ETL.cleanup_missing_inventory Demo.calm
      (Demo.tracking 200%Z Demo.five_facts)
    = (s', inr 1)
    /\ map inv_current_stock (inventory (ETL.tables s'))
       = [Some 0%Q; Some (7 # 1)%Q; Some 0%Q; None; Some (-3 # 1)%Q].
Proof.
  destruct (cleanup_uses_the_tracked_date Demo.platform Demo.calm
              (Demo.tracking 200%Z Demo.five_facts))
    as (_ & Hrun & _).
  destruct (Hrun 200%Z 0) as (s' & Hc & Ht).
  - reflexivity.
  - lia.
  - reflexivity.
  - intros j Hj. lia.
  - reflexivity.
  - exists s'. split; [exact Hc|]. rewrite Ht. reflexivity.
Defined.

(** X23.  A run that gets to its end accounts for every line of the file
    exactly once: the line is the header, or the parser passes over it
    (blank, or starting with the marker), or the parser counts it as an
    error, or the orchestrator counts its record as processed or as an
    error. *)
Theorem run_accounts_for_every_line :
  forall (P : Platform) (E : env) (tables : database) (lines : list string),
    exists o,
      Ingestor.run E (inr tables) (inr lines) = inr o
      /\ ETL.processed (Ingestor.out_stats o)
         + ETL.errors (Ingestor.out_stats o)
         = List.length (Parser.records (Parser.parse lines))
      /\ ETL.processed (Ingestor.out_stats o)
         + ETL.errors (Ingestor.out_stats o)
         + Parser.error_count (Parser.parse lines)
         + List.length (filter Parser.skipped_line
                               (Parser.after_header lines))
         + match lines with
           | [] => 0
           | first_line :: _ =>
               if startswith (strip first_line) "nombre_ejecutora" then 1
               else 0
           end
         = List.length lines.
Proof.
  intros P E tables lines. unfold Ingestor.run.
  destruct (process_records_returns E
              (Parser.records (Parser.parse lines))
              (ETL.init {| Store.db := tables; Store.attempts := 0 |}))
    as (s1 & Hp & Hf).
  rewrite Hp.
  destruct (cleanup_returns E s1) as (s2 & count & Hc). rewrite Hc.
  eexists. split; [reflexivity|]. simpl.
  destruct (for_each_process_one E
              (Parser.records (Parser.parse lines))
              (ETL.init {| Store.db := tables; Store.attempts := 0 |}))
    as (s1' & Hf' & Hn).
  rewrite Hf in Hf'. inversion Hf'; subst s1'. simpl in Hn.
  split; [exact Hn|]. rewrite Hn. unfold Parser.parse.
  destruct (parse_lines_accounts (Parser.after_header lines)
              Parser.parse_init) as [Hacc _].
  simpl in Hacc.
  destruct lines as [|first_line rest]; [simpl in *; lia|].
  unfold Parser.after_header in *.
  destruct (startswith (strip first_line) "nombre_ejecutora");
    simpl List.length in *; lia.
Qed.



Lemma product_type_lookup_only_appends_witness :
  exists extra,
    product_types
      (snd (Sql.get_product_type_id (P := Demo.platform) "X" 7%Z
              Demo.empty_db))
    = (product_types Demo.empty_db ++ extra)%list
    /\ List.length extra <= 2
    /\ (Sql.select_type_id "X" Demo.empty_db <> None -> extra = [])
    /\ (NoDup (map pt_code (product_types Demo.empty_db)) ->
        NoDup (map pt_code
                   (product_types
                      (snd (Sql.get_product_type_id "X" 7%Z
                              Demo.empty_db))))).
Proof.
  apply (product_type_lookup_only_appends Demo.platform "X" 7%Z
           Demo.empty_db).
Defined.
